(** * Interaction layer of the Ramya Dentistry site: a shallow embedding

    The repository holds four revisions of one script:
    - [V3]: src/script.js, first document  ("Version: 3.0");
    - [V2]: src/script.js, second document ("Version: 2.0");
    - [P0]: src/unnamed/part_000, first document;
    - [P1]: src/unnamed/part_000, second document (batched reveals).

    The script only talks to the browser: DOM nodes, [localStorage],
    [matchMedia], [IntersectionObserver], [requestAnimationFrame] and
    [setTimeout].  The browser is modelled as an explicit [World] that the
    handlers thread through a state-and-exception monad; a thrown exception
    keeps the writes made before it, as in JavaScript. *)

From stdpp Require Import gmap strings list fin_maps.
From Stdlib Require Import ZArith.

#[local] Set Warnings "-clear-no-such-hyp".

Local Open Scope string_scope.
Local Open Scope list_scope.
Local Open Scope nat_scope.
Local Open Scope stdpp_scope.

(** ** The document *)

(** A node is its position in tree order; node 0 is [document.documentElement]. *)
Definition node := nat.

Record Element := mkElement {
  tagName : string;
  parentNode : option node;
  attrs : gmap string string;
  classList : gset string;
  textContent : string;
  style : gmap string string
}.

Definition set_attrs (f : gmap string string → gmap string string) (e : Element) : Element :=
  mkElement (tagName e) (parentNode e) (f (attrs e)) (classList e) (textContent e) (style e).
Definition set_classList (f : gset string → gset string) (e : Element) : Element :=
  mkElement (tagName e) (parentNode e) (attrs e) (f (classList e)) (textContent e) (style e).
Definition set_textContent (s : string) (e : Element) : Element :=
  mkElement (tagName e) (parentNode e) (attrs e) (classList e) s (style e).
Definition set_style (f : gmap string string → gmap string string) (e : Element) : Element :=
  mkElement (tagName e) (parentNode e) (attrs e) (classList e) (textContent e) (f (style e)).

(** Every DOM mutation the script performs, in call order. *)
Inductive Write :=
| WSetAttribute (n : node) (name value : string)
| WClassAdd (n : node) (c : string)
| WClassRemove (n : node) (c : string)
| WTextContent (n : node) (s : string)
| WStyle (n : node) (prop value : string).

Global Instance Write_eq_dec : EqDecision Write.
Proof. solve_decision. Defined.

(** ** The browser around the document *)

Inductive exn := TypeError | SecurityError | QuotaExceededError.

(** [localStorage]: usable, denied (every access throws) or full
    ([setItem] throws, [getItem] works). *)
Inductive StorageStatus := StorageOk | StorageDenied | StorageFull.

(** The closures the script hands to [addEventListener]. *)
Inductive Closure :=
| V3_themeClick (themeIcon : option node)
| P0_themeClick (themeIcon : option node)
| P1_themeClick (icon : node)
| V3_hamburgerClick (hamburgerBtn navMenu : node)
| V3_linkClick (hamburgerBtn navMenu : node)
| V3_outsideClick (hamburgerBtn navMenu : node)
| P1_hamburgerClick (btn menu : node)
| P1_linkClick (btn menu : node)
| P1_outsideClick (btn menu : node)
| V3_facadeClick (facade iframe : node)
| V2_facadeClick (facade iframe : node)
| stickyCallback (header : node)
| backToTopCallback (btn : node)
| backToTopClick.

(** [None] as a target is [document]. *)
Record Listener := mkListener {
  l_target : option node;
  l_type : string;
  l_closure : Closure
}.

Record World := mkWorld {
  nodes : list Element;
  (* position of the body element; document.body is null when it is not there *)
  body : node;
  storage : gmap string string;
  storageStatus : StorageStatus;
  prefersDark : bool;
  listeners : list Listener;
  (* observers of the header sentinel: callback and observed node *)
  sentinelObservers : list (Closure * node);
  (* the reveal observer's observation targets *)
  observed : gset node;
  (* closure variables of initScrollReveal *)
  visibleElements : list node;
  rafId : option Z;
  (* requestAnimationFrame: last identifier handed out, pending callbacks *)
  frameCounter : Z;
  frameCallbacks : list Z;
  (* setTimeout: pending timers, each hiding a facade after a delay (ms) *)
  timeouts : list (Z * node);
  (* vertical scroll position of the window *)
  scrollTop : Z;
  (* the DOM mutation calls made so far *)
  writes : list Write
}.

Definition with_nodes (f : list Element → list Element) (w : World) : World :=
  mkWorld (f (nodes w)) (body w) (storage w) (storageStatus w) (prefersDark w)
    (listeners w) (sentinelObservers w) (observed w) (visibleElements w) (rafId w)
    (frameCounter w) (frameCallbacks w) (timeouts w) (scrollTop w) (writes w).
Definition with_storage (f : gmap string string → gmap string string) (w : World) : World :=
  mkWorld (nodes w) (body w) (f (storage w)) (storageStatus w) (prefersDark w)
    (listeners w) (sentinelObservers w) (observed w) (visibleElements w) (rafId w)
    (frameCounter w) (frameCallbacks w) (timeouts w) (scrollTop w) (writes w).
Definition with_listeners (f : list Listener → list Listener) (w : World) : World :=
  mkWorld (nodes w) (body w) (storage w) (storageStatus w) (prefersDark w)
    (f (listeners w)) (sentinelObservers w) (observed w) (visibleElements w) (rafId w)
    (frameCounter w) (frameCallbacks w) (timeouts w) (scrollTop w) (writes w).
Definition with_sentinelObservers (f : list (Closure * node) → list (Closure * node)) (w : World) : World :=
  mkWorld (nodes w) (body w) (storage w) (storageStatus w) (prefersDark w) (listeners w)
    (f (sentinelObservers w)) (observed w) (visibleElements w) (rafId w) (frameCounter w)
    (frameCallbacks w) (timeouts w) (scrollTop w) (writes w).
Definition with_observed (f : gset node → gset node) (w : World) : World :=
  mkWorld (nodes w) (body w) (storage w) (storageStatus w) (prefersDark w) (listeners w)
    (sentinelObservers w) (f (observed w)) (visibleElements w) (rafId w) (frameCounter w)
    (frameCallbacks w) (timeouts w) (scrollTop w) (writes w).
Definition with_visibleElements (f : list node → list node) (w : World) : World :=
  mkWorld (nodes w) (body w) (storage w) (storageStatus w) (prefersDark w) (listeners w)
    (sentinelObservers w) (observed w) (f (visibleElements w)) (rafId w) (frameCounter w)
    (frameCallbacks w) (timeouts w) (scrollTop w) (writes w).
Definition with_timeouts (f : list (Z * node) → list (Z * node)) (w : World) : World :=
  mkWorld (nodes w) (body w) (storage w) (storageStatus w) (prefersDark w) (listeners w)
    (sentinelObservers w) (observed w) (visibleElements w) (rafId w) (frameCounter w)
    (frameCallbacks w) (f (timeouts w)) (scrollTop w) (writes w).
Definition with_writes (f : list Write → list Write) (w : World) : World :=
  mkWorld (nodes w) (body w) (storage w) (storageStatus w) (prefersDark w) (listeners w)
    (sentinelObservers w) (observed w) (visibleElements w) (rafId w) (frameCounter w)
    (frameCallbacks w) (timeouts w) (scrollTop w) (f (writes w)).
Definition with_rafId (r : option Z) (w : World) : World :=
  mkWorld (nodes w) (body w) (storage w) (storageStatus w) (prefersDark w) (listeners w)
    (sentinelObservers w) (observed w) (visibleElements w) r (frameCounter w)
    (frameCallbacks w) (timeouts w) (scrollTop w) (writes w).
Definition with_frameCounter (c : Z) (w : World) : World :=
  mkWorld (nodes w) (body w) (storage w) (storageStatus w) (prefersDark w) (listeners w)
    (sentinelObservers w) (observed w) (visibleElements w) (rafId w) c (frameCallbacks w)
    (timeouts w) (scrollTop w) (writes w).
Definition with_frameCallbacks (q : list Z) (w : World) : World :=
  mkWorld (nodes w) (body w) (storage w) (storageStatus w) (prefersDark w) (listeners w)
    (sentinelObservers w) (observed w) (visibleElements w) (rafId w) (frameCounter w) q
    (timeouts w) (scrollTop w) (writes w).
Definition with_scrollTop (y : Z) (w : World) : World :=
  mkWorld (nodes w) (body w) (storage w) (storageStatus w) (prefersDark w) (listeners w)
    (sentinelObservers w) (observed w) (visibleElements w) (rafId w) (frameCounter w)
    (frameCallbacks w) (timeouts w) y (writes w).

(** One DOM mutation: change the node in place and record the call. *)
Definition mutate (n : node) (f : Element → Element) (wr : Write) (w : World) : World :=
  with_writes (λ l, l ++ [wr]) (with_nodes (alter f n) w).

(** ** Reading the document *)

Definition attr (w : World) (n : node) (name : string) : option string :=
  nodes w !! n ≫= λ e, attrs e !! name.
Definition hasClass (w : World) (n : node) (c : string) : bool :=
  match nodes w !! n with
  | Some e => bool_decide (c ∈ classList e)
  | None => false
  end.
Definition text (w : World) (n : node) : option string :=
  textContent <$> nodes w !! n.
(** An inline style property that was never set, or was set to the empty
    string, reads as the empty string. *)
Definition styleOf (w : World) (n : node) (prop : string) : string :=
  match nodes w !! n ≫= λ e, style e !! prop with
  | Some v => v
  | None => ""
  end.

(** [a.contains(b)]: [b] is [a] or has [a] among its ancestors.  In tree
    order a parent comes before its children, so the length of the document
    bounds the walk. *)
Fixpoint contains_fuel (fuel : nat) (w : World) (a b : node) : bool :=
  if bool_decide (a = b) then true
  else match fuel with
       | O => false
       | S fuel' =>
           match nodes w !! b ≫= parentNode with
           | Some p => contains_fuel fuel' w a p
           | None => false
           end
       end.
Definition contains (w : World) (a b : node) : bool :=
  contains_fuel (length (nodes w)) w a b.

Definition tagOf (w : World) (n : node) : option string :=
  tagName <$> nodes w !! n.

(** Positions of the elements passing [test], in tree order. *)
Definition select (test : node → bool) (w : World) : list node :=
  List.filter test (seq 0 (length (nodes w))).

Definition getElementById (id : string) (w : World) : option node :=
  head (select (λ n, bool_decide (attr w n "id" = Some id)) w).

(** [document.querySelector('.c')] and [document.querySelectorAll('.c')]. *)
Definition querySelectorAll_class (c : string) (w : World) : list node :=
  select (λ n, hasClass w n c) w.
Definition querySelector_class (c : string) (w : World) : option node :=
  head (querySelectorAll_class c w).

(** [root.querySelectorAll(sel)]: the proper descendants of [root] that match. *)
Definition descendants (root : node) (test : node → bool) (w : World) : list node :=
  select (λ n, negb (bool_decide (n = root)) && contains w root n && test n) w.
Definition querySelectorAll_tag_in (root : node) (tag : string) (w : World) : list node :=
  descendants root (λ n, bool_decide (tagOf w n = Some tag)) w.
Definition querySelector_tag_in (root : node) (tag : string) (w : World) : option node :=
  head (querySelectorAll_tag_in root tag w).
Definition querySelector_class_in (root : node) (c : string) (w : World) : option node :=
  head (descendants root (λ n, hasClass w n c) w).

(** ['.reveal-wrapper:not(.hero-content .reveal-wrapper)']: reveal wrappers
    with no proper ancestor of class [hero-content]. *)
Definition inside_class (c : string) (w : World) (n : node) : bool :=
  bool_decide (Exists (λ a, a ≠ n ∧ hasClass w a c = true ∧ contains w a n = true)
                 (seq 0 (length (nodes w)))).
Definition querySelectorAll_reveal_not_hero (w : World) : list node :=
  select (λ n, hasClass w n "reveal-wrapper" && negb (inside_class "hero-content" w n)) w.

(** ** Writing the document *)

Definition setAttribute (n : node) (name value : string) : World → World :=
  mutate n (set_attrs (<[name := value]>)) (WSetAttribute n name value).
Definition classList_add (n : node) (c : string) : World → World :=
  mutate n (set_classList (λ s, {[c]} ∪ s)) (WClassAdd n c).
Definition classList_remove (n : node) (c : string) : World → World :=
  mutate n (set_classList (λ s, s ∖ {[c]})) (WClassRemove n c).
(** [n.textContent = s].  The scripts assign to icon glyphs, whose only child
    is their text; element children of [n], which the assignment would take
    out of the document, are not modelled. *)
Definition set_text (n : node) (s : string) : World → World :=
  mutate n (set_textContent s) (WTextContent n s).
(** Assigning the empty string removes the inline declaration. *)
Definition set_styleProp (n : node) (prop value : string) : World → World :=
  mutate n (set_style (if bool_decide (value = "") then delete prop else <[prop := value]>))
    (WStyle n prop value).

(** ** JavaScript values the script relies on *)

(** [String(b)], as [setAttribute] applies it to a boolean argument. *)
Definition string_of_boolean (b : bool) : string := if b then "true" else "false".

(** Truthiness of a value that is [null] or a string: [null] and the empty
    string are falsy. *)
Definition truthy_string (v : option string) : bool :=
  match v with
  | Some s => negb (bool_decide (s = ""))
  | None => false
  end.

(** Truthiness of a value that is [null] or a number: [null] and 0 are falsy. *)
Definition truthy_number (v : option Z) : bool :=
  match v with
  | Some z => negb (Z.eqb z 0)
  | None => false
  end.

(** ** Computations: state plus exceptions *)

Inductive completion (A : Type) :=
| Normal (a : A)
| Throw (e : exn).
Arguments Normal {A} a.
Arguments Throw {A} e.

Definition M (A : Type) : Type := World → completion A * World.

Definition ret {A} (a : A) : M A := λ w, (Normal a, w).
Definition throw {A} (e : exn) : M A := λ w, (Throw e, w).
Definition bind {A B} (m : M A) (k : A → M B) : M B :=
  λ w, match m w with
       | (Normal a, w') => k a w'
       | (Throw e, w') => (Throw e, w')
       end.
Definition gets {A} (f : World → A) : M A := λ w, (Normal (f w), w).
Definition modify (f : World → World) : M unit := λ w, (Normal tt, f w).

Notation "'let*' x ':=' m 'in' k" := (bind m (λ x, k))
  (at level 10, x name, m at level 100, k at level 200, only parsing).
Notation "m '>>' k" := (bind m (λ _, k))
  (at level 100, k at level 200, right associativity, only parsing).

Definition exec {A} (m : M A) (w : World) : World := snd (m w).
Definition result {A} (m : M A) (w : World) : completion A := fst (m w).

(** [for (x of xs) body(x)], stopping at the first exception. *)
Fixpoint forEach {A} (body : A → M unit) (xs : list A) : M unit :=
  match xs with
  | [] => ret tt
  | x :: xs' => body x >> forEach body xs'
  end.

(** A property access on a value that may be [null]. *)
Definition deref (n : option node) : M node :=
  match n with
  | Some x => ret x
  | None => throw TypeError
  end.

(** [list.toggle(c)] returns whether the token is present afterwards. *)
Definition classList_toggled (n : node) (c : string) (w : World) : World :=
  if hasClass w n c then classList_remove n c w else classList_add n c w.
Definition classList_toggle (n : node) (c : string) : M bool :=
  λ w, (Normal (negb (hasClass w n c)), classList_toggled n c w).
(** [list.toggle(c, force)]. *)
Definition classList_toggle_force (n : node) (c : string) (force : bool) : M bool :=
  λ w, if force then (Normal true, classList_add n c w)
       else (Normal false, classList_remove n c w).

Definition localStorage_getItem (key : string) : M (option string) :=
  λ w, match storageStatus w with
       | StorageDenied => (Throw SecurityError, w)
       | _ => (Normal (storage w !! key), w)
       end.
Definition localStorage_setItem (key value : string) : M unit :=
  λ w, match storageStatus w with
       | StorageOk => (Normal tt, with_storage (<[key := value]>) w)
       | StorageDenied => (Throw SecurityError, w)
       | StorageFull => (Throw QuotaExceededError, w)
       end.

Definition addEventListener (target : option node) (type : string) (c : Closure) : M unit :=
  modify (with_listeners (λ l, l ++ [mkListener target type c])).

(** [requestAnimationFrame]: the identifier is incremented, the callback is
    queued under it, and the identifier is returned. *)
Definition requestAnimationFrame : M Z :=
  λ w, let id := (frameCounter w + 1)%Z in
       (Normal id, with_frameCallbacks (frameCallbacks w ++ [id]) (with_frameCounter id w)).

(** [setTimeout(() => { facade.style.display = 'none' }, delay)]. *)
Definition setTimeout_hide (facade : node) (delay : Z) : M unit :=
  modify (with_timeouts (λ l, l ++ [(delay, facade)])).

(** [observer.observe(el)] and [observer.unobserve(el)] on the reveal observer. *)
Definition observe (n : node) : M unit := modify (with_observed (λ s, {[n]} ∪ s)).
Definition unobserve (n : node) : M unit := modify (with_observed (λ s, s ∖ {[n]})).

(** An [IntersectionObserverEntry], as far as the script reads it. *)
Record Entry := mkEntry {
  target : node;
  isIntersecting : bool
}.

Definition documentElement : node := 0.

(** [document.documentElement] and [document.body]: [null] in a document
    without a root element, respectively without a body element. *)
Definition document_documentElement (w : World) : option node :=
  match nodes w !! documentElement with
  | Some _ => Some documentElement
  | None => None
  end.
Definition document_body (w : World) : option node :=
  match nodes w !! body w with
  | Some _ => Some (body w)
  | None => None
  end.

(** [new IntersectionObserver(cb, ...).observe(sentinel)]. *)
Definition observeSentinel (cb : Closure) (sentinel : node) : M unit :=
  modify (with_sentinelObservers (λ l, l ++ [(cb, sentinel)])).

(** [window.scrollTo({ top: 0, behavior: 'smooth' })]: the position the
    animation ends at. *)
Definition scrollToTop : M unit := modify (with_scrollTop 0%Z).

(** ** src/script.js, Version 3.0 *)
Module V3.

(** *** 1. Theme engine *)

Definition updateIcon (themeIcon : option node) (isDark : bool) : M unit :=
  match themeIcon with
  | Some icon => modify (set_text icon (if isDark then "light_mode" else "dark_mode"))
  | None => ret tt
  end.

(** [currentTheme === 'dark' || (!currentTheme && systemDark)] *)
Definition isDarkInitial (currentTheme : option string) (systemDark : bool) : bool :=
  bool_decide (currentTheme = Some "dark")
  || (negb (truthy_string currentTheme) && systemDark).

(** [htmlElement] was read when the page was set up; the script never adds
    or removes an element, so the root read at the click is the same. *)
Definition themeClick (themeIcon : option node) : M unit :=
  let* htmlElement := gets document_documentElement in
  let* html := deref htmlElement in
  classList_toggle html "dark-mode" >>
  let* isDarkNow := gets (λ w, hasClass w html "dark-mode") in
  updateIcon themeIcon isDarkNow >>
  localStorage_setItem "theme" (if isDarkNow then "dark" else "light").

Definition initThemeToggle : M unit :=
  let* toggleBtn := gets (getElementById "theme-toggle-btn") in
  let* themeIcon := gets (getElementById "theme-icon") in
  let* currentTheme := localStorage_getItem "theme" in
  let* systemDark := gets prefersDark in
  updateIcon themeIcon (isDarkInitial currentTheme systemDark) >>
  match toggleBtn with
  | Some b => addEventListener (Some b) "click" (V3_themeClick themeIcon)
  | None => ret tt
  end.

(** *** 2. Navigation *)

Definition stickyObserver (header : node) (entry : Entry) : M unit :=
  if negb (isIntersecting entry)
  then modify (classList_add header "scrolled")
  else modify (classList_remove header "scrolled").

Definition toggleMenu (hamburgerBtn navMenu : node) : M unit :=
  let* a := gets (λ w, attr w hamburgerBtn "aria-expanded") in
  let isExpanded := bool_decide (a = Some "true") in
  modify (setAttribute hamburgerBtn "aria-expanded" (string_of_boolean (negb isExpanded))) >>
  classList_toggle hamburgerBtn "active" >>
  classList_toggle navMenu "active" >>
  let* documentBody := gets document_body in
  let* b := deref documentBody in
  modify (set_styleProp b "overflow" (if negb isExpanded then "hidden" else "")) >>
  let* iconSpan := gets (querySelector_tag_in hamburgerBtn "span") in
  match iconSpan with
  | Some span => modify (set_text span (if negb isExpanded then "close" else "menu"))
  | None => ret tt
  end.

(** [e.stopPropagation()] only keeps the click from reaching [document]. *)
Definition hamburgerClick (hamburgerBtn navMenu : node) : M unit :=
  toggleMenu hamburgerBtn navMenu.

Definition linkClick (hamburgerBtn navMenu : node) : M unit :=
  let* active := gets (λ w, hasClass w navMenu "active") in
  if active then toggleMenu hamburgerBtn navMenu else ret tt.

Definition outsideClick (hamburgerBtn navMenu : node) (e_target : node) : M unit :=
  let* c := gets (λ w, hasClass w navMenu "active"
                       && negb (contains w navMenu e_target)
                       && negb (contains w hamburgerBtn e_target)) in
  if c then toggleMenu hamburgerBtn navMenu else ret tt.

Definition initNavigation : M unit :=
  let* header := gets (querySelector_class "main-header") in
  let* sentinel := gets (getElementById "header-sentinel") in
  let* hamburgerBtn := gets (getElementById "hamburger-button") in
  let* navMenu := gets (getElementById "nav-links-menu") in
  match header, sentinel with
  | Some h, Some s => observeSentinel (stickyCallback h) s
  | _, _ => ret tt
  end >>
  match hamburgerBtn, navMenu with
  | Some b, Some m =>
      addEventListener (Some b) "click" (V3_hamburgerClick b m) >>
      let* links := gets (querySelectorAll_tag_in m "a") in
      forEach (λ link, addEventListener (Some link) "click" (V3_linkClick b m)) links >>
      addEventListener None "click" (V3_outsideClick b m)
  | _, _ => ret tt
  end.

(** *** 3. Scroll reveal *)

Definition revealObserver (entries : list Entry) : M unit :=
  forEach (λ entry,
    if isIntersecting entry then
      modify (classList_add (target entry) "visible") >>
      unobserve (target entry)
    else ret tt) entries.

Definition initScrollAnimations : M unit :=
  let* elements := gets (querySelectorAll_class "reveal-wrapper") in
  if bool_decide (length elements = 0) then ret tt
  else forEach observe elements.

(** *** 4. Matterport facade *)

Definition facadeClick (facade iframe : node) : M unit :=
  let* src := gets (λ w, attr w iframe "data-src") in
  match src with
  | Some s =>
      if truthy_string src then
        modify (setAttribute iframe "src" s) >>
        modify (set_styleProp facade "opacity" "0") >>
        modify (set_styleProp facade "pointerEvents" "none") >>
        setTimeout_hide facade 500
      else ret tt
  | None => ret tt
  end.

Definition initMatterportFacade : M unit :=
  let* facade := gets (querySelector_class "matterport-facade") in
  let* iframe := gets (getElementById "matterport-frame") in
  match facade, iframe with
  | Some f, Some i => addEventListener (Some f) "click" (V3_facadeClick f i)
  | _, _ => ret tt
  end.

(** *** 5. Back to top *)

Definition btnObserver (btn : node) (entry : Entry) : M unit :=
  if negb (isIntersecting entry)
  then modify (classList_add btn "visible")
  else modify (classList_remove btn "visible").

(** [e.preventDefault()] has no effect on the state modelled here. *)
Definition btnClick : M unit := scrollToTop.

Definition initBackToTop : M unit :=
  let* btn := gets (getElementById "back-to-top-btn") in
  let* sentinel := gets (getElementById "header-sentinel") in
  match btn, sentinel with
  | Some b, Some s =>
      observeSentinel (backToTopCallback b) s >>
      addEventListener (Some b) "click" backToTopClick
  | _, _ => ret tt
  end.

Definition main : M unit :=
  initThemeToggle >> initNavigation >> initScrollAnimations >>
  initMatterportFacade >> initBackToTop.

End V3.

(** ** src/script.js, Version 2.0

    Navigation, scroll reveal and back-to-top read as in Version 3.0; the
    theme initialisation and the facade differ. *)
Module V2.

Definition updateIcon := V3.updateIcon.

Definition initThemeToggle : M unit :=
  let* toggleBtn := gets (getElementById "theme-toggle-btn") in
  let* themeIcon := gets (getElementById "theme-icon") in
  let* htmlElement := gets document_documentElement in
  let* savedTheme := localStorage_getItem "theme" in
  let* systemPrefersDark := gets prefersDark in
  (if bool_decide (savedTheme = Some "dark")
      || (negb (truthy_string savedTheme) && systemPrefersDark)
   then
     let* html := deref htmlElement in
     modify (classList_add html "dark-mode") >> updateIcon themeIcon true
   else updateIcon themeIcon false) >>
  match toggleBtn with
  | Some b => addEventListener (Some b) "click" (V3_themeClick themeIcon)
  | None => ret tt
  end.

Definition facadeClick (facade iframe : node) : M unit :=
  let* src := gets (λ w, attr w iframe "data-src") in
  match src with
  | Some s =>
      if truthy_string src then
        modify (setAttribute iframe "src" s) >>
        modify (set_styleProp facade "opacity" "0") >>
        setTimeout_hide facade 500
      else ret tt
  | None => ret tt
  end.

Definition initMatterportFacade : M unit :=
  let* facade := gets (querySelector_class "matterport-facade") in
  let* iframe := gets (getElementById "matterport-frame") in
  match facade, iframe with
  | Some f, Some i => addEventListener (Some f) "click" (V2_facadeClick f i)
  | _, _ => ret tt
  end.

Definition main : M unit :=
  initThemeToggle >> V3.initNavigation >> initMatterportFacade >>
  V3.initScrollAnimations >> V3.initBackToTop.

End V2.

(** ** src/unnamed/part_000, first document

    Navigation, scroll reveal and back-to-top read as in Version 3.0; there
    is no facade, and [updateIcon] writes to the icon without testing it. *)
Module P0.

Definition updateIcon (themeIcon : option node) (isDark : bool) : M unit :=
  let* icon := deref themeIcon in
  modify (set_text icon (if isDark then "light_mode" else "dark_mode")).

(** [htmlElement] is read again at the click, as in [V3.themeClick]. *)
Definition themeClick (themeIcon : option node) : M unit :=
  let* htmlElement := gets document_documentElement in
  let* html := deref htmlElement in
  classList_toggle html "dark-mode" >>
  let* isDark := gets (λ w, hasClass w html "dark-mode") in
  updateIcon themeIcon isDark >>
  localStorage_setItem "theme" (if isDark then "dark" else "light").

Definition initThemeToggle : M unit :=
  let* toggleBtn := gets (getElementById "theme-toggle-btn") in
  let* themeIcon := gets (getElementById "theme-icon") in
  let* htmlElement := gets document_documentElement in
  let* html := deref htmlElement in
  let* dark := gets (λ w, hasClass w html "dark-mode") in
  (if dark then updateIcon themeIcon true else ret tt) >>
  match toggleBtn with
  | Some b => addEventListener (Some b) "click" (P0_themeClick themeIcon)
  | None => ret tt
  end.

Definition main : M unit :=
  initThemeToggle >> V3.initNavigation >> V3.initScrollAnimations >>
  V3.initBackToTop.

End P0.

(** ** src/unnamed/part_000, second document *)
Module P1.

(** *** 1. Navigation *)

Definition toggleMenu (btn menu : node) (forceClose : bool) : M unit :=
  let* a := gets (λ w, attr w btn "aria-expanded") in
  let isExpanded := bool_decide (a = Some "true") in
  let willExpand := if forceClose then false else negb isExpanded in
  modify (setAttribute btn "aria-expanded" (string_of_boolean willExpand)) >>
  classList_toggle_force menu "active" willExpand >>
  classList_toggle_force btn "active" willExpand >>
  let* icon := gets (querySelector_class_in btn "material-icons-outlined") in
  match icon with
  | Some i => modify (set_text i (if willExpand then "close" else "menu"))
  | None => ret tt
  end >>
  let* documentBody := gets document_body in
  let* b := deref documentBody in
  modify (set_styleProp b "overflow" (if willExpand then "hidden" else "")).

Definition btnClick (btn menu : node) : M unit := toggleMenu btn menu false.

Definition linkClick (btn menu : node) : M unit := toggleMenu btn menu true.

Definition outsideClick (btn menu : node) (e_target : node) : M unit :=
  let* c := gets (λ w, hasClass w menu "active"
                       && negb (contains w menu e_target)
                       && negb (contains w btn e_target)) in
  if c then toggleMenu btn menu true else ret tt.

Definition headerObserver (header : node) (entry : Entry) : M unit :=
  classList_toggle_force header "scrolled" (negb (isIntersecting entry)) >> ret tt.

Definition initNavigation : M unit :=
  let* btn := gets (getElementById "hamburger-button") in
  let* menu := gets (getElementById "nav-links-menu") in
  let* header := gets (querySelector_class "main-header") in
  let* sentinel := gets (getElementById "header-sentinel") in
  match btn, menu with
  | Some b, Some m =>
      addEventListener (Some b) "click" (P1_hamburgerClick b m) >>
      let* links := gets (querySelectorAll_tag_in m "a") in
      forEach (λ link, addEventListener (Some link) "click" (P1_linkClick b m)) links >>
      addEventListener None "click" (P1_outsideClick b m)
  | _, _ => ret tt
  end >>
  match header, sentinel with
  | Some h, Some s => observeSentinel (stickyCallback h) s
  | _, _ => ret tt
  end.

(** *** 2. Batched scroll reveals *)

(** The callback handed to [requestAnimationFrame]. *)
Definition commit : M unit :=
  let* els := gets visibleElements in
  forEach (λ el, modify (classList_add el "visible")) els >>
  modify (with_visibleElements (λ _, [])) >>
  modify (with_rafId None).

(** The [entries.forEach] of the observer callback; the result is
    [hasNewVisible]. *)
Fixpoint collect (entries : list Entry) (hasNewVisible : bool) : M bool :=
  match entries with
  | [] => ret hasNewVisible
  | entry :: rest =>
      if isIntersecting entry then
        modify (with_visibleElements (λ l, l ++ [target entry])) >>
        unobserve (target entry) >>
        collect rest true
      else collect rest hasNewVisible
  end.

Definition observer (entries : list Entry) : M unit :=
  let* hasNewVisible := collect entries false in
  let* id := gets rafId in
  if hasNewVisible && negb (truthy_number id) then
    let* h := requestAnimationFrame in
    modify (with_rafId (Some h))
  else ret tt.

Definition initScrollReveal : M unit :=
  let* elements := gets querySelectorAll_reveal_not_hero in
  if bool_decide (length elements = 0) then ret tt
  else
    modify (with_visibleElements (λ _, [])) >>
    modify (with_rafId None) >>
    forEach observe elements.

(** *** 3. Dark mode toggle *)

(** [html] is read again at the click, as in [V3.themeClick]. *)
Definition themeClick (icon : node) : M unit :=
  let* html := gets document_documentElement in
  let* html := deref html in
  let* isDark := classList_toggle html "dark-mode" in
  modify (set_text icon (if isDark then "light_mode" else "dark_mode")) >>
  localStorage_setItem "theme" (if isDark then "dark" else "light").

Definition initThemeToggle : M unit :=
  let* btn := gets (getElementById "theme-toggle-btn") in
  let* icon := gets (getElementById "theme-icon") in
  let* html := gets document_documentElement in
  match btn, icon with
  | Some b, Some i =>
      let* html := deref html in
      let* dark := gets (λ w, hasClass w html "dark-mode") in
      (if dark then modify (set_text i "light_mode") else ret tt) >>
      addEventListener (Some b) "click" (P1_themeClick i)
  | _, _ => ret tt
  end.

(** *** 4. Back to top *)

Definition initBackToTop : M unit :=
  let* btn := gets (getElementById "back-to-top-btn") in
  let* sentinel := gets (getElementById "header-sentinel") in
  match btn, sentinel with
  | Some b, Some s =>
      addEventListener (Some b) "click" backToTopClick >>
      observeSentinel (backToTopCallback b) s
  | _, _ => ret tt
  end.

Definition main : M unit :=
  initNavigation >> initScrollReveal >> initThemeToggle >> initBackToTop.

End P1.

(** ** What the browser does with what the script registered *)

(** A click reaches a registered closure; [e_target] is [e.target]. *)
Definition callClick (c : Closure) (e_target : node) : M unit :=
  match c with
  | V3_themeClick themeIcon => V3.themeClick themeIcon
  | P0_themeClick themeIcon => P0.themeClick themeIcon
  | P1_themeClick icon => P1.themeClick icon
  | V3_hamburgerClick b m => V3.hamburgerClick b m
  | V3_linkClick b m => V3.linkClick b m
  | V3_outsideClick b m => V3.outsideClick b m e_target
  | P1_hamburgerClick b m => P1.btnClick b m
  | P1_linkClick b m => P1.linkClick b m
  | P1_outsideClick b m => P1.outsideClick b m e_target
  | V3_facadeClick f i => V3.facadeClick f i
  | V2_facadeClick f i => V2.facadeClick f i
  | backToTopClick => V3.btnClick
  | stickyCallback _ | backToTopCallback _ => ret tt
  end.

(** The sentinel crossed the viewport edge. *)
Definition callIntersection (c : Closure) (entry : Entry) : M unit :=
  match c with
  | stickyCallback h => V3.stickyObserver h entry
  | backToTopCallback b => V3.btnObserver b entry
  | _ => ret tt
  end.

(** One rendering frame: the list of pending animation frame callbacks is
    emptied and each one runs.  [initScrollReveal] is the only caller of
    [requestAnimationFrame], so every pending callback is [P1.commit]. *)
Definition runAnimationFrame : M unit :=
  let* q := gets frameCallbacks in
  modify (with_frameCallbacks []) >>
  forEach (λ _, P1.commit) q.

(** The pending timers fire. *)
Definition runTimeouts : M unit :=
  let* ts := gets timeouts in
  modify (with_timeouts (λ _, [])) >>
  forEach (λ t, modify (set_styleProp (snd t) "display" "none")) ts.

(** Observer callbacks delivered one after the other. *)
Definition deliver (cb : list Entry → M unit) (batches : list (list Entry)) : M unit :=
  forEach cb batches.

(** ** Reading the model *)

(** How often the script called [n.classList.add(c)]. *)
Definition count_classAdd (n : node) (c : string) (w : World) : nat :=
  length (List.filter (λ wr, bool_decide (wr = WClassAdd n c)) (writes w)).

(** How often the script called [n.setAttribute(name, _)]. *)
Definition count_setAttribute (n : node) (name : string) (w : World) : nat :=
  length (List.filter (λ wr, match wr with
                             | WSetAttribute n' name' _ => bool_decide (n' = n ∧ name' = name)
                             | _ => false
                             end) (writes w)).

(** The targets of the entries that report an intersection. *)
Definition qualifying (entries : list Entry) : list node :=
  target <$> List.filter isIntersecting entries.

(** ** States of the menu and of the theme *)

(** The trigger and the panel as [initNavigation] finds them, and a body. *)
Definition menuPage (w : World) (b m : node) : Prop :=
  getElementById "hamburger-button" w = Some b
  ∧ getElementById "nav-links-menu" w = Some m
  ∧ is_Some (nodes w !! body w).

Definition Closed (w : World) (b m : node) : Prop :=
  attr w b "aria-expanded" ≠ Some "true"
  ∧ hasClass w b "active" = false
  ∧ hasClass w m "active" = false
  ∧ styleOf w (body w) "overflow" = "".

Definition Open (w : World) (b m : node) : Prop :=
  attr w b "aria-expanded" = Some "true"
  ∧ hasClass w b "active" = true
  ∧ hasClass w m "active" = true
  ∧ styleOf w (body w) "overflow" = "hidden".

Definition iconLabel (dark : bool) : string := if dark then "light_mode" else "dark_mode".

Definition themeToken (dark : bool) : string := if dark then "dark" else "light".

(** ** The reveal controller in the browser *)

(** What the browser can do to the reveal controller: deliver intersection
    entries to the observer callback, or run a rendering frame. *)
Inductive Event :=
| Intersection (entries : list Entry)
| AnimationFrame.

Definition step (cb : list Entry → M unit) (ev : Event) : M unit :=
  match ev with
  | Intersection entries => cb entries
  | AnimationFrame => runAnimationFrame
  end.

Definition run (cb : list Entry → M unit) (trace : list Event) : M unit :=
  forEach (step cb) trace.

(** A delivery in which a callback reports an element as intersecting at
    most once, and only while the observer observes it.  The observer's
    queue collects entries until the callback runs, so the browser does not
    promise this by itself. *)
Definition batch_ok (w : World) (entries : list Entry) : Prop :=
  NoDup (qualifying entries) ∧ ∀ n, n ∈ qualifying entries → n ∈ observed w.

Fixpoint well_delivered (cb : list Entry → M unit) (trace : list Event) (w : World) : Prop :=
  match trace with
  | [] => True
  | ev :: rest =>
      match ev with
      | Intersection entries => batch_ok w entries
      | AnimationFrame => True
      end ∧ well_delivered cb rest (exec (step cb ev) w)
  end.

(** The targets of all qualifying entries of a trace, in delivery order. *)
Definition delivered (trace : list Event) : list node :=
  concat ((λ ev, match ev with
                 | Intersection entries => qualifying entries
                 | AnimationFrame => []
                 end) <$> trace).

(** No reveal is buffered and no commit is scheduled. *)
Definition idle (w : World) : Prop :=
  visibleElements w = [] ∧ rafId w = None ∧ frameCallbacks w = []
  ∧ (0 ≤ frameCounter w)%Z.

(** [els.forEach(el => el.classList.add('visible'))] as a function of the world. *)
Definition addVisible (els : list node) (w : World) : World :=
  foldl (λ w el, classList_add el "visible" w) w els.

(** The reveal controller of part_000 while [q] is buffered: nothing has been
    written yet, and a commit is scheduled exactly when [q] is not empty. *)
Definition buffered (w0 : World) (q : list node) (w : World) : Prop :=
  visibleElements w = q
  ∧ nodes w = nodes w0
  ∧ writes w = writes w0
  ∧ (0 ≤ frameCounter w)%Z
  ∧ match q with
    | [] => rafId w = None ∧ frameCallbacks w = []
    | _ => ∃ h, h ≠ 0%Z ∧ rafId w = Some h ∧ frameCallbacks w = [h]
    end.

(** How often [n] occurs in a list of nodes. *)
Definition occ (n : node) (l : list node) : nat :=
  length (List.filter (λ x, bool_decide (x = n)) l).

(** Commits of [visible] for [n]: those made, plus those buffered. *)
Definition total (n : node) (w : World) : nat :=
  count_classAdd n "visible" w + occ n (visibleElements w).

(** Since [w0], no element has been committed more than once, and an element
    still observed has not been committed at all. *)
Definition once (w0 w : World) : Prop :=
  ∀ n, total n w ≤ count_classAdd n "visible" w0 + 1
       ∧ (n ∈ observed w → total n w = count_classAdd n "visible" w0).

(** From [w] to [w'] the elements [q] qualified: they left the observation
    targets and were committed or buffered, and no class was taken away. *)
Definition progress (q : list node) (w w' : World) : Prop :=
  observed w' = observed w ∖ list_to_set q
  ∧ (∀ n, total n w' = total n w + occ n q)
  ∧ (∀ n c, hasClass w n c = true → hasClass w' n c = true).

(** ** Sample pages *)

(** A page with every element the script looks for. *)
Definition el (tag : string) (parent : option node) (id : option string)
    (classes : list string) (extra : list (string * string)) (txt : string) : Element :=
  mkElement tag parent
    (list_to_map (match id with Some i => [("id", i)] | None => [] end ++ extra))
    (list_to_set classes) txt ∅.

Definition samplePage : World :=
  mkWorld
    [ el "html" None None [] [] "";
      el "body" (Some 0) None [] [] "";
      el "header" (Some 1) None ["main-header"] [] "";
      el "button" (Some 2) (Some "hamburger-button") [] [("aria-expanded", "false")] "";
      el "span" (Some 3) None ["material-icons-outlined"] [] "menu";
      el "nav" (Some 2) (Some "nav-links-menu") [] [] "";
      el "a" (Some 5) None [] [("href", "#about")] "About";
      el "div" (Some 1) (Some "header-sentinel") [] [] "";
      el "button" (Some 2) (Some "theme-toggle-btn") [] [] "";
      el "span" (Some 8) (Some "theme-icon") [] [] "dark_mode";
      el "div" (Some 1) None ["reveal-wrapper"] [] "";
      el "div" (Some 1) None ["reveal-wrapper"] [] "";
      el "div" (Some 1) None ["matterport-facade"] [] "";
      el "iframe" (Some 1) (Some "matterport-frame") [] [("data-src", "https://my.matterport.com/show")] "";
      el "a" (Some 1) (Some "back-to-top-btn") [] [] "" ]
    1 ∅ StorageOk false [] [] ∅ [] None 0%Z [] [] 0%Z [].

(** The sample page with the menu opened by a click on the trigger. *)
Definition samplePageOpen : World := exec (V3.hamburgerClick 3 5) samplePage.

(** A trigger whose attribute reads "TRUE" counts as closed. *)
Definition samplePageMalformed : World :=
  setAttribute 3 "aria-expanded" "TRUE" samplePage.

(** The malformed trigger on a page whose [active] classes are set. *)
Definition samplePageMalformedActive : World :=
  classList_add 5 "active" (classList_add 3 "active" samplePageMalformed).

(** The sample page for a user whose system asks for dark and whose store
    holds the empty string under the theme key. *)
Definition emptyStringStored : World :=
  with_storage (<["theme" := ""]>)
    (mkWorld (nodes samplePage) 1 ∅ StorageOk true [] [] ∅ [] None 0%Z [] [] 0%Z []).

(** The sample page in a browser whose storage quota is exhausted. *)
Definition storageFullPage : World :=
  mkWorld (nodes samplePage) 1 ∅ StorageFull false [] [] ∅ [] None 0%Z [] [] 0%Z [].

(** The sample page without an element carrying the id [theme-icon]. *)
Definition noIconPage : World :=
  with_nodes (alter (set_attrs (delete "id")) 9) samplePage.

(** The same, with the dark class already set by the inline script. *)
Definition noIconDarkPage : World :=
  with_nodes (alter (set_classList (λ s, {["dark-mode"]} ∪ s)) documentElement) noIconPage.

(** The sample page after [initScrollAnimations] / [initScrollReveal]: both
    reveal wrappers are observed. *)
Definition observingPage : World := exec V3.initScrollAnimations samplePage.

(** Element 10 enters the viewport while 11 stays out, a frame passes, 11
    enters, and another frame passes. *)
Definition sampleTrace : list Event :=
  [ Intersection [mkEntry 10 true; mkEntry 11 false];
    AnimationFrame;
    Intersection [mkEntry 11 true];
    AnimationFrame ].

(** ** Menu events, tree shape and computations that only register *)

(** What can happen to the menu: a click on the trigger, on a link inside
    the panel, or a click that reaches the document with target [e_target]. *)
Inductive MenuEvent :=
| TriggerClick
| LinkClick
| DocumentClick (e_target : node).

Definition V3_menuEvent (b m : node) (ev : MenuEvent) : M unit :=
  match ev with
  | TriggerClick => V3.hamburgerClick b m
  | LinkClick => V3.linkClick b m
  | DocumentClick t => V3.outsideClick b m t
  end.

Definition P1_menuEvent (b m : node) (ev : MenuEvent) : M unit :=
  match ev with
  | TriggerClick => P1.btnClick b m
  | LinkClick => P1.linkClick b m
  | DocumentClick t => P1.outsideClick b m t
  end.

(** The nodes the menu handlers hold are there and distinct. *)
Definition menuNodes (w : World) (b m : node) : Prop :=
  b ≠ m ∧ is_Some (nodes w !! b) ∧ is_Some (nodes w !! m) ∧ is_Some (nodes w !! body w).

(** Two worlds with the same tree: as many nodes, with the same tags and
    parents. *)
Definition same_tree (w1 w2 : World) : Prop :=
  length (nodes w1) = length (nodes w2)
  ∧ ∀ n, tagOf w1 n = tagOf w2 n
         ∧ (nodes w1 !! n ≫= parentNode) = (nodes w2 !! n ≫= parentNode).

(** A computation that only registers things with the browser: it returns
    normally and leaves document, write log and store as they were. *)
Definition quiet (m : M unit) : Prop :=
  ∀ w, result m w = Normal tt
       ∧ nodes (exec m w) = nodes w
       ∧ body (exec m w) = body w
       ∧ writes (exec m w) = writes w
       ∧ storage (exec m w) = storage w
       ∧ storageStatus (exec m w) = storageStatus w
       ∧ prefersDark (exec m w) = prefersDark w.

(** The writes the icon synchronisation makes. *)
Definition iconWrite (themeIcon : option node) (dark : bool) : list Write :=
  match themeIcon with
  | Some i => [WTextContent i (iconLabel dark)]
  | None => []
  end.

(** The closures other than the theme handler of part_000's first document
    bound to a missing icon. *)
Definition guarded (c : Closure) : Prop := c ≠ P0_themeClick None.

(** A computation that keeps every registered listener's closure guarded. *)
Definition tame (m : M unit) : Prop :=
  ∀ w, Forall (λ l, guarded (l_closure l)) (listeners w) →
       Forall (λ l, guarded (l_closure l)) (listeners (exec m w)).

(** No element carries one of the ids the scripts look up, and none is a
    reveal wrapper. *)
Definition noControls (w : World) : Prop :=
  Forall (λ id, getElementById id w = None)
    ["theme-toggle-btn"; "theme-icon"; "hamburger-button"; "nav-links-menu";
     "header-sentinel"; "matterport-frame"; "back-to-top-btn"]
  ∧ querySelectorAll_class "reveal-wrapper" w = [].

(** The sample page cut down to its root and body elements. *)
Definition barePage : World := with_nodes (take 2) samplePage.

(** A document without any element, so without root and body, for a user
    whose system asks for dark. *)
Definition emptyDarkPage : World :=
  mkWorld [] 1 ∅ StorageOk true [] [] ∅ [] None 0%Z [] [] 0%Z [].

(** * Properties *)

(** ** The document under a mutation *)

Section Mutation.
Context (n : node) (f : Element → Element) (wr : Write) (w : World).

Lemma lookup_mutate (m : node) :
  nodes (mutate n f wr w) !! m
  = if decide (n = m) then f <$> nodes w !! m else nodes w !! m.
Proof. cbn. rewrite list_lookup_alter. repeat case_decide; by subst. Qed.

Lemma length_mutate : length (nodes (mutate n f wr w)) = length (nodes w).
Proof. cbn. apply length_alter. Qed.

Lemma attr_mutate_other (m : node) (a : string) :
  (∀ e, attrs (f e) = attrs e) → attr (mutate n f wr w) m a = attr w m a.
Proof.
  intros Hf. unfold attr. rewrite lookup_mutate.
  case_decide; [|done]. destruct (nodes w !! m); cbn; [by rewrite Hf|done].
Qed.

Lemma hasClass_mutate_other (m : node) (c : string) :
  (∀ e, classList (f e) = classList e) → hasClass (mutate n f wr w) m c = hasClass w m c.
Proof.
  intros Hf. unfold hasClass. rewrite lookup_mutate.
  case_decide; [|done]. destruct (nodes w !! m); cbn; [by rewrite Hf|done].
Qed.

Lemma styleOf_mutate_other (m : node) (p : string) :
  (∀ e, style (f e) = style e) → styleOf (mutate n f wr w) m p = styleOf w m p.
Proof.
  intros Hf. unfold styleOf. rewrite lookup_mutate.
  case_decide; [|done]. destruct (nodes w !! m); cbn; [by rewrite Hf|done].
Qed.

Lemma text_mutate_other (m : node) :
  (∀ e, textContent (f e) = textContent e) → text (mutate n f wr w) m = text w m.
Proof.
  intros Hf. unfold text. rewrite lookup_mutate.
  case_decide; [|done]. destruct (nodes w !! m); cbn; [by rewrite Hf|done].
Qed.

Lemma exists_mutate (m : node) :
  is_Some (nodes (mutate n f wr w) !! m) ↔ is_Some (nodes w !! m).
Proof.
  rewrite lookup_mutate. case_decide; [|done]. by rewrite fmap_is_Some.
Qed.
End Mutation.

(** ** The four writes, read back *)

Lemma attr_setAttribute_eq w n a v :
  is_Some (nodes w !! n) → attr (setAttribute n a v w) n a = Some v.
Proof.
  intros [e He]. unfold attr, setAttribute. rewrite lookup_mutate, decide_True by done.
  rewrite He. cbn. apply lookup_insert_eq.
Qed.

Lemma attr_setAttribute_ne w n a v m b :
  n ≠ m ∨ a ≠ b → attr (setAttribute n a v w) m b = attr w m b.
Proof.
  intros Hne. unfold attr, setAttribute. rewrite lookup_mutate.
  case_decide as Hnm; [|done]. subst m.
  destruct (nodes w !! n); cbn; [|done].
  apply lookup_insert_ne. by destruct Hne.
Qed.

Lemma hasClass_add_eq w n c :
  is_Some (nodes w !! n) → hasClass (classList_add n c w) n c = true.
Proof.
  intros [e He]. unfold hasClass, classList_add.
  rewrite lookup_mutate, decide_True by done. rewrite He. cbn.
  apply bool_decide_eq_true. set_solver.
Qed.

Lemma hasClass_add_ne w n c m d :
  n ≠ m ∨ c ≠ d → hasClass (classList_add n c w) m d = hasClass w m d.
Proof.
  intros Hne. unfold hasClass, classList_add. rewrite lookup_mutate.
  case_decide as Hnm; [|done]. subst m.
  destruct (nodes w !! n); cbn; [|done].
  apply bool_decide_ext. set_solver.
Qed.

Lemma hasClass_add_mono w n c m d :
  hasClass w m d = true → hasClass (classList_add n c w) m d = true.
Proof.
  unfold hasClass, classList_add. rewrite lookup_mutate.
  case_decide as Hnm; [|done]. subst m.
  destruct (nodes w !! n); cbn; [|done].
  rewrite !bool_decide_eq_true. set_solver.
Qed.

Lemma hasClass_remove_eq w n c : hasClass (classList_remove n c w) n c = false.
Proof.
  unfold hasClass, classList_remove. rewrite lookup_mutate, decide_True by done.
  destruct (nodes w !! n); cbn; [|done].
  apply bool_decide_eq_false. set_solver.
Qed.

Lemma hasClass_remove_ne w n c m d :
  n ≠ m ∨ c ≠ d → hasClass (classList_remove n c w) m d = hasClass w m d.
Proof.
  intros Hne. unfold hasClass, classList_remove. rewrite lookup_mutate.
  case_decide as Hnm; [|done]. subst m.
  destruct (nodes w !! n); cbn; [|done].
  apply bool_decide_ext. set_solver.
Qed.

Lemma styleOf_set_eq w n p v :
  is_Some (nodes w !! n) → styleOf (set_styleProp n p v w) n p = v.
Proof.
  intros [e He]. unfold styleOf, set_styleProp.
  rewrite lookup_mutate, decide_True by done. rewrite He. cbn.
  case_bool_decide as Hv.
  - by rewrite lookup_delete_eq.
  - by rewrite lookup_insert_eq.
Qed.

Lemma styleOf_set_ne w n p v m q :
  n ≠ m ∨ p ≠ q → styleOf (set_styleProp n p v w) m q = styleOf w m q.
Proof.
  intros Hne. unfold styleOf, set_styleProp. rewrite lookup_mutate.
  case_decide as Hnm; [|done]. subst m.
  destruct (nodes w !! n); cbn; [|done].
  assert (p ≠ q) by (by destruct Hne).
  case_bool_decide; by rewrite ?lookup_delete_ne, ?lookup_insert_ne.
Qed.

Lemma text_set_eq w n s :
  is_Some (nodes w !! n) → text (set_text n s w) n = Some s.
Proof.
  intros [e He]. unfold text, set_text.
  rewrite lookup_mutate, decide_True by done. by rewrite He.
Qed.

Lemma text_set_ne w n s m : n ≠ m → text (set_text n s w) m = text w m.
Proof.
  intros Hne. unfold text, set_text. by rewrite lookup_mutate, decide_False.
Qed.

(** Each write leaves the other three kinds of data alone. *)
Lemma hasClass_setAttribute w n a v m c :
  hasClass (setAttribute n a v w) m c = hasClass w m c.
Proof. by apply hasClass_mutate_other. Qed.
Lemma styleOf_setAttribute w n a v m p :
  styleOf (setAttribute n a v w) m p = styleOf w m p.
Proof. by apply styleOf_mutate_other. Qed.
Lemma text_setAttribute w n a v m : text (setAttribute n a v w) m = text w m.
Proof. by apply text_mutate_other. Qed.

Lemma attr_classList_add w n c m a : attr (classList_add n c w) m a = attr w m a.
Proof. by apply attr_mutate_other. Qed.
Lemma styleOf_classList_add w n c m p : styleOf (classList_add n c w) m p = styleOf w m p.
Proof. by apply styleOf_mutate_other. Qed.
Lemma text_classList_add w n c m : text (classList_add n c w) m = text w m.
Proof. by apply text_mutate_other. Qed.

Lemma attr_classList_remove w n c m a : attr (classList_remove n c w) m a = attr w m a.
Proof. by apply attr_mutate_other. Qed.
Lemma styleOf_classList_remove w n c m p :
  styleOf (classList_remove n c w) m p = styleOf w m p.
Proof. by apply styleOf_mutate_other. Qed.
Lemma text_classList_remove w n c m : text (classList_remove n c w) m = text w m.
Proof. by apply text_mutate_other. Qed.

Lemma attr_set_text w n s m a : attr (set_text n s w) m a = attr w m a.
Proof. by apply attr_mutate_other. Qed.
Lemma hasClass_set_text w n s m c : hasClass (set_text n s w) m c = hasClass w m c.
Proof. by apply hasClass_mutate_other. Qed.
Lemma styleOf_set_text w n s m p : styleOf (set_text n s w) m p = styleOf w m p.
Proof. by apply styleOf_mutate_other. Qed.

Lemma attr_set_styleProp w n p v m a : attr (set_styleProp n p v w) m a = attr w m a.
Proof. by apply attr_mutate_other. Qed.
Lemma hasClass_set_styleProp w n p v m c :
  hasClass (set_styleProp n p v w) m c = hasClass w m c.
Proof. by apply hasClass_mutate_other. Qed.
Lemma text_set_styleProp w n p v m : text (set_styleProp n p v w) m = text w m.
Proof. by apply text_mutate_other. Qed.

Lemma exists_setAttribute w n a v m :
  is_Some (nodes (setAttribute n a v w) !! m) ↔ is_Some (nodes w !! m).
Proof. apply exists_mutate. Qed.
Lemma exists_classList_add w n c m :
  is_Some (nodes (classList_add n c w) !! m) ↔ is_Some (nodes w !! m).
Proof. apply exists_mutate. Qed.
Lemma exists_classList_remove w n c m :
  is_Some (nodes (classList_remove n c w) !! m) ↔ is_Some (nodes w !! m).
Proof. apply exists_mutate. Qed.
Lemma exists_set_text w n s m :
  is_Some (nodes (set_text n s w) !! m) ↔ is_Some (nodes w !! m).
Proof. apply exists_mutate. Qed.
Lemma exists_set_styleProp w n p v m :
  is_Some (nodes (set_styleProp n p v w) !! m) ↔ is_Some (nodes w !! m).
Proof. apply exists_mutate. Qed.

Lemma hasClass_toggled_eq w n c :
  is_Some (nodes w !! n) → hasClass (classList_toggled n c w) n c = negb (hasClass w n c).
Proof.
  intros Hn. unfold classList_toggled. destruct (hasClass w n c) eqn:E.
  - apply hasClass_remove_eq.
  - by apply hasClass_add_eq.
Qed.
Lemma hasClass_toggled_ne w n c m d :
  n ≠ m ∨ c ≠ d → hasClass (classList_toggled n c w) m d = hasClass w m d.
Proof.
  intros Hne. unfold classList_toggled. destruct (hasClass w n c).
  - by apply hasClass_remove_ne.
  - by apply hasClass_add_ne.
Qed.
Lemma attr_classList_toggled w n c m a : attr (classList_toggled n c w) m a = attr w m a.
Proof.
  unfold classList_toggled.
  destruct (hasClass w n c); [apply attr_classList_remove | apply attr_classList_add].
Qed.
Lemma styleOf_classList_toggled w n c m p :
  styleOf (classList_toggled n c w) m p = styleOf w m p.
Proof.
  unfold classList_toggled.
  destruct (hasClass w n c); [apply styleOf_classList_remove | apply styleOf_classList_add].
Qed.
Lemma text_classList_toggled w n c m : text (classList_toggled n c w) m = text w m.
Proof.
  unfold classList_toggled.
  destruct (hasClass w n c); [apply text_classList_remove | apply text_classList_add].
Qed.
Lemma exists_classList_toggled w n c m :
  is_Some (nodes (classList_toggled n c w) !! m) ↔ is_Some (nodes w !! m).
Proof.
  unfold classList_toggled.
  destruct (hasClass w n c); [apply exists_classList_remove | apply exists_classList_add].
Qed.
Lemma body_classList_toggled w n c : body (classList_toggled n c w) = body w.
Proof. unfold classList_toggled. by destruct (hasClass w n c). Qed.
Lemma storageStatus_classList_toggled w n c :
  storageStatus (classList_toggled n c w) = storageStatus w.
Proof. unfold classList_toggled. by destruct (hasClass w n c). Qed.
Lemma storage_classList_toggled w n c : storage (classList_toggled n c w) = storage w.
Proof. unfold classList_toggled. by destruct (hasClass w n c). Qed.

(** The root and the body are where they were after every write. *)
Lemma document_documentElement_mutate n f wr w :
  document_documentElement (mutate n f wr w) = document_documentElement w.
Proof.
  unfold document_documentElement. rewrite lookup_mutate.
  case_decide; [|done]. by destruct (nodes w !! documentElement).
Qed.
Lemma document_body_mutate n f wr w : document_body (mutate n f wr w) = document_body w.
Proof.
  unfold document_body. change (body (mutate n f wr w)) with (body w).
  rewrite lookup_mutate. case_decide; [|done]. by destruct (nodes w !! body w).
Qed.
Lemma document_documentElement_classList_toggled w n c :
  document_documentElement (classList_toggled n c w) = document_documentElement w.
Proof.
  unfold classList_toggled. destruct (hasClass w n c); apply document_documentElement_mutate.
Qed.
Lemma document_body_setAttribute w n a v :
  document_body (setAttribute n a v w) = document_body w.
Proof. apply document_body_mutate. Qed.
Lemma document_body_classList_add w n c :
  document_body (classList_add n c w) = document_body w.
Proof. apply document_body_mutate. Qed.
Lemma document_body_classList_remove w n c :
  document_body (classList_remove n c w) = document_body w.
Proof. apply document_body_mutate. Qed.
Lemma document_body_set_text w n s : document_body (set_text n s w) = document_body w.
Proof. apply document_body_mutate. Qed.
Lemma document_body_set_styleProp w n p v :
  document_body (set_styleProp n p v w) = document_body w.
Proof. apply document_body_mutate. Qed.
Lemma document_body_classList_toggled w n c :
  document_body (classList_toggled n c w) = document_body w.
Proof. unfold classList_toggled. destruct (hasClass w n c); apply document_body_mutate. Qed.

Lemma document_documentElement_Some w :
  is_Some (nodes w !! documentElement) →
  document_documentElement w = Some documentElement.
Proof. intros [e He]. unfold document_documentElement. by rewrite He. Qed.
Lemma document_documentElement_None w :
  nodes w !! documentElement = None → document_documentElement w = None.
Proof. intros He. unfold document_documentElement. by rewrite He. Qed.
Lemma document_body_Some w :
  is_Some (nodes w !! body w) → document_body w = Some (body w).
Proof. intros [e He]. unfold document_body. by rewrite He. Qed.
Lemma document_body_None w : nodes w !! body w = None → document_body w = None.
Proof. intros He. unfold document_body. by rewrite He. Qed.

Create Rewrite HintDb dom.
#[export] Hint Rewrite attr_classList_toggled styleOf_classList_toggled
  text_classList_toggled exists_classList_toggled body_classList_toggled
  storageStatus_classList_toggled storage_classList_toggled
  document_documentElement_classList_toggled document_body_classList_toggled
  document_body_setAttribute document_body_classList_add document_body_classList_remove
  document_body_set_text document_body_set_styleProp : dom.
#[export] Hint Rewrite hasClass_toggled_eq using (autorewrite with dom; eauto) : dom.
#[export] Hint Rewrite hasClass_toggled_ne using (first [by left | by right]) : dom.
#[export] Hint Rewrite
  hasClass_setAttribute styleOf_setAttribute text_setAttribute
  attr_classList_add styleOf_classList_add text_classList_add
  attr_classList_remove styleOf_classList_remove text_classList_remove
  attr_set_text hasClass_set_text styleOf_set_text
  attr_set_styleProp hasClass_set_styleProp text_set_styleProp
  exists_setAttribute exists_classList_add exists_classList_remove
  exists_set_text exists_set_styleProp
  hasClass_remove_eq : dom.
#[export] Hint Rewrite
  attr_setAttribute_eq hasClass_add_eq styleOf_set_eq text_set_eq
  using (autorewrite with dom; eauto) : dom.
#[export] Hint Rewrite
  attr_setAttribute_ne hasClass_add_ne hasClass_remove_ne styleOf_set_ne
  using (first [by left | by right]) : dom.
#[export] Hint Rewrite text_set_ne using done : dom.

(** Unfold a handler down to the writes it makes. *)
Ltac run :=
  unfold exec, result, bind, gets, modify, ret, throw; cbn [fst snd].

(** ** Navigation menu *)

Lemma select_In test w n : n ∈ select test w → test n = true ∧ n < length (nodes w).
Proof.
  unfold select. rewrite list_elem_of_In, filter_In, in_seq. naive_solver lia.
Qed.

Lemma getElementById_Some id w n :
  getElementById id w = Some n →
  is_Some (nodes w !! n) ∧ attr w n "id" = Some id.
Proof.
  unfold getElementById. intros Hh.
  assert (n ∈ select (λ n, bool_decide (attr w n "id" = Some id)) w) as Hin.
  { destruct (select _ w) eqn:E; [done|]. cbn in Hh. injection Hh as ->. set_solver. }
  apply select_In in Hin as [Ht Hl]. split.
  - by apply lookup_lt_is_Some.
  - by apply bool_decide_eq_true in Ht.
Qed.

Lemma menuPage_nodes w b m :
  menuPage w b m →
  b ≠ m ∧ is_Some (nodes w !! b) ∧ is_Some (nodes w !! m) ∧ is_Some (nodes w !! body w).
Proof.
  intros (Hb & Hm & Hbody).
  apply getElementById_Some in Hb as [Hb Hbi], Hm as [Hm Hmi].
  repeat split; try done. intros ->. congruence.
Qed.

Lemma select_ext test1 test2 w1 w2 :
  length (nodes w1) = length (nodes w2) →
  (∀ n, test1 n = test2 n) →
  select test1 w1 = select test2 w2.
Proof.
  intros Hl Ht. unfold select. rewrite Hl. apply filter_ext. done.
Qed.

Lemma getElementById_ext id w1 w2 :
  length (nodes w1) = length (nodes w2) →
  (∀ n, attr w1 n "id" = attr w2 n "id") →
  getElementById id w1 = getElementById id w2.
Proof.
  intros Hl Ha. unfold getElementById. f_equal.
  apply select_ext; [done|]. intros n. by rewrite Ha.
Qed.

Lemma body_setAttribute w n a v : body (setAttribute n a v w) = body w.
Proof. done. Qed.
Lemma body_classList_add w n c : body (classList_add n c w) = body w.
Proof. done. Qed.
Lemma body_classList_remove w n c : body (classList_remove n c w) = body w.
Proof. done. Qed.
Lemma body_set_text w n s : body (set_text n s w) = body w.
Proof. done. Qed.
Lemma body_set_styleProp w n p v : body (set_styleProp n p v w) = body w.
Proof. done. Qed.
#[export] Hint Rewrite body_setAttribute body_classList_add body_classList_remove
  body_set_text body_set_styleProp : dom.

Lemma storage_setAttribute w n a v : storage (setAttribute n a v w) = storage w.
Proof. done. Qed.
Lemma storage_classList_add w n c : storage (classList_add n c w) = storage w.
Proof. done. Qed.
Lemma storage_classList_remove w n c : storage (classList_remove n c w) = storage w.
Proof. done. Qed.
Lemma storage_set_text w n s : storage (set_text n s w) = storage w.
Proof. done. Qed.
Lemma storage_set_styleProp w n p v : storage (set_styleProp n p v w) = storage w.
Proof. done. Qed.
Lemma storageStatus_setAttribute w n a v :
  storageStatus (setAttribute n a v w) = storageStatus w.
Proof. done. Qed.
Lemma storageStatus_classList_add w n c :
  storageStatus (classList_add n c w) = storageStatus w.
Proof. done. Qed.
Lemma storageStatus_classList_remove w n c :
  storageStatus (classList_remove n c w) = storageStatus w.
Proof. done. Qed.
Lemma storageStatus_set_text w n s : storageStatus (set_text n s w) = storageStatus w.
Proof. done. Qed.
Lemma storageStatus_set_styleProp w n p v :
  storageStatus (set_styleProp n p v w) = storageStatus w.
Proof. done. Qed.
#[export] Hint Rewrite storage_setAttribute storage_classList_add storage_classList_remove
  storage_set_text storage_set_styleProp storageStatus_setAttribute
  storageStatus_classList_add storageStatus_classList_remove storageStatus_set_text
  storageStatus_set_styleProp : dom.

(** The parts of the world outside the document do not show in what is read
    from the document. *)
Lemma attr_frame w1 w2 n a : nodes w1 = nodes w2 → attr w1 n a = attr w2 n a.
Proof. unfold attr. by intros ->. Qed.
Lemma hasClass_frame w1 w2 n c : nodes w1 = nodes w2 → hasClass w1 n c = hasClass w2 n c.
Proof. unfold hasClass. by intros ->. Qed.
Lemma text_frame w1 w2 n : nodes w1 = nodes w2 → text w1 n = text w2 n.
Proof. unfold text. by intros ->. Qed.
Lemma styleOf_frame w1 w2 n p : nodes w1 = nodes w2 → styleOf w1 n p = styleOf w2 n p.
Proof. unfold styleOf. by intros ->. Qed.

Lemma nodes_with_timeouts f w : nodes (with_timeouts f w) = nodes w.
Proof. done. Qed.
Lemma nodes_with_storage f w : nodes (with_storage f w) = nodes w.
Proof. done. Qed.
Lemma nodes_with_listeners f w : nodes (with_listeners f w) = nodes w.
Proof. done. Qed.
Lemma nodes_with_observed f w : nodes (with_observed f w) = nodes w.
Proof. done. Qed.
Lemma nodes_with_visibleElements f w : nodes (with_visibleElements f w) = nodes w.
Proof. done. Qed.
Lemma nodes_with_rafId r w : nodes (with_rafId r w) = nodes w.
Proof. done. Qed.
Lemma nodes_with_frameCounter c w : nodes (with_frameCounter c w) = nodes w.
Proof. done. Qed.
Lemma nodes_with_frameCallbacks q w : nodes (with_frameCallbacks q w) = nodes w.
Proof. done. Qed.
Lemma nodes_with_sentinelObservers f w : nodes (with_sentinelObservers f w) = nodes w.
Proof. done. Qed.
Lemma nodes_with_scrollTop y w : nodes (with_scrollTop y w) = nodes w.
Proof. done. Qed.

Ltac frame_of S L :=
  repeat match goal with
  | |- context [attr (S ?g ?x) ?n ?a] => rewrite (attr_frame _ _ n a (L g x))
  | |- context [hasClass (S ?g ?x) ?n ?c] => rewrite (hasClass_frame _ _ n c (L g x))
  | |- context [text (S ?g ?x) ?n] => rewrite (text_frame _ _ n (L g x))
  | |- context [styleOf (S ?g ?x) ?n ?q] => rewrite (styleOf_frame _ _ n q (L g x))
  | |- context [nodes (S ?g ?x)] => rewrite (L g x)
  end.
Ltac frame_once :=
  frame_of with_timeouts nodes_with_timeouts;
  frame_of with_storage nodes_with_storage;
  frame_of with_listeners nodes_with_listeners;
  frame_of with_observed nodes_with_observed;
  frame_of with_visibleElements nodes_with_visibleElements;
  frame_of with_rafId nodes_with_rafId;
  frame_of with_frameCounter nodes_with_frameCounter;
  frame_of with_frameCallbacks nodes_with_frameCallbacks;
  frame_of with_sentinelObservers nodes_with_sentinelObservers;
  frame_of with_scrollTop nodes_with_scrollTop.
Ltac frame := repeat (progress frame_once).

Ltac dom :=
  repeat first [progress frame | progress autorewrite with dom]; cbn beta iota.

(** What one run of [toggleMenu] leaves behind, in terms of what it found. *)
Section ToggleMenu.
Context (w : World) (b m : node).
Hypothesis Hbm : b ≠ m.
Hypothesis Hb : is_Some (nodes w !! b).
Hypothesis Hm : is_Some (nodes w !! m).
Hypothesis Hbody : is_Some (nodes w !! body w).

Let isExpanded := bool_decide (attr w b "aria-expanded" = Some "true").

Lemma V3_toggleMenu_spec :
  let w' := exec (V3.toggleMenu b m) w in
  result (V3.toggleMenu b m) w = Normal tt
  ∧ attr w' b "aria-expanded" = Some (string_of_boolean (negb isExpanded))
  ∧ hasClass w' b "active" = negb (hasClass w b "active")
  ∧ hasClass w' m "active" = negb (hasClass w m "active")
  ∧ body w' = body w
  ∧ styleOf w' (body w) "overflow" = (if isExpanded then "" else "hidden")
  ∧ (∀ n, is_Some (nodes w' !! n) ↔ is_Some (nodes w !! n)).
Proof.
  subst isExpanded. unfold V3.toggleMenu, classList_toggle. run. dom.
  rewrite (document_body_Some w Hbody). unfold deref. run. dom.
  match goal with |- context [querySelector_tag_in ?r ?t ?x] =>
    destruct (querySelector_tag_in r t x) end;
    cbn [fst snd]; dom;
    split_and!; try done; try (by case_bool_decide);
    intros; by dom.
Qed.

Lemma P1_toggleMenu_spec (forceClose : bool) :
  let w' := exec (P1.toggleMenu b m forceClose) w in
  let willExpand := if forceClose then false else negb isExpanded in
  result (P1.toggleMenu b m forceClose) w = Normal tt
  ∧ attr w' b "aria-expanded" = Some (string_of_boolean willExpand)
  ∧ hasClass w' b "active" = willExpand
  ∧ hasClass w' m "active" = willExpand
  ∧ body w' = body w
  ∧ styleOf w' (body w) "overflow" = (if willExpand then "hidden" else "")
  ∧ (∀ n, is_Some (nodes w' !! n) ↔ is_Some (nodes w !! n)).
Proof.
  subst isExpanded. unfold P1.toggleMenu, classList_toggle_force. run. dom.
  set (willExpand := if forceClose then false else _).
  destruct willExpand; dom;
    match goal with |- context [querySelector_class_in ?r ?t ?x] =>
      destruct (querySelector_class_in r t x) end;
    cbn [fst snd]; dom;
    rewrite (document_body_Some w Hbody); unfold deref; run; dom;
    split_and!; try done; intros; by dom.
Qed.
End ToggleMenu.

Lemma samplePage_menu : menuPage samplePage 3 5.
Proof. split_and!; [by vm_compute ..|]. by eexists. Qed.

Lemma samplePage_Closed : Closed samplePage 3 5.
Proof. split_and!; by vm_compute. Qed.

(** C3. Starting from a closed menu, one activation of the trigger opens it
    (expanded indicator "true", both active classes set, body scroll locked);
    a second activation closes it again (indicator "false", classes removed,
    scroll restored).  Holds for [toggleMenu] of script.js and of the second
    document of part_000. *)
Theorem menu_toggle_symmetry (w : World) (b m : node) :
  menuPage w b m → Closed w b m →
  (let w1 := exec (V3.hamburgerClick b m) w in
   let w2 := exec (V3.hamburgerClick b m) w1 in
   result (V3.hamburgerClick b m) w = Normal tt
   ∧ Open w1 b m
   ∧ result (V3.hamburgerClick b m) w1 = Normal tt
   ∧ Closed w2 b m ∧ attr w2 b "aria-expanded" = Some "false")
  ∧
  (let w1 := exec (P1.btnClick b m) w in
   let w2 := exec (P1.btnClick b m) w1 in
   result (P1.btnClick b m) w = Normal tt
   ∧ Open w1 b m
   ∧ result (P1.btnClick b m) w1 = Normal tt
   ∧ Closed w2 b m ∧ attr w2 b "aria-expanded" = Some "false").
Proof.
  intros Hp (Ha & Hcb & Hcm & Ho).
  apply menuPage_nodes in Hp as (Hbm & Hb & Hm & Hbody).
  assert (bool_decide (attr w b "aria-expanded" = Some "true") = false) as Hx
    by by apply bool_decide_eq_false.
  split.
  - unfold V3.hamburgerClick.
    destruct (V3_toggleMenu_spec w b m Hbm Hb Hm Hbody) as (R1 & A1 & B1 & M1 & Y1 & O1 & E1).
    rewrite Hx, ?Hcb, ?Hcm in *. cbn in A1, B1, M1.
    set (w1 := exec (V3.toggleMenu b m) w) in *.
    destruct (V3_toggleMenu_spec w1 b m Hbm) as (R2 & A2 & B2 & M2 & Y2 & O2 & E2);
      [by apply E1 | by apply E1 | by rewrite Y1; apply E1 |].
    rewrite A1, B1, M1, Y1 in *. rewrite bool_decide_eq_true_2 in * by done.
    cbn in *. unfold Open, Closed. rewrite Y1, Y2, A2. by split_and!.
  - unfold P1.btnClick.
    destruct (P1_toggleMenu_spec w b m Hbm Hb Hm Hbody false) as (R1 & A1 & B1 & M1 & Y1 & O1 & E1).
    rewrite Hx in *. cbn in A1, B1, M1, O1.
    set (w1 := exec (P1.toggleMenu b m false) w) in *.
    destruct (P1_toggleMenu_spec w1 b m Hbm) with (forceClose := false)
      as (R2 & A2 & B2 & M2 & Y2 & O2 & E2);
      [by apply E1 | by apply E1 | by rewrite Y1; apply E1 |].
    rewrite A1, Y1 in *. rewrite bool_decide_eq_true_2 in * by done.
    cbn in *. unfold Open, Closed. rewrite Y1, Y2, A2. by split_and!.
Qed.

Lemma menu_toggle_symmetry_witness :
  Open (exec (V3.hamburgerClick 3 5) samplePage) 3 5
  ∧ Open (exec (P1.btnClick 3 5) samplePage) 3 5.
Proof.
  destruct (menu_toggle_symmetry samplePage 3 5) as [H1 H2].
  - split_and!; [by vm_compute ..|]. by eexists.
  - split_and!; by vm_compute.
  - split; [apply H1 | apply H2].
Defined.

Lemma V3_linkClick_inactive w b m :
  hasClass w m "active" = false → V3.linkClick b m w = (Normal tt, w).
Proof. intros H. unfold V3.linkClick. run. by rewrite H. Qed.

Lemma V3_linkClick_active w b m :
  hasClass w m "active" = true → V3.linkClick b m w = V3.toggleMenu b m w.
Proof. intros H. unfold V3.linkClick. run. by rewrite H. Qed.

(** C4. Activating a link inside the menu while the menu is closed leaves it
    closed (in script.js the handler does nothing at all); activating a link
    while the menu is open closes it. *)
Theorem link_forced_close (w : World) (b m : node) :
  menuPage w b m →
  (Closed w b m →
     V3.linkClick b m w = (Normal tt, w)
     ∧ result (P1.linkClick b m) w = Normal tt
     ∧ Closed (exec (P1.linkClick b m) w) b m)
  ∧
  (Open w b m →
     result (V3.linkClick b m) w = Normal tt
     ∧ Closed (exec (V3.linkClick b m) w) b m
     ∧ result (P1.linkClick b m) w = Normal tt
     ∧ Closed (exec (P1.linkClick b m) w) b m).
Proof.
  intros Hp. apply menuPage_nodes in Hp as (Hbm & Hb & Hm & Hbody).
  destruct (P1_toggleMenu_spec w b m Hbm Hb Hm Hbody true)
    as (R1 & A1 & B1 & M1 & Y1 & O1 & E1).
  cbn in A1, B1, M1, O1.
  assert (Closed (exec (P1.linkClick b m) w) b m) as HP1.
  { unfold Closed, P1.linkClick. rewrite Y1, A1. by split_and!. }
  split.
  - intros (Ha & Hcb & Hcm & Ho). split_and!; [|exact R1|exact HP1].
    by apply V3_linkClick_inactive.
  - intros (Ha & Hcb & Hcm & Ho).
    destruct (V3_toggleMenu_spec w b m Hbm Hb Hm Hbody)
      as (R3 & A3 & B3 & M3 & Y3 & O3 & E3).
    rewrite Hcb in B3. rewrite Hcm in M3.
    rewrite bool_decide_eq_true_2 in A3, O3 by done.
    split_and!; [| |exact R1|exact HP1].
    + unfold result. by rewrite V3_linkClick_active.
    + unfold exec. rewrite V3_linkClick_active by done.
      fold (exec (V3.toggleMenu b m) w).
      unfold Closed. rewrite Y3, A3. by split_and!.
Qed.

Lemma link_forced_close_witness :
  V3.linkClick 3 5 samplePage = (Normal tt, samplePage)
  ∧ Closed (exec (P1.linkClick 3 5) samplePage) 3 5
  ∧ Closed (exec (V3.linkClick 3 5) samplePageOpen) 3 5
  ∧ Closed (exec (P1.linkClick 3 5) samplePageOpen) 3 5.
Proof.
  destruct (link_forced_close samplePage 3 5) as [Hc _].
  { split_and!; [by vm_compute ..|]. by eexists. }
  destruct (link_forced_close samplePageOpen 3 5) as [_ Ho].
  { split_and!; [by vm_compute ..|]. by eexists. }
  destruct Hc as (? & ? & ?); [split_and!; by vm_compute|].
  destruct Ho as (? & ? & ? & ?); [split_and!; by vm_compute|].
  by split_and!.
Defined.

(** C9, as stated, fails in script.js: with a malformed attribute on a
    trigger whose [active] classes are set, the activation writes "true" to
    the attribute but takes the classes away, so the menu is not open. *)
Lemma menu_state_read_from_aria_counterexample :
  let v3 := exec (V3.hamburgerClick 3 5) samplePageMalformedActive in
  menuPage samplePageMalformedActive 3 5
  ∧ attr samplePageMalformedActive 3 "aria-expanded" = Some "TRUE"
  ∧ attr v3 3 "aria-expanded" = Some "true"
  ∧ hasClass v3 3 "active" = false
  ∧ hasClass v3 5 "active" = false
  ∧ ¬ Open v3 3 5.
Proof.
  cbn zeta. split_and!; try by vm_compute.
  - split_and!; [by vm_compute ..|]. by eexists.
  - intros (_ & H & _). by vm_compute in H.
Qed.

(** C9, amended.  [toggleMenu] reads the menu's state from the trigger's
    [aria-expanded] attribute and takes it as open exactly when the value is
    the string "true".  With any other value, or none, the activation writes
    "true" and locks the scroll; with "true" it writes "false" and releases
    the scroll.  In the second document of part_000 the two [active] classes
    are set from the same reading, so the menu ends open, respectively
    closed.  In script.js they are flipped from their own state, so the menu
    ends open (closed) exactly when both classes were absent (set) before. *)
Theorem menu_state_read_from_aria (w : World) (b m : node) :
  menuPage w b m →
  let v3 := exec (V3.hamburgerClick b m) w in
  let p1 := exec (P1.btnClick b m) w in
  (attr w b "aria-expanded" ≠ Some "true" →
     attr v3 b "aria-expanded" = Some "true"
     ∧ styleOf v3 (body v3) "overflow" = "hidden"
     ∧ hasClass v3 b "active" = negb (hasClass w b "active")
     ∧ hasClass v3 m "active" = negb (hasClass w m "active")
     ∧ (Open v3 b m ↔ hasClass w b "active" = false ∧ hasClass w m "active" = false)
     ∧ Open p1 b m)
  ∧
  (attr w b "aria-expanded" = Some "true" →
     attr v3 b "aria-expanded" = Some "false"
     ∧ styleOf v3 (body v3) "overflow" = ""
     ∧ hasClass v3 b "active" = negb (hasClass w b "active")
     ∧ hasClass v3 m "active" = negb (hasClass w m "active")
     ∧ (Closed v3 b m ↔ hasClass w b "active" = true ∧ hasClass w m "active" = true)
     ∧ Closed p1 b m).
Proof.
  intros Hp. apply menuPage_nodes in Hp as (Hbm & Hb & Hm & Hbody).
  destruct (V3_toggleMenu_spec w b m Hbm Hb Hm Hbody)
    as (R3 & A3 & B3 & M3 & Y3 & O3 & E3).
  destruct (P1_toggleMenu_spec w b m Hbm Hb Hm Hbody false)
    as (R1 & A1 & B1 & M1 & Y1 & O1 & E1).
  unfold V3.hamburgerClick, P1.btnClick. cbn zeta. unfold Open, Closed.
  rewrite Y3, Y1, A3, B3, M3, O3, A1, B1, M1, O1.
  split; intros Ha.
  - rewrite bool_decide_eq_false_2 by done. cbn.
    split_and!; try done.
    destruct (hasClass w b "active"), (hasClass w m "active"); cbn; naive_solver.
  - rewrite bool_decide_eq_true_2 by done. cbn.
    split_and!; try done.
    destruct (hasClass w b "active"), (hasClass w m "active"); cbn; naive_solver.
Qed.

Lemma menu_state_read_from_aria_witness :
  Open (exec (V3.hamburgerClick 3 5) samplePageMalformed) 3 5
  ∧ Open (exec (P1.btnClick 3 5) samplePageMalformed) 3 5
  ∧ Closed (exec (P1.btnClick 3 5) samplePageOpen) 3 5.
Proof.
  destruct (menu_state_read_from_aria samplePageMalformed 3 5) as [Hc _].
  { split_and!; [by vm_compute ..|]. by eexists. }
  destruct (menu_state_read_from_aria samplePageOpen 3 5) as [_ Ho].
  { split_and!; [by vm_compute ..|]. by eexists. }
  destruct Hc as (_ & _ & _ & _ & H3 & H1); [by vm_compute|].
  destruct Ho as (_ & _ & _ & _ & _ & H1'); [by vm_compute|].
  split_and!; [apply H3; split; by vm_compute | done | done].
Defined.

(** ** Theme *)

Lemma isDarkInitial_iff (currentTheme : option string) (systemDark : bool) :
  V3.isDarkInitial currentTheme systemDark = true
  ↔ currentTheme = Some "dark"
    ∨ ((currentTheme = None ∨ currentTheme = Some "") ∧ systemDark = true).
Proof.
  unfold V3.isDarkInitial, truthy_string.
  rewrite orb_true_iff, andb_true_iff, bool_decide_eq_true, negb_true_iff.
  destruct currentTheme as [s|].
  - rewrite negb_false_iff, bool_decide_eq_true. naive_solver.
  - naive_solver.
Qed.

(** C10, as stated, fails: a stored empty string is a stored value other than
    "dark", yet with the system-level dark signal set the initialisation
    selects dark. *)
Lemma initial_theme_counterexample :
  storage emptyStringStored !! "theme" = Some ""
  ∧ storage emptyStringStored !! "theme" ≠ Some "dark"
  ∧ storage emptyStringStored !! "theme" ≠ None
  ∧ V3.isDarkInitial (storage emptyStringStored !! "theme") (prefersDark emptyStringStored) = true
  ∧ text (exec V3.initThemeToggle emptyStringStored) 9 = Some "light_mode"
  ∧ hasClass (exec V2.initThemeToggle emptyStringStored) documentElement "dark-mode" = true.
Proof. by vm_compute. Qed.

(** C10, amended.  At initialisation dark is selected exactly when the stored
    preference is the string "dark", or the stored preference is absent or
    the empty string and the system-level dark signal is set; every other
    stored value (so "light", or a corrupt non-empty string) selects light.
    Version 3.0 shows the selection on the icon; Version 2.0 also adds the
    [dark-mode] class when dark is selected, and leaves the class as it found
    it otherwise. *)
Theorem initial_theme_selection (w : World) (icon : node) :
  storageStatus w ≠ StorageDenied →
  getElementById "theme-icon" w = Some icon →
  is_Some (nodes w !! documentElement) →
  let stored := storage w !! "theme" in
  let dark := V3.isDarkInitial stored (prefersDark w) in
  (dark = true ↔ stored = Some "dark"
                 ∨ ((stored = None ∨ stored = Some "") ∧ prefersDark w = true))
  ∧ result V3.initThemeToggle w = Normal tt
  ∧ text (exec V3.initThemeToggle w) icon = Some (if dark then "light_mode" else "dark_mode")
  ∧ result V2.initThemeToggle w = Normal tt
  ∧ text (exec V2.initThemeToggle w) icon = Some (if dark then "light_mode" else "dark_mode")
  ∧ hasClass (exec V2.initThemeToggle w) documentElement "dark-mode"
    = dark || hasClass w documentElement "dark-mode".
Proof.
  intros Hst Hicon Hhtml. cbn zeta.
  split; [apply isDarkInitial_iff|].
  pose proof (getElementById_Some _ _ _ Hicon) as [Hi _].
  unfold V3.initThemeToggle, V2.initThemeToggle, V2.updateIcon, V3.updateIcon,
    localStorage_getItem, addEventListener.
  run. rewrite Hicon, (document_documentElement_Some w Hhtml). unfold deref. run.
  unfold V3.isDarkInitial.
  destruct (storageStatus w) eqn:Es; [|done|];
    destruct (bool_decide (storage w !! "theme" = Some "dark")
              || negb (truthy_string (storage w !! "theme")) && prefersDark w) eqn:Ed;
    destruct (getElementById "theme-toggle-btn" w);
    cbn [fst snd]; split_and!; try done; frame; autorewrite with dom; done.
Qed.

Lemma initial_theme_selection_witness :
  text (exec V3.initThemeToggle samplePage) 9 = Some "dark_mode"
  ∧ hasClass (exec V2.initThemeToggle samplePage) documentElement "dark-mode" = false.
Proof.
  destruct (initial_theme_selection samplePage 9) as (_ & _ & H3 & _ & _ & H2).
  - by vm_compute.
  - by vm_compute.
  - by eexists.
  - split; [exact H3 | exact H2].
Defined.

(** What one click on the theme button leaves behind. *)
Section ThemeClick.
Context (w : World) (icon : node).
Hypothesis Hhtml : is_Some (nodes w !! documentElement).
Hypothesis Hicon : is_Some (nodes w !! icon).

Let dark' := negb (hasClass w documentElement "dark-mode").

Lemma V3_themeClick_spec :
  let w' := exec (V3.themeClick (Some icon)) w in
  hasClass w' documentElement "dark-mode" = dark'
  ∧ text w' icon = Some (iconLabel dark')
  ∧ storageStatus w' = storageStatus w
  ∧ (∀ n, is_Some (nodes w' !! n) ↔ is_Some (nodes w !! n))
  ∧ match storageStatus w with
    | StorageOk =>
        result (V3.themeClick (Some icon)) w = Normal tt
        ∧ storage w' = <["theme" := themeToken dark']> (storage w)
    | StorageDenied =>
        result (V3.themeClick (Some icon)) w = Throw SecurityError
        ∧ storage w' = storage w
    | StorageFull =>
        result (V3.themeClick (Some icon)) w = Throw QuotaExceededError
        ∧ storage w' = storage w
    end.
Proof.
  subst dark'. unfold V3.themeClick, V3.updateIcon, classList_toggle, localStorage_setItem.
  run. rewrite (document_documentElement_Some w Hhtml). unfold deref. run. dom.
  destruct (storageStatus w) eqn:Es; cbn [fst snd];
    frame; cbn [storage storageStatus with_storage]; dom; rewrite ?Es; split_and!; try done; intros; by dom.
Qed.

Lemma P1_themeClick_spec :
  let w' := exec (P1.themeClick icon) w in
  hasClass w' documentElement "dark-mode" = dark'
  ∧ text w' icon = Some (iconLabel dark')
  ∧ storageStatus w' = storageStatus w
  ∧ (∀ n, is_Some (nodes w' !! n) ↔ is_Some (nodes w !! n))
  ∧ match storageStatus w with
    | StorageOk =>
        result (P1.themeClick icon) w = Normal tt
        ∧ storage w' = <["theme" := themeToken dark']> (storage w)
    | StorageDenied =>
        result (P1.themeClick icon) w = Throw SecurityError
        ∧ storage w' = storage w
    | StorageFull =>
        result (P1.themeClick icon) w = Throw QuotaExceededError
        ∧ storage w' = storage w
    end.
Proof.
  subst dark'. unfold P1.themeClick, classList_toggle, localStorage_setItem.
  run. rewrite (document_documentElement_Some w Hhtml). unfold deref. run. dom.
  destruct (storageStatus w) eqn:Es; cbn [fst snd];
    frame; cbn [storage storageStatus with_storage]; dom; rewrite ?Es; split_and!; try done; intros; by dom.
Qed.
End ThemeClick.

(** C5, as stated, fails: on a first visit nothing is stored under the theme
    key, and two toggles leave "light" stored. *)
Lemma theme_round_trip_counterexample :
  storage samplePage !! "theme" = None
  ∧ storage (exec (V3.themeClick (Some 9)) (exec (V3.themeClick (Some 9)) samplePage))
      !! "theme" = Some "light"
  ∧ storage (exec (P1.themeClick 9) (exec (P1.themeClick 9) samplePage))
      !! "theme" = Some "light".
Proof. by vm_compute. Qed.

(** C5, amended.  With a usable Preference Store, two toggles bring back the
    original mode flag, and leave the icon label and the stored value that
    belong to that mode; these are the original label and the original stored
    value whenever the original ones agreed with the mode. *)
Theorem theme_round_trip (w : World) (icon : node) :
  is_Some (nodes w !! documentElement) →
  is_Some (nodes w !! icon) →
  storageStatus w = StorageOk →
  let dark := hasClass w documentElement "dark-mode" in
  (let w2 := exec (V3.themeClick (Some icon)) (exec (V3.themeClick (Some icon)) w) in
   hasClass w2 documentElement "dark-mode" = dark
   ∧ text w2 icon = Some (iconLabel dark)
   ∧ storage w2 !! "theme" = Some (themeToken dark)
   ∧ (text w icon = Some (iconLabel dark) → text w2 icon = text w icon)
   ∧ (storage w !! "theme" = Some (themeToken dark) → storage w2 = storage w))
  ∧
  (let w2 := exec (P1.themeClick icon) (exec (P1.themeClick icon) w) in
   hasClass w2 documentElement "dark-mode" = dark
   ∧ text w2 icon = Some (iconLabel dark)
   ∧ storage w2 !! "theme" = Some (themeToken dark)
   ∧ (text w icon = Some (iconLabel dark) → text w2 icon = text w icon)
   ∧ (storage w !! "theme" = Some (themeToken dark) → storage w2 = storage w)).
Proof.
  intros Hhtml Hicon Hok. cbn zeta. split.
  - destruct (V3_themeClick_spec w icon Hhtml Hicon) as (C1 & T1 & S1 & E1 & R1).
    rewrite Hok in R1. destruct R1 as [_ R1].
    set (w1 := exec (V3.themeClick (Some icon)) w) in *.
    destruct (V3_themeClick_spec w1 icon) as (C2 & T2 & S2 & E2 & R2);
      [by apply E1 | by apply E1 |].
    rewrite S1, Hok in R2. destruct R2 as [_ R2].
    rewrite C1, negb_involutive in C2, T2, R2.
    rewrite R1, insert_insert_eq in R2.
    rewrite C2, T2, R2, lookup_insert_eq.
    split_and!; try done; intros H; first [by rewrite H | by apply insert_id].
  - destruct (P1_themeClick_spec w icon Hhtml Hicon) as (C1 & T1 & S1 & E1 & R1).
    rewrite Hok in R1. destruct R1 as [_ R1].
    set (w1 := exec (P1.themeClick icon) w) in *.
    destruct (P1_themeClick_spec w1 icon) as (C2 & T2 & S2 & E2 & R2);
      [by apply E1 | by apply E1 |].
    rewrite S1, Hok in R2. destruct R2 as [_ R2].
    rewrite C1, negb_involutive in C2, T2, R2.
    rewrite R1, insert_insert_eq in R2.
    rewrite C2, T2, R2, lookup_insert_eq.
    split_and!; try done; intros H; first [by rewrite H | by apply insert_id].
Qed.

Lemma theme_round_trip_witness :
  hasClass (exec (V3.themeClick (Some 9)) (exec (V3.themeClick (Some 9)) samplePage))
    documentElement "dark-mode" = false
  ∧ text (exec (P1.themeClick 9) (exec (P1.themeClick 9) samplePage)) 9 = Some "dark_mode".
Proof.
  destruct (theme_round_trip samplePage 9) as [(H3 & _) (_ & H1 & _)].
  - by eexists.
  - by eexists.
  - done.
  - split; [exact H3 | exact H1].
Defined.

(** C6, as stated, fails: the exception of [localStorage.setItem] leaves the
    click handler. *)
Lemma storage_unavailable_counterexample :
  result (V3.themeClick (Some 9)) storageFullPage = Throw QuotaExceededError
  ∧ result (P1.themeClick 9) storageFullPage = Throw QuotaExceededError.
Proof. by vm_compute. Qed.

(** C6, amended.  When the Preference Store throws, the theme toggle has
    already flipped the mode flag and updated the icon, and both writes stay;
    nothing is stored, and the store's exception is not caught: it is the
    outcome of the click handler. *)
Theorem storage_unavailable_toggle (w : World) (icon : node) :
  is_Some (nodes w !! documentElement) →
  is_Some (nodes w !! icon) →
  storageStatus w ≠ StorageOk →
  let dark' := negb (hasClass w documentElement "dark-mode") in
  let e := match storageStatus w with
           | StorageFull => QuotaExceededError
           | _ => SecurityError
           end in
  (let w' := exec (V3.themeClick (Some icon)) w in
   result (V3.themeClick (Some icon)) w = Throw e
   ∧ hasClass w' documentElement "dark-mode" = dark'
   ∧ text w' icon = Some (iconLabel dark')
   ∧ storage w' = storage w)
  ∧
  (let w' := exec (P1.themeClick icon) w in
   result (P1.themeClick icon) w = Throw e
   ∧ hasClass w' documentElement "dark-mode" = dark'
   ∧ text w' icon = Some (iconLabel dark')
   ∧ storage w' = storage w).
Proof.
  intros Hhtml Hicon Hst. cbn zeta.
  destruct (V3_themeClick_spec w icon Hhtml Hicon) as (C3 & T3 & _ & _ & R3).
  destruct (P1_themeClick_spec w icon Hhtml Hicon) as (C1 & T1 & _ & _ & R1).
  destruct (storageStatus w); [done| |]; destruct R3, R1; by split_and!.
Qed.

Lemma storage_unavailable_toggle_witness :
  hasClass (exec (V3.themeClick (Some 9)) storageFullPage) documentElement "dark-mode" = true
  ∧ text (exec (P1.themeClick 9) storageFullPage) 9 = Some "light_mode".
Proof.
  destruct (storage_unavailable_toggle storageFullPage 9) as [(_ & H3 & _) (_ & _ & H1 & _)].
  - by eexists.
  - by eexists.
  - done.
  - split; [exact H3 | exact H1].
Defined.

(** ** Missing elements *)

(** C7 fails in the first document of part_000: [updateIcon] assigns to
    [themeIcon.textContent] without testing [themeIcon].  On a page without
    the icon the initialisation throws when the dark class is set, and then
    nothing at all is registered; otherwise the click handler throws.
    [updateIcon] of script.js tests the icon and does neither. *)
Theorem P0_updateIcon_unguarded :
  getElementById "theme-icon" noIconDarkPage = None
  ∧ getElementById "theme-toggle-btn" noIconDarkPage = Some 8
  ∧ (∀ w isDark, result (P0.updateIcon None isDark) w = Throw TypeError)
  ∧ result P0.initThemeToggle noIconDarkPage = Throw TypeError
  ∧ result P0.main noIconDarkPage = Throw TypeError
  ∧ listeners (exec P0.main noIconDarkPage) = []
  ∧ listeners (exec P0.initThemeToggle noIconPage) = [mkListener (Some 8) "click" (P0_themeClick None)]
  ∧ result (callClick (P0_themeClick None) 8) (exec P0.main noIconPage) = Throw TypeError
  ∧ (∀ w isDark, V3.updateIcon None isDark w = (Normal tt, w))
  ∧ result V3.main noIconDarkPage = Normal tt
  ∧ result (callClick (V3_themeClick None) 8) (exec V3.main noIconPage) = Normal tt.
Proof. split_and!; try done; by vm_compute. Qed.

(** ** Deferred-media facade *)

Lemma count_setAttribute_app w w' n name l :
  writes w' = writes w ++ l →
  count_setAttribute n name w'
  = count_setAttribute n name w
    + length (List.filter (λ wr, match wr with
                                 | WSetAttribute n' name' _ => bool_decide (n' = n ∧ name' = name)
                                 | _ => false
                                 end) l).
Proof.
  intros H. unfold count_setAttribute. by rewrite H, List.filter_app, length_app.
Qed.

Lemma set_style_insert_twice p1 v1 p2 v2 (e : Element) :
  set_style (<[p2 := v2]>) (set_style (<[p1 := v1]>)
    (set_style (<[p2 := v2]>) (set_style (<[p1 := v1]>) e)))
  = set_style (<[p2 := v2]>) (set_style (<[p1 := v1]>) e).
Proof.
  destruct e. unfold set_style. cbn. f_equal.
  apply map_eq. intros j. rewrite !lookup_insert. by repeat case_decide.
Qed.

Lemma set_attrs_insert_twice a v (e : Element) :
  set_attrs (<[a := v]>) (set_attrs (<[a := v]>) e) = set_attrs (<[a := v]>) e.
Proof. destruct e. unfold set_attrs. cbn. f_equal. apply insert_insert_eq. Qed.

Lemma set_attrs_set_style f g (e : Element) :
  set_attrs f (set_style g e) = set_style g (set_attrs f e).
Proof. by destruct e. Qed.

(** The writes of one activation, applied to a document that has already
    received them, change nothing. *)
Lemma facade_writes_idempotent (l : list Element) (f i : node) (s : string) :
  let once := λ l, alter (set_style (<["pointerEvents" := "none"]>)) f
                     (alter (set_style (<["opacity" := "0"]>)) f
                        (alter (set_attrs (<["src" := s]>)) i l)) in
  once (once l) = once l.
Proof.
  cbn zeta. apply list_eq. intros k.
  destruct (decide (f = k)) as [->|]; destruct (decide (i = k)) as [->|];
    repeat first [rewrite list_lookup_alter_eq | rewrite list_lookup_alter_ne by done];
    destruct (l !! k) as [e|]; cbn; try done; f_equal;
    destruct e; unfold set_attrs, set_style; cbn; f_equal;
    try apply insert_insert_eq;
    apply map_eq; intros j; rewrite !lookup_insert; by repeat case_decide.
Qed.

Lemma runTimeouts_hides (ts : list (Z * node)) (w : World) (f : node) :
  is_Some (nodes w !! f) →
  f ∈ ts.*2 ∨ styleOf w f "display" = "none" →
  styleOf (exec (forEach (λ t, modify (set_styleProp (snd t) "display" "none")) ts) w)
    f "display" = "none".
Proof.
  revert w. induction ts as [|[d g] ts IH]; intros w Hf Hin.
  - destruct Hin as [Hin|Hs]; [by apply elem_of_nil in Hin | done].
  - change (exec (forEach ?body ((d, g) :: ts)) w)
      with (exec (forEach body ts) (set_styleProp g "display" "none" w)).
    apply IH; [by apply exists_set_styleProp|].
    destruct (decide (g = f)) as [->|Hne].
    + right. by apply styleOf_set_eq.
    + destruct Hin as [Hin|Hs].
      * left. cbn in Hin. apply elem_of_cons in Hin as [?|?]; [congruence|done].
      * right. rewrite styleOf_set_ne by by left. done.
Qed.

(** C8, as stated, fails: the handler does not consume the locator and does
    not test whether the source is already set, so a second activation
    assigns the source and schedules the hiding once more. *)
Lemma facade_double_activation_counterexample :
  let w2 := exec (V3.facadeClick 12 13) (exec (V3.facadeClick 12 13) samplePage) in
  count_setAttribute 13 "src" w2 = 2
  ∧ timeouts w2 = [(500%Z, 12); (500%Z, 12)].
Proof. by vm_compute. Qed.

(** C8, amended.  With a locator on the media element, every activation
    assigns it as the source and schedules the hiding of the placeholder; a
    second activation repeats both and leaves the document exactly as the
    first one left it (source set, placeholder transparent and out of reach
    of the pointer, then hidden when the timers fire).  Without a locator,
    absent or empty, an activation does nothing. *)
Theorem facade_activation (w : World) (f i : node) :
  is_Some (nodes w !! f) →
  is_Some (nodes w !! i) →
  (∀ s, attr w i "data-src" = Some s → s ≠ "" →
     let w1 := exec (V3.facadeClick f i) w in
     let w2 := exec (V3.facadeClick f i) w1 in
     result (V3.facadeClick f i) w = Normal tt
     ∧ result (V3.facadeClick f i) w1 = Normal tt
     ∧ count_setAttribute i "src" w1 = count_setAttribute i "src" w + 1
     ∧ count_setAttribute i "src" w2 = count_setAttribute i "src" w + 2
     ∧ timeouts w1 = timeouts w ++ [(500%Z, f)]
     ∧ timeouts w2 = timeouts w ++ [(500%Z, f); (500%Z, f)]
     ∧ attr w1 i "src" = Some s
     ∧ styleOf w1 f "opacity" = "0"
     ∧ styleOf w1 f "pointerEvents" = "none"
     ∧ nodes w2 = nodes w1
     ∧ styleOf (exec runTimeouts w2) f "display" = "none")
  ∧ (attr w i "data-src" = None ∨ attr w i "data-src" = Some "" →
     V3.facadeClick f i w = (Normal tt, w)).
Proof.
  intros Hf Hi. split.
  - intros s Hs Hne. cbn zeta.
    assert (∀ w, attr w i "data-src" = Some s →
      V3.facadeClick f i w
      = (Normal tt,
         with_timeouts (λ l, l ++ [(500%Z, f)])
           (set_styleProp f "pointerEvents" "none"
              (set_styleProp f "opacity" "0" (setAttribute i "src" s w))))) as Hrun.
    { intros w0 H0. unfold V3.facadeClick, setTimeout_hide. run. rewrite H0. cbn.
      by rewrite bool_decide_eq_false_2. }
    unfold result, exec. rewrite (Hrun w Hs). cbn [fst snd].
    rewrite Hrun
      by by dom.
    cbn [fst snd]. split_and!; try done.
    + erewrite count_setAttribute_app
        with (l := [WSetAttribute i "src" s; WStyle f "opacity" "0";
                    WStyle f "pointerEvents" "none"]);
        [|cbn; by rewrite <-!app_assoc].
      cbn. by rewrite bool_decide_eq_true_2.
    + erewrite count_setAttribute_app
        with (l := [WSetAttribute i "src" s; WStyle f "opacity" "0";
                    WStyle f "pointerEvents" "none";
                    WSetAttribute i "src" s; WStyle f "opacity" "0";
                    WStyle f "pointerEvents" "none"]);
        [|cbn; by rewrite <-!app_assoc].
      cbn. by rewrite bool_decide_eq_true_2.
    + cbn. by rewrite <-app_assoc.
    + by dom.
    + by dom.
    + by dom.
    + cbn. apply (facade_writes_idempotent (nodes w) f i s).
    + unfold runTimeouts. run. cbn [timeouts with_timeouts].
      apply runTimeouts_hides.
      * by dom.
      * left. rewrite !fmap_app. cbn. set_solver.
  - intros Hno. unfold V3.facadeClick. run.
    destruct Hno as [-> | ->]; done.
Qed.

Lemma facade_activation_witness :
  nodes (exec (V3.facadeClick 12 13) (exec (V3.facadeClick 12 13) samplePage))
  = nodes (exec (V3.facadeClick 12 13) samplePage).
Proof.
  destruct (facade_activation samplePage 12 13) as [H _].
  - by eexists.
  - by eexists.
  - destruct (H "https://my.matterport.com/show") as (_ & _ & _ & _ & _ & _ & _ & _ & _ & Hn & _).
    + by vm_compute.
    + done.
    + exact Hn.
Defined.

(** ** Scroll reveal *)

Lemma forEach_modify {A} (f : A → World → World) (xs : list A) (w : World) :
  forEach (λ x, modify (f x)) xs w = (Normal tt, foldl (λ w x, f x w) w xs).
Proof.
  revert w. induction xs as [|x xs IH]; intros w; [done|].
  cbn [forEach foldl]. unfold bind at 1. unfold modify at 1. apply IH.
Qed.

Lemma addVisible_cons t q w :
  addVisible (t :: q) w = addVisible q (classList_add t "visible" w).
Proof. done. Qed.

Lemma addVisible_app q1 q2 w : addVisible (q1 ++ q2) w = addVisible q2 (addVisible q1 w).
Proof. apply foldl_app. Qed.

Lemma with_observed_addVisible f q w :
  with_observed f (addVisible q w) = addVisible q (with_observed f w).
Proof.
  unfold addVisible. revert w. induction q as [|t q IH]; intros w; [done|].
  cbn [foldl]. by rewrite IH.
Qed.

Lemma writes_addVisible q w :
  writes (addVisible q w) = writes w ++ ((λ n, WClassAdd n "visible") <$> q).
Proof.
  revert w. induction q as [|t q IH]; intros w.
  - cbn. by rewrite app_nil_r.
  - rewrite addVisible_cons, IH. cbn. by rewrite <-app_assoc.
Qed.

Lemma exists_addVisible q w n :
  is_Some (nodes (addVisible q w) !! n) ↔ is_Some (nodes w !! n).
Proof.
  revert w. induction q as [|t q IH]; intros w; [done|].
  rewrite addVisible_cons, IH. apply exists_classList_add.
Qed.

Lemma hasClass_addVisible_mono q w n c :
  hasClass w n c = true → hasClass (addVisible q w) n c = true.
Proof.
  revert w. induction q as [|t q IH]; intros w H; [done|].
  rewrite addVisible_cons. apply IH. by apply hasClass_add_mono.
Qed.

Lemma hasClass_addVisible_in q w n :
  n ∈ q → is_Some (nodes w !! n) → hasClass (addVisible q w) n "visible" = true.
Proof.
  revert w. induction q as [|t q IH]; intros w Hin Hn.
  - by apply elem_of_nil in Hin.
  - rewrite addVisible_cons. destruct (decide (t = n)) as [->|Hne].
    + apply hasClass_addVisible_mono. by apply hasClass_add_eq.
    + apply IH; [set_solver | by apply exists_classList_add].
Qed.

Lemma hasClass_addVisible_other q w n c :
  n ∉ q ∨ c ≠ "visible" → hasClass (addVisible q w) n c = hasClass w n c.
Proof.
  revert w. induction q as [|t q IH]; intros w Hne; [done|].
  rewrite addVisible_cons, IH by (destruct Hne; [left; set_solver | by right]).
  apply hasClass_add_ne. destruct Hne as [Hn|Hc]; [left; set_solver | by right].
Qed.

Lemma addVisible_other_fields q w :
  observed (addVisible q w) = observed w
  ∧ visibleElements (addVisible q w) = visibleElements w
  ∧ rafId (addVisible q w) = rafId w
  ∧ frameCounter (addVisible q w) = frameCounter w
  ∧ frameCallbacks (addVisible q w) = frameCallbacks w.
Proof.
  revert w. induction q as [|t q IH]; intros w; [done|].
  rewrite addVisible_cons. apply (IH (classList_add t "visible" w)).
Qed.

(** *** What the two callbacks and the frame do *)

Lemma qualifying_cons e entries :
  qualifying (e :: entries)
  = if isIntersecting e then target e :: qualifying entries else qualifying entries.
Proof. unfold qualifying. cbn. by destruct (isIntersecting e). Qed.

Lemma V3_revealObserver_spec entries w :
  V3.revealObserver entries w
  = (Normal tt,
     with_observed (λ s, s ∖ list_to_set (qualifying entries))
       (addVisible (qualifying entries) w)).
Proof.
  unfold V3.revealObserver. revert w.
  induction entries as [|e entries IH]; intros w.
  - cbn. unfold ret. f_equal. destruct w; unfold with_observed; cbn. f_equal. set_solver.
  - cbn [forEach]. rewrite qualifying_cons. unfold bind at 1.
    destruct (isIntersecting e).
    + unfold bind at 1, modify at 1, unobserve, modify. rewrite IH. f_equal.
      rewrite addVisible_cons, <-!with_observed_addVisible.
      generalize (addVisible (qualifying entries) (classList_add (target e) "visible" w)).
      intros w0. destruct w0; unfold with_observed; cbn. f_equal. set_solver.
    + unfold ret at 1. apply IH.
Qed.

Lemma P1_collect_spec entries h w :
  P1.collect entries h w
  = (Normal (h || bool_decide (qualifying entries ≠ [])),
     with_observed (λ s, s ∖ list_to_set (qualifying entries))
       (with_visibleElements (λ l, l ++ qualifying entries) w)).
Proof.
  revert h w. induction entries as [|e entries IH]; intros h w.
  - cbn. unfold ret. rewrite orb_false_r. f_equal.
    destruct w; unfold with_observed, with_visibleElements; cbn.
    f_equal; [set_solver | by rewrite app_nil_r].
  - cbn [P1.collect]. rewrite qualifying_cons. destruct (isIntersecting e).
    + unfold bind at 1, modify at 1. unfold bind at 1, unobserve, modify. rewrite IH.
      rewrite orb_true_r. cbn [orb]. f_equal.
      destruct w; unfold with_observed, with_visibleElements; cbn.
      f_equal; [set_solver | by rewrite <-app_assoc].
    + apply IH.
Qed.

Lemma P1_commit_spec w :
  P1.commit w
  = (Normal tt,
     with_rafId None (with_visibleElements (λ _, []) (addVisible (visibleElements w) w))).
Proof.
  unfold P1.commit. unfold bind at 1, gets at 1. unfold bind at 1.
  rewrite forEach_modify. reflexivity.
Qed.

Lemma P1_observer_spec entries w :
  let q := qualifying entries in
  let w1 := with_observed (λ s, s ∖ list_to_set q) (with_visibleElements (λ l, l ++ q) w) in
  P1.observer entries w
  = (Normal tt,
     if bool_decide (q ≠ []) && negb (truthy_number (rafId w))
     then with_rafId (Some (frameCounter w + 1)%Z)
            (with_frameCallbacks (frameCallbacks w ++ [(frameCounter w + 1)%Z])
               (with_frameCounter (frameCounter w + 1)%Z w1))
     else w1).
Proof.
  cbn zeta. unfold P1.observer. unfold bind at 1. rewrite P1_collect_spec.
  cbn [orb]. unfold bind at 1, gets at 1.
  cbn [rafId with_observed with_visibleElements].
  destruct (bool_decide (qualifying entries ≠ []) && negb (truthy_number (rafId w))); done.
Qed.

Lemma P1_observer_buffered w0 q w entries :
  buffered w0 q w →
  buffered w0 (q ++ qualifying entries) (exec (P1.observer entries) w).
Proof.
  intros (Hv & Hn & Hw & Hc & Hq). unfold exec. rewrite P1_observer_spec. cbn [snd].
  destruct (qualifying entries) as [|t q'] eqn:Eq.
  - rewrite bool_decide_eq_false_2 by (by intros H; apply H). cbn [andb].
    rewrite app_nil_r. unfold buffered. cbn. rewrite app_nil_r. by split_and!.
  - rewrite bool_decide_eq_true_2 by done. cbn [andb].
    destruct q as [|t0 q0].
    + destruct Hq as [Hr Hf]. rewrite Hr. cbn [truthy_number negb].
      unfold buffered. cbn. rewrite Hv, Hf. split_and!; try done; [lia|].
      exists (frameCounter w + 1)%Z. split_and!; [lia|done|done].
    + destruct Hq as (h & Hh & Hr & Hf). rewrite Hr. cbn [truthy_number].
      rewrite (proj2 (Z.eqb_neq h 0) Hh). cbn [negb].
      unfold buffered. cbn. rewrite Hv. split_and!; try done. by exists h.
Qed.

Lemma exec_forEach_cons {A} (f : A → M unit) x xs w :
  result (f x) w = Normal tt →
  forEach f (x :: xs) w = forEach f xs (exec (f x) w).
Proof.
  unfold result, exec. intros H. cbn [forEach]. unfold bind.
  destruct (f x w) as [c w']. cbn in *. by subst c.
Qed.

Lemma P1_deliver_buffered batches w0 q w :
  buffered w0 q w →
  result (deliver P1.observer batches) w = Normal tt
  ∧ buffered w0 (q ++ concat (qualifying <$> batches)) (exec (deliver P1.observer batches) w).
Proof.
  revert q w. induction batches as [|b bs IH]; intros q w Hb.
  - cbn. by rewrite app_nil_r.
  - unfold deliver, result, exec in *.
    rewrite exec_forEach_cons by (unfold result; by rewrite P1_observer_spec).
    cbn [fmap list_fmap concat]. rewrite app_assoc.
    apply IH. by apply P1_observer_buffered.
Qed.

Lemma runAnimationFrame_buffered w0 q w :
  buffered w0 q w →
  runAnimationFrame w
  = (Normal tt,
     match q with
     | [] => with_frameCallbacks [] w
     | _ => with_rafId None (with_visibleElements (λ _, [])
              (addVisible q (with_frameCallbacks [] w)))
     end).
Proof.
  intros (Hv & Hn & Hw & Hc & Hq). unfold runAnimationFrame.
  unfold bind at 1, gets at 1. unfold bind at 1, modify at 1.
  destruct q as [|t q].
  - destruct Hq as [_ ->]. done.
  - destruct Hq as (h & _ & _ & ->). cbn [forEach]. unfold bind at 1.
    rewrite P1_commit_spec. cbn [visibleElements with_frameCallbacks]. by rewrite Hv.
Qed.

Lemma with_observed_twice f g w :
  with_observed f (with_observed g w) = with_observed (λ s, f (g s)) w.
Proof. done. Qed.

Lemma V3_deliver_spec batches w :
  let q := concat (qualifying <$> batches) in
  deliver V3.revealObserver batches w
  = (Normal tt, with_observed (λ s, s ∖ list_to_set q) (addVisible q w)).
Proof.
  cbn zeta. unfold deliver. revert w. induction batches as [|b bs IH]; intros w.
  - cbn. unfold ret. f_equal. destruct w; unfold with_observed; cbn. f_equal. set_solver.
  - rewrite exec_forEach_cons by (unfold result; by rewrite V3_revealObserver_spec).
    unfold exec. rewrite V3_revealObserver_spec. cbn [snd]. rewrite IH. f_equal.
    cbn [fmap list_fmap concat].
    rewrite addVisible_app, <-!with_observed_addVisible, with_observed_twice.
    generalize (addVisible (concat (list_fmap _ _ qualifying bs)) (addVisible (qualifying b) w)).
    intros w0. destruct w0; unfold with_observed; cbn. f_equal. set_solver.
Qed.

(** C1, as stated, fails.  In script.js the observer callback adds the class
    itself: after a callback with a qualifying entry nothing is buffered and
    no commit is scheduled, yet the element is already promoted.  In the
    batched revision a sequence of callbacks in which no entry qualifies
    schedules no commit at all. *)
Lemma batched_reveal_counterexample :
  (let v := exec (V3.revealObserver [mkEntry 10 true]) samplePage in
   hasClass v 10 "visible" = true
   ∧ visibleElements v = [] ∧ frameCallbacks v = [] ∧ rafId v = None)
  ∧ frameCallbacks (exec (deliver P1.observer [[mkEntry 10 false]; [mkEntry 11 false]])
                      samplePage) = [].
Proof. by vm_compute. Qed.

(** C1, amended.  In the batched revision ([initScrollReveal]), for every
    sequence of observer callbacks delivered between two rendering frames,
    starting with nothing buffered: the qualifying elements are buffered and
    nothing is written to the document; at most one commit is pending at the
    next frame, exactly one when some entry qualified and none otherwise
    (the [rafId] lock keeps later callbacks from scheduling another); the
    frame runs it, adding [visible] to every buffered element and to nothing
    else, and clears buffer and lock.  In script.js ([initScrollAnimations])
    there is no buffer and no scheduling: the callbacks themselves add
    [visible] to the qualifying elements. *)
Theorem batched_reveal (w : World) (batches : list (list Entry)) :
  idle w →
  let q := concat (qualifying <$> batches) in
  (let w' := exec (deliver P1.observer batches) w in
   let w'' := exec runAnimationFrame w' in
   result (deliver P1.observer batches) w = Normal tt
   ∧ visibleElements w' = q
   ∧ nodes w' = nodes w
   ∧ writes w' = writes w
   ∧ length (frameCallbacks w') = (if bool_decide (q = []) then 0 else 1)
   ∧ result runAnimationFrame w' = Normal tt
   ∧ writes w'' = writes w ++ ((λ n, WClassAdd n "visible") <$> q)
   ∧ (∀ n, n ∈ q → is_Some (nodes w !! n) → hasClass w'' n "visible" = true)
   ∧ (∀ n c, n ∉ q ∨ c ≠ "visible" → hasClass w'' n c = hasClass w n c)
   ∧ visibleElements w'' = [] ∧ rafId w'' = None ∧ frameCallbacks w'' = [])
  ∧
  (let v := exec (deliver V3.revealObserver batches) w in
   result (deliver V3.revealObserver batches) w = Normal tt
   ∧ writes v = writes w ++ ((λ n, WClassAdd n "visible") <$> q)
   ∧ visibleElements v = visibleElements w
   ∧ frameCallbacks v = frameCallbacks w
   ∧ rafId v = rafId w).
Proof.
  intros (Hv & Hr & Hf & Hc). cbn zeta. split.
  - assert (buffered w [] w) as Hb by (unfold buffered; by split_and!).
    destruct (P1_deliver_buffered batches w [] w Hb) as [HR Hb'].
    cbn [app] in Hb'.
    set (q := concat (qualifying <$> batches)) in *.
    set (w' := exec (deliver P1.observer batches) w) in *.
    pose proof (runAnimationFrame_buffered w q w' Hb') as Hrun.
    destruct Hb' as (Hv' & Hn' & Hw' & Hc' & Hq').
    unfold result, exec. rewrite Hrun. cbn [fst snd].
    destruct q as [|t q0] eqn:Eq.
    + destruct Hq' as [Hr' Hf']. rewrite Hf'. cbn. rewrite app_nil_r.
      split_and!; try done.
      * intros n Hn. by apply elem_of_nil in Hn.
      * intros n c _. by apply hasClass_frame.
    + destruct Hq' as (h & Hh & Hr' & Hf'). rewrite Hf'.
      rewrite bool_decide_eq_false_2 by done.
      split_and!; try done.
      * cbn [writes with_rafId with_visibleElements]. rewrite writes_addVisible.
        cbn [writes with_frameCallbacks]. by rewrite Hw'.
      * intros n Hin Hn. frame. apply hasClass_addVisible_in; [done|].
        frame. by rewrite Hn'.
      * intros n c Hne. frame. rewrite hasClass_addVisible_other by done.
        frame. by apply hasClass_frame.
      * cbn [frameCallbacks with_rafId with_visibleElements].
        by rewrite (proj2 (proj2 (proj2 (proj2 (addVisible_other_fields _ _))))).
  - unfold result, exec. rewrite V3_deliver_spec. cbn [fst snd].
    split_and!; try done.
    + cbn [writes with_observed]. apply writes_addVisible.
    + cbn [visibleElements with_observed]. apply addVisible_other_fields.
    + cbn [frameCallbacks with_observed]. apply addVisible_other_fields.
    + cbn [rafId with_observed]. apply addVisible_other_fields.
Qed.

Lemma batched_reveal_witness :
  length (frameCallbacks
            (exec (deliver P1.observer
                     [[mkEntry 10 true]; [mkEntry 11 true; mkEntry 10 false]]) samplePage))
  = 1.
Proof.
  destruct (batched_reveal samplePage
              [[mkEntry 10 true]; [mkEntry 11 true; mkEntry 10 false]]) as [H _].
  - by split_and!.
  - destruct H as (_ & _ & _ & _ & H & _). exact H.
Defined.

(** *** Each element is committed at most once *)

Lemma occ_app n l1 l2 : occ n (l1 ++ l2) = occ n l1 + occ n l2.
Proof. unfold occ. by rewrite List.filter_app, length_app. Qed.

Lemma occ_not_in n l : n ∉ l → occ n l = 0.
Proof.
  unfold occ. induction l as [|x l IH]; intros Hn; [done|]. cbn.
  rewrite bool_decide_eq_false_2 by set_solver. apply IH. set_solver.
Qed.

Lemma occ_NoDup n l : NoDup l → occ n l ≤ 1.
Proof.
  unfold occ. induction 1 as [|x l Hx Hl IH]; [cbn; lia|]. cbn.
  case_bool_decide as E; [|done]. subst x. cbn.
  fold (occ n l). rewrite occ_not_in by done. lia.
Qed.

Lemma occ_pos_in n l : occ n l ≠ 0 → n ∈ l.
Proof.
  intros H. destruct (decide (n ∈ l)) as [|Hn]; [done|].
  by rewrite occ_not_in in H.
Qed.

Lemma count_classAdd_addVisible q w n :
  count_classAdd n "visible" (addVisible q w) = count_classAdd n "visible" w + occ n q.
Proof.
  unfold count_classAdd, occ. rewrite writes_addVisible, List.filter_app, length_app.
  f_equal. induction q as [|x q IH]; [done|].
  cbn [fmap list_fmap List.filter].
  destruct (decide (x = n)) as [->|Hne].
  - rewrite !bool_decide_eq_true_2 by done. cbn [length]. by f_equal.
  - rewrite !bool_decide_eq_false_2; [done|done|congruence].
Qed.

Lemma qualifying_intersecting entries E :
  mkEntry E true ∈ entries → E ∈ qualifying entries.
Proof.
  intros Hin. unfold qualifying. apply list_elem_of_fmap. exists (mkEntry E true).
  split; [done|]. apply list_elem_of_In, filter_In. split; [|done].
  by apply list_elem_of_In.
Qed.

Lemma progress_refl w : progress [] w w.
Proof.
  split_and!; [set_solver | intros n; change (total n w = total n w + 0); lia | done].
Qed.

Lemma progress_trans q1 q2 w w1 w2 :
  progress q1 w w1 → progress q2 w1 w2 → progress (q1 ++ q2) w w2.
Proof.
  intros (O1 & T1 & M1) (O2 & T2 & M2). split_and!.
  - rewrite O2, O1, list_to_set_app_L. set_solver.
  - intros n. rewrite T2, T1, occ_app. lia.
  - intros n c H. by apply M2, M1.
Qed.

Lemma once_progress w0 w w' q :
  once w0 w → progress q w w' → NoDup q → (∀ n, n ∈ q → n ∈ observed w) → once w0 w'.
Proof.
  intros Ho (O & T & _) Hnd Hobs n. destruct (Ho n) as [Hle Heq].
  rewrite T, O. destruct (decide (n ∈ q)) as [Hin|Hnin].
  - pose proof (occ_NoDup n q Hnd). rewrite (Heq (Hobs n Hin)).
    split; [lia|]. set_solver.
  - rewrite occ_not_in by done. split; [lia|].
    intros Hn. rewrite Heq; [lia|set_solver].
Qed.

Lemma V3_revealObserver_progress entries w :
  progress (qualifying entries) w (exec (V3.revealObserver entries) w).
Proof.
  unfold exec. rewrite V3_revealObserver_spec. cbn [snd]. split_and!.
  - cbn [observed with_observed]. by rewrite (proj1 (addVisible_other_fields _ _)).
  - intros n. unfold total. cbn [visibleElements with_observed].
    rewrite (proj1 (proj2 (addVisible_other_fields _ _))).
    change (count_classAdd n "visible" (with_observed ?f ?x))
      with (count_classAdd n "visible" x).
    rewrite count_classAdd_addVisible. lia.
  - intros n c H. frame. by apply hasClass_addVisible_mono.
Qed.

Lemma P1_observer_progress entries w :
  progress (qualifying entries) w (exec (P1.observer entries) w).
Proof.
  unfold exec. rewrite P1_observer_spec. cbn [snd].
  destruct (bool_decide _ && negb _); split_and!; try done.
  - intros n. unfold total, count_classAdd.
    cbn [visibleElements writes with_observed with_visibleElements with_rafId
         with_frameCallbacks with_frameCounter].
    rewrite occ_app. lia.
  - intros n. unfold total, count_classAdd.
    cbn [visibleElements writes with_observed with_visibleElements with_rafId
         with_frameCallbacks with_frameCounter].
    rewrite occ_app. lia.
Qed.

Lemma P1_commit_progress w : progress [] w (exec P1.commit w).
Proof.
  unfold exec. rewrite P1_commit_spec. cbn [snd]. split_and!.
  - cbn [observed with_rafId with_visibleElements].
    rewrite (proj1 (addVisible_other_fields _ _)). set_solver.
  - intros n. unfold total. cbn [visibleElements with_rafId with_visibleElements].
    change (count_classAdd n "visible" (with_rafId ?r (with_visibleElements ?f ?x)))
      with (count_classAdd n "visible" x).
    rewrite count_classAdd_addVisible. cbn. lia.
  - intros n c H. frame. by apply hasClass_addVisible_mono.
Qed.

Lemma commits_progress (ids : list Z) w :
  result (forEach (λ _, P1.commit) ids) w = Normal tt
  ∧ progress [] w (exec (forEach (λ _, P1.commit) ids) w).
Proof.
  revert w. induction ids as [|h ids IH]; intros w.
  - split; [done|apply progress_refl].
  - unfold result, exec in *.
    rewrite exec_forEach_cons by (unfold result; by rewrite P1_commit_spec).
    destruct (IH (exec P1.commit w)) as [R P]. split; [done|].
    apply (progress_trans [] [] w (exec P1.commit w)); [apply P1_commit_progress|done].
Qed.

Lemma runAnimationFrame_progress w :
  result runAnimationFrame w = Normal tt ∧ progress [] w (exec runAnimationFrame w).
Proof.
  unfold runAnimationFrame, result, exec.
  unfold bind at 1 3, gets at 1 2. unfold bind at 1 2, modify at 1 2.
  destruct (commits_progress (frameCallbacks w) (with_frameCallbacks [] w)) as [R P].
  split; [done|].
  apply (progress_trans [] [] w (with_frameCallbacks [] w)); [|done].
  split_and!; [set_solver | intros n; change (total n w = total n w + 0); lia | done].
Qed.

Section Traces.
Context (cb : list Entry → M unit).
Hypothesis cb_returns : ∀ entries w, result (cb entries) w = Normal tt.
Hypothesis cb_progress : ∀ entries w, progress (qualifying entries) w (exec (cb entries) w).

Lemma step_returns ev w : result (step cb ev) w = Normal tt.
Proof. destruct ev; [apply cb_returns | apply runAnimationFrame_progress]. Qed.

Lemma run_once w0 trace w :
  once w0 w → well_delivered cb trace w →
  result (run cb trace) w = Normal tt
  ∧ once w0 (exec (run cb trace) w)
  ∧ ∃ q, progress q w (exec (run cb trace) w).
Proof.
  revert w. induction trace as [|ev trace IH]; intros w Ho Hwd.
  - split_and!; [done|done|]. exists []. apply progress_refl.
  - destruct Hwd as [Hev Hwd]. unfold run, result, exec in *.
    rewrite exec_forEach_cons by apply step_returns.
    assert (∃ q, progress q w (exec (step cb ev) w)
                 ∧ NoDup q ∧ ∀ n, n ∈ q → n ∈ observed w) as (q & Hp & Hnd & Hobs).
    { destruct ev as [entries|].
      - exists (qualifying entries). split_and!.
        + apply cb_progress.
        + apply Hev.
        + apply Hev.
      - exists []. split_and!.
        + apply runAnimationFrame_progress.
        + constructor.
        + intros n Hn. by apply elem_of_nil in Hn. }
    destruct (IH (exec (step cb ev) w)) as (R & O & q' & P).
    { by apply (once_progress w0 w _ q). }
    { done. }
    split_and!; [done|done|]. exists (q ++ q').
    by apply (progress_trans q q' w (exec (step cb ev) w)).
Qed.

Lemma run_progress trace w :
  result (run cb trace) w = Normal tt
  ∧ progress (delivered trace) w (exec (run cb trace) w).
Proof.
  revert w. induction trace as [|ev trace IH]; intros w.
  - split; [done|apply progress_refl].
  - unfold run, result, exec in *.
    rewrite exec_forEach_cons by apply step_returns.
    destruct (IH (exec (step cb ev) w)) as [R P]. split; [done|].
    unfold delivered. cbn [fmap list_fmap concat].
    apply (progress_trans _ _ w (exec (step cb ev) w)); [|exact P].
    destruct ev as [entries|]; [apply cb_progress | apply runAnimationFrame_progress].
Qed.

Lemma run_reveals trace w :
  visibleElements w = [] →
  let w' := exec (run cb trace) w in
  result (run cb trace) w = Normal tt
  ∧ (∀ E, hasClass w E "visible" = true → hasClass w' E "visible" = true)
  ∧ (∀ E, E ∉ observed w → E ∉ observed w')
  ∧ (∀ E, E ∈ delivered trace → E ∉ observed w')
  ∧ (∀ E, total E w' = count_classAdd E "visible" w + occ E (delivered trace))
  ∧ (well_delivered cb trace w →
     ∀ E, count_classAdd E "visible" w' ≤ count_classAdd E "visible" w + 1).
Proof.
  intros Hv. cbn zeta.
  destruct (run_progress trace w) as (R & Ob & T & Mo).
  split_and!; [done| | | | |].
  - intros E. apply Mo.
  - intros E HE. rewrite Ob. set_solver.
  - intros E HE. rewrite Ob. set_solver.
  - intros E. rewrite T. unfold total. rewrite Hv. cbn. lia.
  - intros Hwd E.
    assert (once w w) as Ho.
    { intros n. unfold total. rewrite Hv. cbn. split; [lia|]. intros _. lia. }
    destruct (run_once w trace w Ho Hwd) as (_ & O & _).
    destruct (O E) as [Hle _]. unfold total in Hle. lia.
Qed.

Lemma cb_unobserves entries w E :
  mkEntry E true ∈ entries → E ∉ observed (exec (cb entries) w).
Proof.
  intros Hin. destruct (cb_progress entries w) as (Ob & _). rewrite Ob.
  apply qualifying_intersecting in Hin. set_solver.
Qed.
End Traces.

(** C2, as stated, fails: neither callback tests whether the element is
    already revealed.  When one callback carries two qualifying entries for
    the same element (it entered, left and entered again before the callback
    ran), [classList.add('visible')] is called for it twice, in script.js at
    once and in the batched revision at the next frame. *)
Lemma reveal_at_most_once_counterexample :
  let entries := [mkEntry 10 true; mkEntry 10 false; mkEntry 10 true] in
  count_classAdd 10 "visible" observingPage = 0
  ∧ count_classAdd 10 "visible" (exec (V3.revealObserver entries) observingPage) = 2
  ∧ count_classAdd 10 "visible"
      (exec runAnimationFrame (exec (P1.observer entries) observingPage)) = 2.
Proof. by vm_compute. Qed.

(** C2, amended.  Starting with nothing buffered, over any interleaving of
    observer callbacks and rendering frames, in script.js and in the batched
    revision alike: an element that
    carries [visible] keeps it; an element not observed is never observed
    again, and an element for which a qualifying entry was delivered is no
    longer observed; [visible] is added (or still buffered) once for every
    qualifying entry delivered, neither more nor less often.  So it is added
    at most once per element when every callback reports an element as
    intersecting at most once and only while it is observed.  The callback
    that receives a qualifying entry for an element ends with the element
    unobserved. *)
Theorem reveal_at_most_once (w : World) (trace : list Event) :
  visibleElements w = [] →
  (let w' := exec (run V3.revealObserver trace) w in
   result (run V3.revealObserver trace) w = Normal tt
   ∧ (∀ E, hasClass w E "visible" = true → hasClass w' E "visible" = true)
   ∧ (∀ E, E ∉ observed w → E ∉ observed w')
   ∧ (∀ E, E ∈ delivered trace → E ∉ observed w')
   ∧ (∀ E, total E w' = count_classAdd E "visible" w + occ E (delivered trace))
   ∧ (well_delivered V3.revealObserver trace w →
      ∀ E, count_classAdd E "visible" w' ≤ count_classAdd E "visible" w + 1))
  ∧
  (let w' := exec (run P1.observer trace) w in
   result (run P1.observer trace) w = Normal tt
   ∧ (∀ E, hasClass w E "visible" = true → hasClass w' E "visible" = true)
   ∧ (∀ E, E ∉ observed w → E ∉ observed w')
   ∧ (∀ E, E ∈ delivered trace → E ∉ observed w')
   ∧ (∀ E, total E w' = count_classAdd E "visible" w + occ E (delivered trace))
   ∧ (well_delivered P1.observer trace w →
      ∀ E, count_classAdd E "visible" w' ≤ count_classAdd E "visible" w + 1))
  ∧
  (∀ entries E, mkEntry E true ∈ entries →
     (E ∉ observed (exec (V3.revealObserver entries) w))
     ∧ (E ∉ observed (exec (P1.observer entries) w))).
Proof.
  intros Hv.
  assert (∀ entries w, result (V3.revealObserver entries) w = Normal tt) as R3
    by (intros; unfold result; by rewrite V3_revealObserver_spec).
  assert (∀ entries w, result (P1.observer entries) w = Normal tt) as R1
    by (intros; unfold result; by rewrite P1_observer_spec).
  split_and!.
  - by apply (run_reveals V3.revealObserver R3 V3_revealObserver_progress).
  - by apply (run_reveals P1.observer R1 P1_observer_progress).
  - intros entries E Hin. split.
    + by apply (cb_unobserves V3.revealObserver R3 V3_revealObserver_progress).
    + by apply (cb_unobserves P1.observer R1 P1_observer_progress).
Qed.

Lemma sampleTrace_well_delivered cb :
  (∀ entries w, observed (exec (cb entries) w) = observed w ∖ list_to_set (qualifying entries)) →
  well_delivered cb sampleTrace observingPage.
Proof.
  intros Hcb. unfold sampleTrace. cbn [well_delivered step].
  assert (∀ w, observed (exec runAnimationFrame w) = observed w) as Hfr.
  { intros w. destruct (runAnimationFrame_progress w) as (_ & -> & _). set_solver. }
  assert (observed observingPage = {[10; 11]}) as Hobs by by vm_compute.
  split_and!; try done.
  - split.
    + cbn. apply NoDup_singleton.
    + intros n Hn. rewrite Hobs. cbn in Hn. set_solver.
  - split.
    + cbn. apply NoDup_singleton.
    + intros n Hn. rewrite Hfr, Hcb, Hobs. cbn in *. set_solver.
Qed.

Lemma reveal_at_most_once_witness :
  (∀ E, count_classAdd E "visible" (exec (run V3.revealObserver sampleTrace) observingPage)
        ≤ count_classAdd E "visible" observingPage + 1)
  ∧ (∀ E, count_classAdd E "visible" (exec (run P1.observer sampleTrace) observingPage)
          ≤ count_classAdd E "visible" observingPage + 1).
Proof.
  destruct (reveal_at_most_once observingPage sampleTrace) as (H3 & H1 & _).
  - done.
  - destruct H3 as (_ & _ & _ & _ & _ & H3).
    destruct H1 as (_ & _ & _ & _ & _ & H1).
    split.
    + apply H3. apply sampleTrace_well_delivered.
      intros entries w. apply V3_revealObserver_progress.
    + apply H1. apply sampleTrace_well_delivered.
      intros entries w. apply P1_observer_progress.
Defined.

(** * Further properties of the code *)

(** ** Header shrink and back-to-top *)

(** X1.  The header's [scrolled] class and the back-to-top button's
    [visible] class are present exactly while the sentinel does not
    intersect; nothing else in the document is read differently afterwards;
    and the two ways the revisions write the header class (add/remove in
    script.js, [toggle] with a force argument in part_000) give the same
    world. *)
Theorem sentinel_mirrors_signal (w : World) (n : node) (entry : Entry) :
  is_Some (nodes w !! n) →
  hasClass (exec (V3.stickyObserver n entry) w) n "scrolled" = negb (isIntersecting entry)
  ∧ hasClass (exec (V3.btnObserver n entry) w) n "visible" = negb (isIntersecting entry)
  ∧ (∀ m c, m ≠ n ∨ c ≠ "scrolled" →
       hasClass (exec (V3.stickyObserver n entry) w) m c = hasClass w m c)
  ∧ (∀ m c, m ≠ n ∨ c ≠ "visible" →
       hasClass (exec (V3.btnObserver n entry) w) m c = hasClass w m c)
  ∧ (∀ m a, attr (exec (V3.stickyObserver n entry) w) m a = attr w m a
            ∧ attr (exec (V3.btnObserver n entry) w) m a = attr w m a)
  ∧ P1.headerObserver n entry w = V3.stickyObserver n entry w.
Proof.
  intros Hn. unfold V3.stickyObserver, V3.btnObserver, P1.headerObserver,
    classList_toggle_force.
  destruct (isIntersecting entry); cbn [negb]; run; dom; split_and!; try done.
  all: try (intros m c [H|H]; rewrite ?hasClass_remove_ne, ?hasClass_add_ne;
            first [done | by left | by right]).
  all: intros m a; by dom.
Qed.

Lemma sentinel_mirrors_signal_witness :
  hasClass (exec (V3.btnObserver 14 (mkEntry 7 false)) samplePage) 14 "visible" = true.
Proof.
  destruct (sentinel_mirrors_signal samplePage 14 (mkEntry 7 false)) as (_ & H & _).
  - by eexists.
  - exact H.
Defined.

(** X2.  The signal goes past the marker and back: the back-to-top button
    carries [visible] only in between, whatever it carried before. *)
Theorem back_to_top_interval (w : World) (btn sentinel : node) :
  is_Some (nodes w !! btn) →
  let w1 := exec (V3.btnObserver btn (mkEntry sentinel true)) w in
  let w2 := exec (V3.btnObserver btn (mkEntry sentinel false)) w1 in
  let w3 := exec (V3.btnObserver btn (mkEntry sentinel true)) w2 in
  hasClass w1 btn "visible" = false
  ∧ hasClass w2 btn "visible" = true
  ∧ hasClass w3 btn "visible" = false.
Proof.
  intros Hn. cbn zeta. unfold V3.btnObserver. cbn [negb isIntersecting]. run.
  split_and!; by dom.
Qed.

Lemma back_to_top_interval_witness :
  hasClass (exec (V3.btnObserver 14 (mkEntry 7 false))
              (exec (V3.btnObserver 14 (mkEntry 7 true)) samplePage)) 14 "visible" = true.
Proof.
  destruct (back_to_top_interval samplePage 14 7) as (_ & H & _).
  - by eexists.
  - exact H.
Defined.

(** ** The menu under every event *)

Lemma contains_refl w a : contains w a a = true.
Proof.
  unfold contains. destruct (length (nodes w)); cbn; by rewrite bool_decide_eq_true_2.
Qed.

Lemma select_elem_of test w n :
  n ∈ select test w ↔ test n = true ∧ n < length (nodes w).
Proof.
  unfold select. rewrite list_elem_of_In, filter_In, in_seq. naive_solver lia.
Qed.

Lemma descendants_contained root test w n :
  n ∈ descendants root test w → contains w root n = true ∧ n ≠ root.
Proof.
  unfold descendants. rewrite select_elem_of. intros [H _].
  apply andb_true_iff in H as [H _]. apply andb_true_iff in H as [Hn Hc].
  split; [done|]. apply negb_true_iff, bool_decide_eq_false in Hn. done.
Qed.

Lemma V3_outsideClick_skip w b m t :
  hasClass w m "active" = false ∨ contains w m t = true ∨ contains w b t = true →
  V3.outsideClick b m t w = (Normal tt, w).
Proof.
  intros H. unfold V3.outsideClick. run.
  destruct H as [->|[->| ->]]; cbn; rewrite ?andb_false_r; done.
Qed.

Lemma P1_outsideClick_skip w b m t :
  hasClass w m "active" = false ∨ contains w m t = true ∨ contains w b t = true →
  P1.outsideClick b m t w = (Normal tt, w).
Proof.
  intros H. unfold P1.outsideClick. run.
  destruct H as [->|[->| ->]]; cbn; rewrite ?andb_false_r; done.
Qed.

Lemma V3_outsideClick_fire w b m t :
  hasClass w m "active" = true → contains w m t = false → contains w b t = false →
  V3.outsideClick b m t w = V3.toggleMenu b m w.
Proof. intros H1 H2 H3. unfold V3.outsideClick. run. by rewrite H1, H2, H3. Qed.

Lemma P1_outsideClick_fire w b m t :
  hasClass w m "active" = true → contains w m t = false → contains w b t = false →
  P1.outsideClick b m t w = P1.toggleMenu b m true w.
Proof. intros H1 H2 H3. unfold P1.outsideClick. run. by rewrite H1, H2, H3. Qed.

(** X3.  The document-level click handler leaves the world alone when the
    click's target is the panel, the trigger, or a link inside the panel (so
    a click on a link is handled by the link's own handler only), and
    whenever the panel does not carry [active]; a click elsewhere while the
    panel is active runs [toggleMenu]. *)
Theorem outside_click_guard (w : World) (b m t : node) :
  (t = m ∨ t = b ∨ t ∈ querySelectorAll_tag_in m "a" w ∨ hasClass w m "active" = false →
     V3.outsideClick b m t w = (Normal tt, w)
     ∧ P1.outsideClick b m t w = (Normal tt, w))
  ∧ (hasClass w m "active" = true → contains w m t = false → contains w b t = false →
     V3.outsideClick b m t w = V3.toggleMenu b m w
     ∧ P1.outsideClick b m t w = P1.toggleMenu b m true w).
Proof.
  split.
  - intros H.
    assert (hasClass w m "active" = false ∨ contains w m t = true ∨ contains w b t = true)
      as H'.
    { destruct H as [->|[->|[H|H]]].
      - right. left. apply contains_refl.
      - right. right. apply contains_refl.
      - right. left. by apply descendants_contained in H as [H _].
      - by left. }
    split; [by apply V3_outsideClick_skip | by apply P1_outsideClick_skip].
  - intros H1 H2 H3.
    split; [by apply V3_outsideClick_fire | by apply P1_outsideClick_fire].
Qed.

Lemma outside_click_guard_witness :
  V3.outsideClick 3 5 6 samplePageOpen = (Normal tt, samplePageOpen)
  ∧ Closed (exec (V3.outsideClick 3 5 10) samplePageOpen) 3 5.
Proof.
  destruct (outside_click_guard samplePageOpen 3 5 6) as [H6 _].
  destruct (outside_click_guard samplePageOpen 3 5 10) as [_ H10].
  split.
  - apply H6. right. right. left.
    assert (querySelectorAll_tag_in 5 "a" samplePageOpen = [6]) as -> by by vm_compute.
    apply list_elem_of_In; by left.
  - unfold exec. rewrite (proj1 (H10 ltac:(by vm_compute) ltac:(by vm_compute)
                                       ltac:(by vm_compute))).
    split_and!; by vm_compute.
Defined.

Lemma V3_toggle_Closed w b m :
  menuNodes w b m → Closed w b m →
  result (V3.toggleMenu b m) w = Normal tt
  ∧ menuNodes (exec (V3.toggleMenu b m) w) b m ∧ Open (exec (V3.toggleMenu b m) w) b m.
Proof.
  intros (Hbm & Hb & Hm & Hbody) (Ha & Hcb & Hcm & Ho).
  destruct (V3_toggleMenu_spec w b m Hbm Hb Hm Hbody) as (R & A & B & M & Y & O & E).
  rewrite Hcb in B. rewrite Hcm in M. rewrite bool_decide_eq_false_2 in A, O by done.
  split_and!; [done| |].
  - unfold menuNodes. rewrite Y, !E. by split_and!.
  - unfold Open. rewrite Y, A. by split_and!.
Qed.

Lemma V3_toggle_Open w b m :
  menuNodes w b m → Open w b m →
  result (V3.toggleMenu b m) w = Normal tt
  ∧ menuNodes (exec (V3.toggleMenu b m) w) b m ∧ Closed (exec (V3.toggleMenu b m) w) b m.
Proof.
  intros (Hbm & Hb & Hm & Hbody) (Ha & Hcb & Hcm & Ho).
  destruct (V3_toggleMenu_spec w b m Hbm Hb Hm Hbody) as (R & A & B & M & Y & O & E).
  rewrite Hcb in B. rewrite Hcm in M. rewrite bool_decide_eq_true_2 in A, O by done.
  split_and!; [done| |].
  - unfold menuNodes. rewrite Y, !E. by split_and!.
  - unfold Closed. rewrite Y, A. by split_and!.
Qed.

Lemma P1_toggle_any w b m (forceClose : bool) :
  menuNodes w b m → Closed w b m ∨ Open w b m →
  let w' := exec (P1.toggleMenu b m forceClose) w in
  result (P1.toggleMenu b m forceClose) w = Normal tt
  ∧ menuNodes w' b m
  ∧ (if forceClose then Closed w' b m
     else (Closed w b m → Open w' b m) ∧ (Open w b m → Closed w' b m)).
Proof.
  intros (Hbm & Hb & Hm & Hbody) Hst. cbn zeta.
  destruct (P1_toggleMenu_spec w b m Hbm Hb Hm Hbody forceClose)
    as (R & A & B & M & Y & O & E).
  split_and!; [done| |].
  - unfold menuNodes. rewrite Y, !E. by split_and!.
  - unfold Open, Closed. rewrite Y, A, B, M, O.
    destruct forceClose; [by split_and!|]. split.
    + intros (Ha & _). rewrite bool_decide_eq_false_2 by done. by split_and!.
    + intros (Ha & _). rewrite bool_decide_eq_true_2 by done. by split_and!.
Qed.

Lemma result_congr {A} (m1 m2 : M A) w : m1 w = m2 w → result m1 w = result m2 w.
Proof. unfold result. by intros ->. Qed.

Lemma exec_congr {A} (m1 m2 : M A) w : m1 w = m2 w → exec m1 w = exec m2 w.
Proof. unfold exec. by intros ->. Qed.

Lemma result_skip (m : M unit) w : m w = (Normal tt, w) → result m w = Normal tt.
Proof. unfold result. by intros ->. Qed.

Lemma exec_skip (m : M unit) w : m w = (Normal tt, w) → exec m w = w.
Proof. unfold exec. by intros ->. Qed.

Lemma V3_menuEvent_consistent w b m ev :
  menuNodes w b m → Closed w b m ∨ Open w b m →
  let w' := exec (V3_menuEvent b m ev) w in
  result (V3_menuEvent b m ev) w = Normal tt
  ∧ menuNodes w' b m ∧ (Closed w' b m ∨ Open w' b m).
Proof.
  intros Hn Hst. cbn zeta.
  assert (result (V3.toggleMenu b m) w = Normal tt
          ∧ menuNodes (exec (V3.toggleMenu b m) w) b m
          ∧ (Closed (exec (V3.toggleMenu b m) w) b m ∨ Open (exec (V3.toggleMenu b m) w) b m))
    as Htog.
  { destruct Hst as [Hc|Ho].
    - destruct (V3_toggle_Closed w b m Hn Hc) as (? & ? & ?). by split_and!; [..|right].
    - destruct (V3_toggle_Open w b m Hn Ho) as (? & ? & ?). by split_and!; [..|left]. }
  destruct ev as [| |t]; cbn [V3_menuEvent].
  - exact Htog.
  - destruct (hasClass w m "active") eqn:E.
    + rewrite (result_congr _ _ _ (V3_linkClick_active w b m E)),
        (exec_congr _ _ _ (V3_linkClick_active w b m E)). exact Htog.
    + rewrite (result_skip _ _ (V3_linkClick_inactive w b m E)),
        (exec_skip _ _ (V3_linkClick_inactive w b m E)). by split_and!.
  - destruct (hasClass w m "active" && negb (contains w m t) && negb (contains w b t)) eqn:E.
    + apply andb_true_iff in E as [E E3]. apply andb_true_iff in E as [E1 E2].
      apply negb_true_iff in E2, E3.
      rewrite (result_congr _ _ _ (V3_outsideClick_fire w b m t E1 E2 E3)),
        (exec_congr _ _ _ (V3_outsideClick_fire w b m t E1 E2 E3)). exact Htog.
    + assert (V3.outsideClick b m t w = (Normal tt, w)) as Hskip;
        [|rewrite (result_skip _ _ Hskip), (exec_skip _ _ Hskip); by split_and!].
      apply V3_outsideClick_skip.
      apply andb_false_iff in E as [E|E]; [apply andb_false_iff in E as [E|E]|].
      * by left.
      * right. left. by apply negb_false_iff in E.
      * right. right. by apply negb_false_iff in E.
Qed.

Lemma P1_menuEvent_consistent w b m ev :
  menuNodes w b m → Closed w b m ∨ Open w b m →
  let w' := exec (P1_menuEvent b m ev) w in
  result (P1_menuEvent b m ev) w = Normal tt
  ∧ menuNodes w' b m ∧ (Closed w' b m ∨ Open w' b m).
Proof.
  intros Hn Hst. cbn zeta.
  assert (∀ force, result (P1.toggleMenu b m force) w = Normal tt
          ∧ menuNodes (exec (P1.toggleMenu b m force) w) b m
          ∧ (Closed (exec (P1.toggleMenu b m force) w) b m
             ∨ Open (exec (P1.toggleMenu b m force) w) b m)) as Htog.
  { intros force. destruct (P1_toggle_any w b m force Hn Hst) as (R & N & S).
    split_and!; [done|done|]. destruct force; [by left|].
    destruct S as [S1 S2]. destruct Hst; [right; by apply S1 | left; by apply S2]. }
  destruct ev as [| |t]; cbn [P1_menuEvent].
  - exact (Htog false).
  - exact (Htog true).
  - destruct (hasClass w m "active" && negb (contains w m t) && negb (contains w b t)) eqn:E.
    + apply andb_true_iff in E as [E E3]. apply andb_true_iff in E as [E1 E2].
      apply negb_true_iff in E2, E3.
      rewrite (result_congr _ _ _ (P1_outsideClick_fire w b m t E1 E2 E3)),
        (exec_congr _ _ _ (P1_outsideClick_fire w b m t E1 E2 E3)). exact (Htog true).
    + assert (P1.outsideClick b m t w = (Normal tt, w)) as Hskip;
        [|rewrite (result_skip _ _ Hskip), (exec_skip _ _ Hskip); by split_and!].
      apply P1_outsideClick_skip.
      apply andb_false_iff in E as [E|E]; [apply andb_false_iff in E as [E|E]|].
      * by left.
      * right. left. by apply negb_false_iff in E.
      * right. right. by apply negb_false_iff in E.
Qed.

Lemma forEach_invariant {A} (f : A → M unit) (I : World → Prop) :
  (∀ x w, I w → result (f x) w = Normal tt ∧ I (exec (f x) w)) →
  ∀ xs w, I w → result (forEach f xs) w = Normal tt ∧ I (exec (forEach f xs) w).
Proof.
  intros Hf xs. induction xs as [|x xs IH]; intros w Hw; [done|].
  destruct (Hf x w Hw) as [R Hw']. unfold result, exec in *.
  rewrite exec_forEach_cons by done. by apply IH.
Qed.

(** X4.  Across any sequence of trigger clicks, link clicks and clicks
    reaching the document, no handler fails and the menu is always in one of
    its two states with its four indicators in agreement: expanded
    attribute, the two [active] classes and the body's scroll lock. *)
Theorem menu_always_consistent (w : World) (b m : node) (evs : list MenuEvent) :
  menuPage w b m → Closed w b m ∨ Open w b m →
  (let w' := exec (forEach (V3_menuEvent b m) evs) w in
   result (forEach (V3_menuEvent b m) evs) w = Normal tt
   ∧ (Closed w' b m ∨ Open w' b m))
  ∧
  (let w' := exec (forEach (P1_menuEvent b m) evs) w in
   result (forEach (P1_menuEvent b m) evs) w = Normal tt
   ∧ (Closed w' b m ∨ Open w' b m)).
Proof.
  intros Hp Hst. apply menuPage_nodes in Hp. cbn zeta. split.
  - destruct (forEach_invariant (V3_menuEvent b m)
                (λ w, menuNodes w b m ∧ (Closed w b m ∨ Open w b m))) with (xs := evs) (w := w)
      as (R & _ & S); [|done|done].
    intros ev w0 [Hn Hs]. by apply V3_menuEvent_consistent.
  - destruct (forEach_invariant (P1_menuEvent b m)
                (λ w, menuNodes w b m ∧ (Closed w b m ∨ Open w b m))) with (xs := evs) (w := w)
      as (R & _ & S); [|done|done].
    intros ev w0 [Hn Hs]. by apply P1_menuEvent_consistent.
Qed.

Lemma menu_always_consistent_witness :
  let evs := [TriggerClick; DocumentClick 3; LinkClick; DocumentClick 10; TriggerClick] in
  (Closed (exec (forEach (V3_menuEvent 3 5) evs) samplePage) 3 5
   ∨ Open (exec (forEach (V3_menuEvent 3 5) evs) samplePage) 3 5).
Proof.
  cbn zeta.
  destruct (menu_always_consistent samplePage 3 5
              [TriggerClick; DocumentClick 3; LinkClick; DocumentClick 10; TriggerClick])
    as [[_ H] _].
  - split_and!; [by vm_compute ..|]. by eexists.
  - left. split_and!; by vm_compute.
  - exact H.
Defined.

(** ** The shape of the document is never written *)

Lemma same_tree_refl w : same_tree w w.
Proof. by split. Qed.

Lemma same_tree_trans w1 w2 w3 : same_tree w1 w2 → same_tree w2 w3 → same_tree w1 w3.
Proof.
  intros [L1 H1] [L2 H2]. split; [congruence|].
  intros n. destruct (H1 n), (H2 n). split; congruence.
Qed.

Lemma same_tree_mutate n f wr w :
  (∀ e, tagName (f e) = tagName e) → (∀ e, parentNode (f e) = parentNode e) →
  same_tree (mutate n f wr w) w.
Proof.
  intros Ht Hp. split; [apply length_mutate|]. intros k. unfold tagOf.
  rewrite lookup_mutate. case_decide; [|done].
  destruct (nodes w !! k); cbn; [|done]. by rewrite Ht, Hp.
Qed.

Lemma same_tree_setAttribute n a v w : same_tree (setAttribute n a v w) w.
Proof. by apply same_tree_mutate. Qed.
Lemma same_tree_classList_add n c w : same_tree (classList_add n c w) w.
Proof. by apply same_tree_mutate. Qed.
Lemma same_tree_classList_remove n c w : same_tree (classList_remove n c w) w.
Proof. by apply same_tree_mutate. Qed.
Lemma same_tree_classList_toggled n c w : same_tree (classList_toggled n c w) w.
Proof.
  unfold classList_toggled.
  destruct (hasClass w n c); [apply same_tree_classList_remove | apply same_tree_classList_add].
Qed.
Lemma same_tree_set_text n s w : same_tree (set_text n s w) w.
Proof. by apply same_tree_mutate. Qed.
Lemma same_tree_set_styleProp n p v w : same_tree (set_styleProp n p v w) w.
Proof. by apply same_tree_mutate. Qed.

Lemma contains_fuel_same_tree fuel w1 w2 a b :
  same_tree w1 w2 → contains_fuel fuel w1 a b = contains_fuel fuel w2 a b.
Proof.
  intros [_ H]. revert b. induction fuel as [|fuel IH]; intros b; cbn; [done|].
  case_bool_decide; [done|]. rewrite (proj2 (H b)).
  destruct (nodes w2 !! b ≫= parentNode); [apply IH|done].
Qed.

Lemma contains_same_tree w1 w2 a b :
  same_tree w1 w2 → contains w1 a b = contains w2 a b.
Proof.
  intros H. unfold contains. rewrite (proj1 H). by apply contains_fuel_same_tree.
Qed.

Lemma descendants_same_tree root test1 test2 w1 w2 :
  same_tree w1 w2 → (∀ n, test1 n = test2 n) →
  descendants root test1 w1 = descendants root test2 w2.
Proof.
  intros H Ht. unfold descendants. apply select_ext; [apply H|].
  intros n. by rewrite (contains_same_tree w1 w2), Ht.
Qed.

Lemma querySelector_tag_in_same_tree root tag w1 w2 :
  same_tree w1 w2 → querySelector_tag_in root tag w1 = querySelector_tag_in root tag w2.
Proof.
  intros H. unfold querySelector_tag_in, querySelectorAll_tag_in. f_equal.
  apply descendants_same_tree; [done|]. intros n. by rewrite (proj1 (proj2 H n)).
Qed.

Lemma querySelector_class_in_same_tree root c w1 w2 :
  same_tree w1 w2 → (∀ n, hasClass w1 n c = hasClass w2 n c) →
  querySelector_class_in root c w1 = querySelector_class_in root c w2.
Proof.
  intros H Hc. unfold querySelector_class_in. f_equal. by apply descendants_same_tree.
Qed.

Lemma head_select_exists test w n : head (select test w) = Some n → is_Some (nodes w !! n).
Proof.
  intros H. apply lookup_lt_is_Some. apply (select_elem_of test).
  destruct (select test w); [done|]. cbn in H. injection H as ->. set_solver.
Qed.

(** X5.  After every run of [toggleMenu] the trigger's glyph says what the
    expanded attribute says: "close" when the menu was just opened, "menu"
    when it was just closed.  The glyph is the first [span] inside the
    trigger in script.js, the first element of class
    [material-icons-outlined] inside it in part_000. *)
Theorem menu_icon_mirrors_state (w : World) (b m : node) :
  menuNodes w b m →
  let opened := negb (bool_decide (attr w b "aria-expanded" = Some "true")) in
  (∀ span, querySelector_tag_in b "span" w = Some span →
     let w' := exec (V3.toggleMenu b m) w in
     text w' span = Some (if opened then "close" else "menu")
     ∧ attr w' b "aria-expanded" = Some (string_of_boolean opened))
  ∧ (∀ icon, querySelector_class_in b "material-icons-outlined" w = Some icon →
     let w' := exec (P1.toggleMenu b m false) w in
     text w' icon = Some (if opened then "close" else "menu")
     ∧ attr w' b "aria-expanded" = Some (string_of_boolean opened))
  ∧ (∀ icon, querySelector_class_in b "material-icons-outlined" w = Some icon →
     text (exec (P1.toggleMenu b m true) w) icon = Some "menu").
Proof.
  intros (Hbm & Hb & Hm & Hbody). cbn zeta. split_and!.
  - intros span Hq.
    pose proof (head_select_exists _ _ _ Hq) as Hs.
    destruct (V3_toggleMenu_spec w b m Hbm Hb Hm Hbody) as (_ & A & _).
    split; [|exact A].
    unfold V3.toggleMenu, classList_toggle. run.
    rewrite !document_body_classList_toggled, document_body_setAttribute,
      (document_body_Some w Hbody).
    unfold deref. run.
    rewrite (querySelector_tag_in_same_tree b "span" _ w).
    + rewrite Hq. cbn [snd]. apply text_set_eq. by dom.
    + repeat first
        [ apply same_tree_refl
        | eapply same_tree_trans;
          [first [apply same_tree_set_styleProp | apply same_tree_classList_toggled
                 | apply same_tree_setAttribute]|] ].
  - intros icon Hq.
    pose proof (head_select_exists _ _ _ Hq) as Hs.
    destruct (P1_toggleMenu_spec w b m Hbm Hb Hm Hbody false) as (_ & A & _).
    split; [|exact A].
    unfold P1.toggleMenu, classList_toggle_force. run. cbn [negb].
    destruct (negb (bool_decide (attr w b "aria-expanded" = Some "true"))).
    + rewrite (querySelector_class_in_same_tree b "material-icons-outlined" _ w).
      * rewrite Hq. cbn [fst snd]. dom.
        rewrite (document_body_Some w Hbody). unfold deref. run. dom.
        first [done | apply text_set_eq; by dom].
      * repeat first
          [ apply same_tree_refl
          | eapply same_tree_trans;
            [first [apply same_tree_classList_add | apply same_tree_setAttribute]|] ].
      * intros n. by dom.
    + rewrite (querySelector_class_in_same_tree b "material-icons-outlined" _ w).
      * rewrite Hq. cbn [fst snd]. dom.
        rewrite (document_body_Some w Hbody). unfold deref. run. dom.
        first [done | apply text_set_eq; by dom].
      * repeat first
          [ apply same_tree_refl
          | eapply same_tree_trans;
            [first [apply same_tree_classList_remove | apply same_tree_setAttribute]|] ].
      * intros n. by dom.
  - intros icon Hq.
    pose proof (head_select_exists _ _ _ Hq) as Hs.
    unfold P1.toggleMenu, classList_toggle_force. run.
    rewrite (querySelector_class_in_same_tree b "material-icons-outlined" _ w).
    + rewrite Hq. cbn [fst snd]. dom.
        rewrite (document_body_Some w Hbody). unfold deref. run. dom.
        first [done | apply text_set_eq; by dom].
    + repeat first
        [ apply same_tree_refl
        | eapply same_tree_trans;
          [first [apply same_tree_classList_remove | apply same_tree_setAttribute]|] ].
    + intros n. by dom.
Qed.

Lemma menu_icon_mirrors_state_witness :
  text (exec (V3.toggleMenu 3 5) samplePage) 4 = Some "close"
  ∧ text (exec (P1.toggleMenu 3 5 false) samplePageOpen) 4 = Some "menu".
Proof.
  destruct (menu_icon_mirrors_state samplePage 3 5) as (H3 & _).
  { split_and!; [done|by eexists..]. }
  destruct (menu_icon_mirrors_state samplePageOpen 3 5) as (_ & H1 & _).
  { split_and!; [done|by eexists..]. }
  split.
  - apply (H3 4). by vm_compute.
  - apply (H1 4). by vm_compute.
Defined.

(** ** The theme's three mirrors *)

(** X6.  script.js reads the new mode back from the class list and part_000
    takes it from the return value of [toggle]; on a document with a root
    element the two click handlers are the same function of the world. *)
Theorem themeClick_revisions_agree (w : World) (icon : node) :
  is_Some (nodes w !! documentElement) →
  V3.themeClick (Some icon) w = P1.themeClick icon w.
Proof.
  intros Hhtml. unfold V3.themeClick, P1.themeClick, V3.updateIcon, classList_toggle.
  unfold bind, gets, modify. rewrite (document_documentElement_Some w Hhtml).
  unfold deref, ret. by rewrite hasClass_toggled_eq.
Qed.

Lemma themeClick_revisions_agree_witness :
  V3.themeClick (Some 9) samplePage = P1.themeClick 9 samplePage.
Proof. apply (themeClick_revisions_agree samplePage 9). by eexists. Defined.

(** X7.  With a usable store, after any number [k] of theme toggles the mode
    flag is the original one when [k] is even and the other one when [k] is
    odd, and from the first toggle on the icon label and the stored token
    agree with the flag. *)
Theorem theme_mirrors_agree (w : World) (icon : node) (k : nat) :
  is_Some (nodes w !! documentElement) →
  is_Some (nodes w !! icon) →
  storageStatus w = StorageOk →
  let w' := Nat.iter k (exec (V3.themeClick (Some icon))) w in
  let dark := hasClass w' documentElement "dark-mode" in
  result (V3.themeClick (Some icon)) w' = Normal tt
  ∧ dark = (if Nat.even k then hasClass w documentElement "dark-mode"
            else negb (hasClass w documentElement "dark-mode"))
  ∧ (0 < k → text w' icon = Some (iconLabel dark)
             ∧ storage w' !! "theme" = Some (themeToken dark)).
Proof.
  intros Hhtml Hicon Hok. cbn zeta.
  assert (∀ k, let w' := Nat.iter k (exec (V3.themeClick (Some icon))) w in
    is_Some (nodes w' !! documentElement) ∧ is_Some (nodes w' !! icon)
    ∧ storageStatus w' = StorageOk
    ∧ hasClass w' documentElement "dark-mode"
      = (if Nat.even k then hasClass w documentElement "dark-mode"
         else negb (hasClass w documentElement "dark-mode"))
    ∧ (0 < k → text w' icon = Some (iconLabel (hasClass w' documentElement "dark-mode"))
               ∧ storage w' !! "theme"
                 = Some (themeToken (hasClass w' documentElement "dark-mode")))) as Hall.
  { clear k. intros k. induction k as [|k IH].
    - cbn. split_and!; try done. lia.
    - cbn zeta in *. destruct IH as (Hh & Hi & Hs & Hd & _).
      rewrite Nat.iter_succ. set (w1 := Nat.iter k _ w) in *.
      destruct (V3_themeClick_spec w1 icon Hh Hi) as (C & T & S & E & R).
      rewrite Hs in R. destruct R as [_ R].
      split_and!; [by apply E|by apply E|congruence| |].
      + rewrite C, Hd, Nat.even_succ, <-Nat.negb_even.
        destruct (Nat.even k); by rewrite ?negb_involutive.
      + intros _. rewrite C, T, R, lookup_insert_eq. done. }
  destruct (Hall k) as (Hh & Hi & Hs & Hd & Hm).
  split_and!; [|done|done].
  destruct (V3_themeClick_spec _ icon Hh Hi) as (_ & _ & _ & _ & R).
  rewrite Hs in R. apply R.
Qed.

Lemma theme_mirrors_agree_witness :
  hasClass (Nat.iter 3 (exec (V3.themeClick (Some 9))) samplePage) documentElement "dark-mode"
  = true.
Proof.
  destruct (theme_mirrors_agree samplePage 9 3) as (_ & H & _).
  - by eexists.
  - by eexists.
  - done.
  - exact H.
Defined.

(** ** Initialisation *)

Lemma result_seq (m k : M unit) w :
  result m w = Normal tt → result (m >> k) w = result k (exec m w).
Proof.
  unfold result, exec, bind. destruct (m w) as [c w1]. cbn. by intros ->.
Qed.

Lemma exec_seq (m k : M unit) w :
  result m w = Normal tt → exec (m >> k) w = exec k (exec m w).
Proof.
  unfold result, exec, bind. destruct (m w) as [c w1]. cbn. by intros ->.
Qed.

Lemma seq_throw (m k : M unit) w e w' : m w = (Throw e, w') → (m >> k) w = (Throw e, w').
Proof. unfold bind. by intros ->. Qed.

Lemma quiet_ret : quiet (ret tt).
Proof. intros w. by split_and!. Qed.

Lemma quiet_bind (m k : M unit) : quiet m → quiet k → quiet (m >> k).
Proof.
  intros Hm Hk w. destruct (Hm w) as (R & N & B & W & S & T & P).
  rewrite (result_seq m k w R), (exec_seq m k w R).
  destruct (Hk (exec m w)) as (R' & N' & B' & W' & S' & T' & P').
  split_and!; congruence.
Qed.

Lemma quiet_gets {A} (f : World → A) (k : A → M unit) :
  (∀ a, quiet (k a)) → quiet (let* a := gets f in k a).
Proof. intros Hk w. apply (Hk (f w) w). Qed.

Lemma quiet_forEach {A} (f : A → M unit) (xs : list A) :
  (∀ x, quiet (f x)) → quiet (forEach f xs).
Proof.
  intros Hf. induction xs as [|x xs IH]; [apply quiet_ret|].
  cbn [forEach]. by apply quiet_bind.
Qed.

Lemma quiet_addEventListener t ty c : quiet (addEventListener t ty c).
Proof. intros w. by split_and!. Qed.
Lemma quiet_observeSentinel c n : quiet (observeSentinel c n).
Proof. intros w. by split_and!. Qed.
Lemma quiet_observe n : quiet (observe n).
Proof. intros w. by split_and!. Qed.

Lemma quiet_V3_initNavigation : quiet V3.initNavigation.
Proof.
  unfold V3.initNavigation. repeat (apply quiet_gets; intros ?).
  apply quiet_bind.
  - destruct a as [h|], a0 as [s|]; first [apply quiet_observeSentinel | apply quiet_ret].
  - destruct a1 as [b|], a2 as [m|]; try apply quiet_ret.
    apply quiet_bind; [apply quiet_addEventListener|].
    apply quiet_gets. intros links. apply quiet_bind.
    + apply quiet_forEach. intros link. apply quiet_addEventListener.
    + apply quiet_addEventListener.
Qed.

Lemma quiet_P1_initNavigation : quiet P1.initNavigation.
Proof.
  unfold P1.initNavigation. repeat (apply quiet_gets; intros ?).
  apply quiet_bind.
  - destruct a as [b|], a0 as [m|]; try apply quiet_ret.
    apply quiet_bind; [apply quiet_addEventListener|].
    apply quiet_gets. intros links. apply quiet_bind.
    + apply quiet_forEach. intros link. apply quiet_addEventListener.
    + apply quiet_addEventListener.
  - destruct a1 as [h|], a2 as [s|]; first [apply quiet_observeSentinel | apply quiet_ret].
Qed.

Lemma quiet_V3_initScrollAnimations : quiet V3.initScrollAnimations.
Proof.
  unfold V3.initScrollAnimations. apply quiet_gets. intros els.
  case_bool_decide; [apply quiet_ret|]. apply quiet_forEach, quiet_observe.
Qed.

Lemma quiet_P1_initScrollReveal : quiet P1.initScrollReveal.
Proof.
  unfold P1.initScrollReveal. apply quiet_gets. intros els.
  case_bool_decide; [apply quiet_ret|].
  apply quiet_bind; [intros w; by split_and!|].
  apply quiet_bind; [intros w; by split_and!|].
  apply quiet_forEach, quiet_observe.
Qed.

Lemma quiet_V3_initMatterportFacade : quiet V3.initMatterportFacade.
Proof.
  unfold V3.initMatterportFacade. repeat (apply quiet_gets; intros ?).
  destruct a as [f|], a0 as [i|]; first [apply quiet_addEventListener | apply quiet_ret].
Qed.

Lemma quiet_V2_initMatterportFacade : quiet V2.initMatterportFacade.
Proof.
  unfold V2.initMatterportFacade. repeat (apply quiet_gets; intros ?).
  destruct a as [f|], a0 as [i|]; first [apply quiet_addEventListener | apply quiet_ret].
Qed.

Lemma quiet_V3_initBackToTop : quiet V3.initBackToTop.
Proof.
  unfold V3.initBackToTop. repeat (apply quiet_gets; intros ?).
  destruct a as [b|], a0 as [s|];
    first [ apply quiet_bind; [apply quiet_observeSentinel | apply quiet_addEventListener]
          | apply quiet_ret ].
Qed.

Lemma quiet_P1_initBackToTop : quiet P1.initBackToTop.
Proof.
  unfold P1.initBackToTop. repeat (apply quiet_gets; intros ?).
  destruct a as [b|], a0 as [s|];
    first [ apply quiet_bind; [apply quiet_addEventListener | apply quiet_observeSentinel]
          | apply quiet_ret ].
Qed.

(** What is left of a main function once the theme is initialised. *)
Lemma quiet_V3_rest :
  quiet (V3.initNavigation >> V3.initScrollAnimations >> V3.initMatterportFacade
         >> V3.initBackToTop).
Proof.
  repeat apply quiet_bind; auto using quiet_V3_initNavigation,
    quiet_V3_initScrollAnimations, quiet_V3_initMatterportFacade, quiet_V3_initBackToTop.
Qed.

Lemma quiet_V2_rest :
  quiet (V3.initNavigation >> V2.initMatterportFacade >> V3.initScrollAnimations
         >> V3.initBackToTop).
Proof.
  repeat apply quiet_bind; auto using quiet_V3_initNavigation,
    quiet_V3_initScrollAnimations, quiet_V2_initMatterportFacade, quiet_V3_initBackToTop.
Qed.

Lemma V3_initThemeToggle_denied w :
  storageStatus w = StorageDenied → V3.initThemeToggle w = (Throw SecurityError, w).
Proof. intros H. unfold V3.initThemeToggle, localStorage_getItem. run. by rewrite H. Qed.

Lemma V2_initThemeToggle_denied w :
  storageStatus w = StorageDenied → V2.initThemeToggle w = (Throw SecurityError, w).
Proof. intros H. unfold V2.initThemeToggle, localStorage_getItem. run. by rewrite H. Qed.

Lemma V3_initThemeToggle_returns w :
  storageStatus w ≠ StorageDenied → result V3.initThemeToggle w = Normal tt.
Proof.
  intros H. unfold V3.initThemeToggle, localStorage_getItem, V3.updateIcon, addEventListener.
  run. destruct (storageStatus w); [|done|];
    destruct (getElementById "theme-icon" w), (getElementById "theme-toggle-btn" w); done.
Qed.

Lemma root_of_node w n : is_Some (nodes w !! n) → is_Some (nodes w !! documentElement).
Proof.
  intros H. apply lookup_lt_is_Some in H. apply lookup_lt_is_Some.
  unfold documentElement. lia.
Qed.

Lemma V2_initThemeToggle_returns w :
  storageStatus w ≠ StorageDenied →
  is_Some (nodes w !! documentElement)
  ∨ V3.isDarkInitial (storage w !! "theme") (prefersDark w) = false →
  result V2.initThemeToggle w = Normal tt.
Proof.
  intros H Hroot. unfold V2.initThemeToggle, localStorage_getItem, V2.updateIcon,
    V3.updateIcon, addEventListener, V3.isDarkInitial in *.
  run. destruct (storageStatus w); [|done|];
    (destruct (bool_decide _ || _);
     [destruct Hroot as [Hroot|]; [|done];
      rewrite (document_documentElement_Some w Hroot); unfold deref; run|]);
    destruct (getElementById "theme-icon" w), (getElementById "theme-toggle-btn" w); done.
Qed.

Lemma V2_initThemeToggle_rootless w :
  storageStatus w ≠ StorageDenied →
  nodes w !! documentElement = None →
  V3.isDarkInitial (storage w !! "theme") (prefersDark w) = true →
  V2.initThemeToggle w = (Throw TypeError, w).
Proof.
  intros H Hroot Hd. unfold V2.initThemeToggle, localStorage_getItem, V3.isDarkInitial in *.
  run. rewrite (document_documentElement_None w Hroot).
  destruct (storageStatus w); [|done|]; by rewrite Hd.
Qed.

Lemma P1_initThemeToggle_spec w :
  P1.initThemeToggle w
  = (Normal tt,
     match getElementById "theme-toggle-btn" w, getElementById "theme-icon" w with
     | Some b, Some i =>
         with_listeners (λ l, l ++ [mkListener (Some b) "click" (P1_themeClick i)])
           (if hasClass w documentElement "dark-mode" then set_text i "light_mode" w else w)
     | _, _ => w
     end).
Proof.
  unfold P1.initThemeToggle, addEventListener. run.
  destruct (getElementById "theme-toggle-btn" w) as [b|] eqn:Eb; [|done].
  destruct (getElementById "theme-icon" w); [|done].
  apply getElementById_Some in Eb as [Eb _].
  rewrite (document_documentElement_Some w (root_of_node w b Eb)). unfold deref. run.
  by destruct (hasClass w documentElement "dark-mode").
Qed.

Lemma P1_initThemeToggle_returns w : result P1.initThemeToggle w = Normal tt.
Proof. unfold result. by rewrite P1_initThemeToggle_spec. Qed.

(** X8.  What makes a main function fail.  The main function of part_000
    (second document) returns normally on every page.  That of script.js
    Version 3.0 returns normally whenever [localStorage] can be read;
    Version 2.0 does so too on a document with a root element, or when light
    is selected, and on a document without a root it throws [TypeError] when
    dark is selected, at [htmlElement.classList.add].  When reading
    [localStorage] is denied both stop at that first read with
    [SecurityError], having registered and written nothing. *)
Theorem main_fault_conditions (w : World) :
  let dark := V3.isDarkInitial (storage w !! "theme") (prefersDark w) in
  result P1.main w = Normal tt
  ∧ (storageStatus w ≠ StorageDenied →
       result V3.main w = Normal tt
       ∧ (is_Some (nodes w !! documentElement) ∨ dark = false →
          result V2.main w = Normal tt)
       ∧ (nodes w !! documentElement = None → dark = true →
          V2.main w = (Throw TypeError, w)))
  ∧ (storageStatus w = StorageDenied →
       V3.main w = (Throw SecurityError, w) ∧ V2.main w = (Throw SecurityError, w)).
Proof.
  cbn zeta. split_and!.
  - unfold P1.main.
    rewrite result_seq by apply quiet_P1_initNavigation.
    rewrite result_seq by apply quiet_P1_initScrollReveal.
    destruct (quiet_P1_initNavigation w) as (_ & N1 & _).
    set (w1 := exec P1.initNavigation w) in *.
    destruct (quiet_P1_initScrollReveal w1) as (_ & N2 & _).
    rewrite result_seq by apply P1_initThemeToggle_returns.
    apply quiet_P1_initBackToTop.
  - intros H. split_and!.
    + unfold V3.main. rewrite result_seq by by apply V3_initThemeToggle_returns.
      apply quiet_V3_rest.
    + intros Hroot. unfold V2.main.
      rewrite result_seq by by apply V2_initThemeToggle_returns.
      apply quiet_V2_rest.
    + intros Hroot Hd. unfold V2.main. apply seq_throw.
      by apply V2_initThemeToggle_rootless.
  - intros H. split.
    + unfold V3.main. apply seq_throw. by apply V3_initThemeToggle_denied.
    + unfold V2.main. apply seq_throw. by apply V2_initThemeToggle_denied.
Qed.

Lemma main_fault_conditions_witness :
  result V3.main noIconDarkPage = Normal tt
  ∧ result V2.main samplePage = Normal tt
  ∧ V2.main emptyDarkPage = (Throw TypeError, emptyDarkPage).
Proof.
  destruct (main_fault_conditions noIconDarkPage) as (_ & H3 & _).
  destruct (main_fault_conditions samplePage) as (_ & H2 & _).
  destruct (main_fault_conditions emptyDarkPage) as (_ & H0 & _).
  destruct H3 as (H3 & _); [done|].
  destruct H2 as (_ & H2 & _); [done|].
  destruct H0 as (_ & _ & H0); [done|].
  split_and!; [exact H3 | apply H2; left; by eexists | apply H0; by vm_compute].
Defined.

Lemma getElementById_nodes id w1 w2 :
  nodes w1 = nodes w2 → getElementById id w1 = getElementById id w2.
Proof.
  intros H. apply getElementById_ext; [by rewrite H|].
  intros n. by apply attr_frame.
Qed.

Lemma getElementById_rootless id w :
  nodes w !! documentElement = None → getElementById id w = None.
Proof.
  intros H. apply lookup_ge_None in H. unfold getElementById, select.
  replace (length (nodes w)) with 0 by (unfold documentElement in H; lia). done.
Qed.

(** X9.  Initialisation changes the document in one place only, the label of
    the theme icon, and stores nothing.  script.js writes the label that
    belongs to the mode it derives from the store and the system signal;
    Version 2.0, on a document with a root element, first adds the
    [dark-mode] class when that mode is dark, and on a document without one
    writes nothing; part_000 writes the label only when the class is already
    set and both the button and the icon exist. *)
Theorem main_writes (w : World) :
  let icon := getElementById "theme-icon" w in
  let btn := getElementById "theme-toggle-btn" w in
  let dark := V3.isDarkInitial (storage w !! "theme") (prefersDark w) in
  (storageStatus w ≠ StorageDenied →
     writes (exec V3.main w) = writes w ++ iconWrite icon dark
     ∧ storage (exec V3.main w) = storage w
     ∧ (is_Some (nodes w !! documentElement) →
        writes (exec V2.main w)
        = writes w ++ (if dark then [WClassAdd documentElement "dark-mode"] else [])
            ++ iconWrite icon dark)
     ∧ (nodes w !! documentElement = None → writes (exec V2.main w) = writes w)
     ∧ storage (exec V2.main w) = storage w)
  ∧ writes (exec P1.main w)
    = writes w ++ (if hasClass w documentElement "dark-mode"
                   then match btn with Some _ => iconWrite icon true | None => [] end
                   else [])
  ∧ storage (exec P1.main w) = storage w.
Proof.
  cbn zeta. split_and!.
  - intros Hst.
    assert (writes (exec V3.initThemeToggle w)
            = writes w ++ iconWrite (getElementById "theme-icon" w)
                            (V3.isDarkInitial (storage w !! "theme") (prefersDark w))
            ∧ storage (exec V3.initThemeToggle w) = storage w) as [W3 S3].
    { unfold V3.initThemeToggle, localStorage_getItem, V3.updateIcon, addEventListener,
        iconWrite, iconLabel.
      run. destruct (storageStatus w); [|done|];
        destruct (getElementById "theme-icon" w), (getElementById "theme-toggle-btn" w);
        cbn; by rewrite ?app_nil_r. }
    assert (is_Some (nodes w !! documentElement) →
            writes (exec V2.initThemeToggle w)
            = writes w ++ (if V3.isDarkInitial (storage w !! "theme") (prefersDark w)
                           then [WClassAdd documentElement "dark-mode"] else [])
                ++ iconWrite (getElementById "theme-icon" w)
                     (V3.isDarkInitial (storage w !! "theme") (prefersDark w))
            ∧ storage (exec V2.initThemeToggle w) = storage w) as W2.
    { intros Hroot.
      unfold V2.initThemeToggle, localStorage_getItem, V2.updateIcon, V3.updateIcon,
        addEventListener, iconWrite, iconLabel, V3.isDarkInitial.
      run. rewrite (document_documentElement_Some w Hroot). unfold deref. run.
      destruct (storageStatus w); [|done|];
        destruct (bool_decide _ || _);
        destruct (getElementById "theme-icon" w), (getElementById "theme-toggle-btn" w);
        cbn; by rewrite <-?app_assoc, ?app_nil_r. }
    assert (nodes w !! documentElement = None →
            writes (exec V2.main w) = writes w ∧ storage (exec V2.main w) = storage w) as W0.
    { intros Hroot.
      destruct (V3.isDarkInitial (storage w !! "theme") (prefersDark w)) eqn:Hd.
      - unfold exec, V2.main.
        by rewrite (seq_throw _ _ w _ _ (V2_initThemeToggle_rootless w Hst Hroot Hd)).
      - unfold V2.main.
        rewrite (exec_seq V2.initThemeToggle _ w)
          by (apply V2_initThemeToggle_returns; [done|by right]).
        destruct (quiet_V2_rest (exec V2.initThemeToggle w)) as (_ & _ & _ & -> & -> & _).
        unfold V2.initThemeToggle, localStorage_getItem, V2.updateIcon, V3.updateIcon,
          addEventListener, V3.isDarkInitial in *.
        run. rewrite !(getElementById_rootless _ w Hroot).
        destruct (storageStatus w); [|done|]; by rewrite Hd. }
    unfold V3.main.
    rewrite (exec_seq V3.initThemeToggle _ w) by by apply V3_initThemeToggle_returns.
    destruct (quiet_V3_rest (exec V3.initThemeToggle w)) as (_ & _ & _ & Wr3 & Sr3 & _).
    rewrite Wr3, Sr3. split_and!; [done|done| |apply W0|].
    + intros Hroot. destruct (W2 Hroot) as [W2' _]. unfold V2.main.
      rewrite (exec_seq V2.initThemeToggle _ w)
        by (apply V2_initThemeToggle_returns; [done|by left]).
      by destruct (quiet_V2_rest (exec V2.initThemeToggle w)) as (_ & _ & _ & -> & _).
    + destruct (nodes w !! documentElement) as [e|] eqn:Hroot.
      * destruct W2 as [_ S2]; [by eexists|]. unfold V2.main.
        rewrite (exec_seq V2.initThemeToggle _ w)
          by (apply V2_initThemeToggle_returns; [done|left; by eexists]).
        by destruct (quiet_V2_rest (exec V2.initThemeToggle w)) as (_ & _ & _ & _ & -> & _).
      * by apply W0.
  - unfold P1.main.
    rewrite exec_seq by apply quiet_P1_initNavigation.
    rewrite exec_seq by apply quiet_P1_initScrollReveal.
    rewrite exec_seq by apply P1_initThemeToggle_returns.
    destruct (quiet_P1_initNavigation w) as (_ & N1 & _ & W1 & _).
    set (w1 := exec P1.initNavigation w) in *.
    destruct (quiet_P1_initScrollReveal w1) as (_ & N2 & _ & W2 & _).
    set (w2 := exec P1.initScrollReveal w1) in *.
    destruct (quiet_P1_initBackToTop (exec P1.initThemeToggle w2)) as (_ & _ & _ & -> & _).
    rewrite <-(getElementById_nodes "theme-icon" w2 w) by congruence.
    rewrite <-(getElementById_nodes "theme-toggle-btn" w2 w) by congruence.
    rewrite <-(hasClass_frame w2 w) by congruence.
    rewrite <-W1, <-W2.
    unfold exec. rewrite P1_initThemeToggle_spec. cbn [snd].
    unfold iconWrite, iconLabel.
    destruct (getElementById "theme-toggle-btn" w2), (getElementById "theme-icon" w2);
      destruct (hasClass w2 documentElement "dark-mode"); cbn; by rewrite ?app_nil_r.
  - unfold P1.main.
    rewrite exec_seq by apply quiet_P1_initNavigation.
    rewrite exec_seq by apply quiet_P1_initScrollReveal.
    rewrite exec_seq by apply P1_initThemeToggle_returns.
    destruct (quiet_P1_initNavigation w) as (_ & _ & _ & _ & S1 & _).
    set (w1 := exec P1.initNavigation w) in *.
    destruct (quiet_P1_initScrollReveal w1) as (_ & _ & _ & _ & S2 & _).
    set (w2 := exec P1.initScrollReveal w1) in *.
    destruct (quiet_P1_initBackToTop (exec P1.initThemeToggle w2)) as (_ & _ & _ & _ & -> & _).
    rewrite <-S1, <-S2.
    unfold exec. rewrite P1_initThemeToggle_spec. cbn [snd].
    destruct (getElementById "theme-toggle-btn" w2), (getElementById "theme-icon" w2);
      destruct (hasClass w2 documentElement "dark-mode"); done.
Qed.

Lemma main_writes_witness :
  writes (exec V3.main samplePage) = [WTextContent 9 "dark_mode"].
Proof.
  destruct (main_writes samplePage) as (H & _).
  destruct H as (H & _); [done|]. exact H.
Defined.

(** ** Which elements the reveal controller observes *)

Lemma forEach_observe els w :
  forEach observe els w = (Normal tt, with_observed (λ s, list_to_set els ∪ s) w).
Proof.
  revert w. induction els as [|n els IH]; intros w.
  - cbn. unfold ret. f_equal. destruct w; unfold with_observed; cbn. f_equal. set_solver.
  - cbn [forEach]. unfold bind, observe at 1, modify. rewrite IH. f_equal.
    destruct w; unfold with_observed; cbn. f_equal. set_solver.
Qed.

Lemma hasClass_exists w n c : hasClass w n c = true → n < length (nodes w).
Proof.
  unfold hasClass. destruct (nodes w !! n) eqn:E; [|done].
  intros _. by apply lookup_lt_Some in E.
Qed.

Lemma inside_class_true c w n :
  inside_class c w n = true
  ↔ ∃ a, a ≠ n ∧ hasClass w a c = true ∧ contains w a n = true.
Proof.
  unfold inside_class. rewrite bool_decide_eq_true, Exists_exists. split.
  - intros (a & _ & H). by exists a.
  - intros (a & Hne & Hc & Hin). exists a. split; [|done].
    apply elem_of_seq. split; [lia|]. cbn. by apply hasClass_exists in Hc.
Qed.

(** X10.  [initScrollAnimations] starts observing exactly the elements of
    class [reveal-wrapper]; [initScrollReveal] leaves out those that lie
    inside an element of class [hero-content], so it observes a subset, and
    when it observes anything it starts with an empty buffer and a free
    lock.  With no such element either function leaves the world as it is. *)
Theorem reveal_init_targets (w : World) (n : node) :
  (n ∈ observed (exec V3.initScrollAnimations w)
   ↔ n ∈ observed w ∨ hasClass w n "reveal-wrapper" = true)
  ∧ (n ∈ observed (exec P1.initScrollReveal w)
     ↔ n ∈ observed w
       ∨ (hasClass w n "reveal-wrapper" = true
          ∧ ¬ ∃ a, a ≠ n ∧ hasClass w a "hero-content" = true ∧ contains w a n = true))
  ∧ (n ∈ observed (exec P1.initScrollReveal w) → n ∈ observed (exec V3.initScrollAnimations w))
  ∧ (querySelectorAll_reveal_not_hero w ≠ [] →
     visibleElements (exec P1.initScrollReveal w) = []
     ∧ rafId (exec P1.initScrollReveal w) = None)
  ∧ (querySelectorAll_class "reveal-wrapper" w = [] →
     V3.initScrollAnimations w = (Normal tt, w))
  ∧ (querySelectorAll_reveal_not_hero w = [] → P1.initScrollReveal w = (Normal tt, w)).
Proof.
  assert (n ∈ observed (exec V3.initScrollAnimations w)
          ↔ n ∈ observed w ∨ hasClass w n "reveal-wrapper" = true) as H3.
  { unfold V3.initScrollAnimations, exec. unfold bind, gets.
    case_bool_decide as E.
    - apply nil_length_inv in E. cbn. split; [by left|]. intros [H|H]; [done|].
      assert (n ∈ querySelectorAll_class "reveal-wrapper" w) as Hin.
      { apply select_elem_of. split; [done|]. by apply hasClass_exists in H. }
      rewrite E in Hin. by apply elem_of_nil in Hin.
    - rewrite forEach_observe. cbn. rewrite elem_of_union, elem_of_list_to_set.
      unfold querySelectorAll_class. rewrite select_elem_of. split.
      + intros [[H _]|H]; [by right|by left].
      + intros [H|H]; [by right|left]. split; [done|]. by apply hasClass_exists in H. }
  assert (n ∈ querySelectorAll_reveal_not_hero w
          ↔ hasClass w n "reveal-wrapper" = true
            ∧ ¬ ∃ a, a ≠ n ∧ hasClass w a "hero-content" = true ∧ contains w a n = true)
    as Hsel.
  { unfold querySelectorAll_reveal_not_hero. rewrite select_elem_of, andb_true_iff.
    rewrite negb_true_iff, <-not_true_iff_false, inside_class_true. split.
    - by intros [[H1 H2] _].
    - intros [H1 H2]. split; [done|]. by apply hasClass_exists in H1. }
  assert (n ∈ observed (exec P1.initScrollReveal w)
          ↔ n ∈ observed w ∨ n ∈ querySelectorAll_reveal_not_hero w) as H1.
  { unfold P1.initScrollReveal, exec. unfold bind at 1, gets.
    case_bool_decide as E.
    - apply nil_length_inv in E. rewrite E. cbn. split; [by left|].
      intros [H|H]; [done|]. by apply elem_of_nil in H.
    - unfold bind, modify. rewrite forEach_observe. cbn.
      rewrite elem_of_union, elem_of_list_to_set. tauto. }
  split_and!.
  - exact H3.
  - by rewrite H1, Hsel.
  - rewrite H1, H3, Hsel. tauto.
  - intros Hne.
    assert (exec P1.initScrollReveal w
            = with_observed (λ s, list_to_set (querySelectorAll_reveal_not_hero w) ∪ s)
                (with_rafId None (with_visibleElements (λ _, []) w))) as ->; [|done].
    unfold P1.initScrollReveal, exec. unfold bind at 1, gets.
    rewrite bool_decide_eq_false_2 by (by intros ?%nil_length_inv).
    unfold bind, modify. by rewrite forEach_observe.
  - intros E. unfold V3.initScrollAnimations. unfold bind, gets. by rewrite E.
  - intros E. unfold P1.initScrollReveal. unfold bind at 1, gets. by rewrite E.
Qed.

Lemma reveal_init_targets_witness :
  querySelectorAll_reveal_not_hero samplePage ≠ []
  ∧ visibleElements (exec P1.initScrollReveal samplePage) = []
  ∧ rafId (exec P1.initScrollReveal samplePage) = None.
Proof.
  destruct (reveal_init_targets samplePage 10) as (_ & _ & _ & H & _).
  assert (querySelectorAll_reveal_not_hero samplePage ≠ []) as Hne by by vm_compute.
  split; [exact Hne | exact (H Hne)].
Defined.

(** ** Batches without effect, and the lock after a frame *)

Lemma with_observed_id w : with_observed (λ s, s ∖ list_to_set []) w = w.
Proof. destruct w; unfold with_observed; cbn. f_equal. set_solver. Qed.

(** X11.  A callback whose entries all report no intersection changes
    nothing, in either revision; a rendering frame with no commit pending
    changes nothing; and after the callbacks of one frame and the frame's
    commit the controller is back where no reveal is buffered and no commit
    is scheduled, so the next qualifying callback can schedule again. *)
Theorem reveal_quiescence (w : World) :
  (∀ entries, qualifying entries = [] →
     V3.revealObserver entries w = (Normal tt, w)
     ∧ P1.observer entries w = (Normal tt, w))
  ∧ (frameCallbacks w = [] → runAnimationFrame w = (Normal tt, w))
  ∧ (idle w → ∀ batches,
       idle (exec runAnimationFrame (exec (deliver P1.observer batches) w))).
Proof.
  split_and!.
  - intros entries E. rewrite V3_revealObserver_spec, P1_observer_spec, E. cbn.
    split; f_equal.
    + apply with_observed_id.
    + destruct w; unfold with_observed, with_visibleElements; cbn.
      f_equal; [set_solver | by rewrite app_nil_r].
  - intros E. unfold runAnimationFrame. run. rewrite E. cbn.
    destruct w; unfold with_frameCallbacks; cbn in *. by subst.
  - intros (Hv & Hr & Hf & Hc) batches.
    assert (buffered w [] w) as Hb by (unfold buffered; by split_and!).
    destruct (P1_deliver_buffered batches w [] w Hb) as [_ Hb']. cbn [app] in Hb'.
    set (q := concat (qualifying <$> batches)) in *.
    set (w' := exec (deliver P1.observer batches) w) in *.
    pose proof (runAnimationFrame_buffered w q w' Hb') as Hrun.
    destruct Hb' as (Hv' & _ & _ & Hc' & Hq').
    unfold exec at 1. rewrite Hrun. cbn [snd].
    destruct q as [|t q0].
    + destruct Hq' as [Hr' _]. unfold idle. by split_and!.
    + unfold idle. cbn [visibleElements rafId frameCallbacks frameCounter
                        with_rafId with_visibleElements].
      destruct (addVisible_other_fields (t :: q0) (with_frameCallbacks [] w'))
        as (_ & _ & _ & -> & ->).
      by split_and!.
Qed.

Lemma reveal_quiescence_witness :
  idle (exec runAnimationFrame
          (exec (deliver P1.observer [[mkEntry 10 true]; [mkEntry 11 true]]) observingPage)).
Proof.
  destruct (reveal_quiescence observingPage) as (_ & _ & H).
  apply H. by split_and!.
Defined.

(** ** What [initNavigation] registers *)

Lemma forEach_addEventListener (f : node → Listener) (xs : list node) w :
  forEach (λ x, addEventListener (l_target (f x)) (l_type (f x)) (l_closure (f x))) xs w
  = (Normal tt, with_listeners (λ l, l ++ (f <$> xs)) w).
Proof.
  revert w. induction xs as [|x xs IH]; intros w.
  - cbn. unfold ret. f_equal. destruct w; unfold with_listeners; cbn.
    by rewrite app_nil_r.
  - cbn [forEach]. unfold bind, addEventListener at 1, modify. rewrite IH. f_equal.
    destruct w; unfold with_listeners; cbn. rewrite <-app_assoc. cbn.
    by destruct (f x).
Qed.

Lemma same_tree_nodes w1 w2 : nodes w1 = nodes w2 → same_tree w1 w2.
Proof. intros H. unfold same_tree, tagOf. by rewrite H. Qed.

Lemma querySelectorAll_tag_in_nodes root tag w1 w2 :
  nodes w1 = nodes w2 → querySelectorAll_tag_in root tag w1 = querySelectorAll_tag_in root tag w2.
Proof.
  intros H. unfold querySelectorAll_tag_in.
  apply descendants_same_tree; [by apply same_tree_nodes|].
  intros n. unfold tagOf. by rewrite H.
Qed.

(** X12.  On a page with trigger and panel, [initNavigation] registers, in
    this order, one click listener on the trigger, one on every link inside
    the panel and on no other link, and one on the document; when the
    trigger or the panel is missing it registers no click listener at all. *)
Theorem initNavigation_listeners (w : World) :
  let added := λ hamburger link outside,
    match getElementById "hamburger-button" w, getElementById "nav-links-menu" w with
    | Some b, Some m =>
        [mkListener (Some b) "click" (hamburger b m)]
        ++ ((λ l, mkListener (Some l) "click" (link b m)) <$> querySelectorAll_tag_in m "a" w)
        ++ [mkListener None "click" (outside b m)]
    | _, _ => []
    end in
  listeners (exec V3.initNavigation w)
  = listeners w ++ added V3_hamburgerClick V3_linkClick V3_outsideClick
  ∧ listeners (exec P1.initNavigation w)
    = listeners w ++ added P1_hamburgerClick P1_linkClick P1_outsideClick.
Proof.
  cbn zeta. split.
  - unfold V3.initNavigation, exec. unfold bind at 1 2 3 4, gets at 1 2 3 4.
    set (pre := match querySelector_class "main-header" w, _ with
                | Some h, Some s => observeSentinel (stickyCallback h) s
                | _, _ => ret tt
                end).
    assert (∃ w1, pre w = (Normal tt, w1) ∧ nodes w1 = nodes w ∧ listeners w1 = listeners w)
      as (w1 & Hpre & N1 & L1).
    { subst pre. destruct (querySelector_class _ w), (getElementById "header-sentinel" w);
        by eexists. }
    unfold bind at 1. rewrite Hpre.
    destruct (getElementById "hamburger-button" w) as [b|],
      (getElementById "nav-links-menu" w) as [m|]; cbn [snd ret];
      rewrite ?app_nil_r; try done.
    unfold bind at 1, addEventListener at 1, modify at 1.
    unfold bind at 1, gets at 1. unfold bind at 1.
    rewrite (forEach_addEventListener (λ l, mkListener (Some l) "click" (V3_linkClick b m))).
    unfold addEventListener, modify. cbn [snd listeners with_listeners].
    rewrite (querySelectorAll_tag_in_nodes m "a" _ w) by done.
    by rewrite L1, <-!app_assoc.
  - unfold P1.initNavigation, exec. unfold bind at 1 2 3 4, gets at 1 2 3 4.
    set (post := match querySelector_class "main-header" w, _ with
                 | Some h, Some s => observeSentinel (stickyCallback h) s
                 | _, _ => ret tt
                 end).
    assert (∀ w0, listeners (post w0).2 = listeners w0) as Hpost.
    { intros w0. subst post.
      by destruct (querySelector_class _ w), (getElementById "header-sentinel" w). }
    destruct (getElementById "hamburger-button" w) as [b|],
      (getElementById "nav-links-menu" w) as [m|];
      try (unfold bind, ret; rewrite Hpost, ?app_nil_r; done).
    unfold bind at 1. unfold bind at 1, addEventListener at 1, modify at 1.
    unfold bind at 1, gets at 1. unfold bind at 1.
    rewrite (forEach_addEventListener (λ l, mkListener (Some l) "click" (P1_linkClick b m))).
    unfold addEventListener, modify. rewrite Hpost. cbn [listeners with_listeners].
    rewrite (querySelectorAll_tag_in_nodes m "a" _ w) by done.
    by rewrite <-!app_assoc.
Qed.

(** ** What an activation of the facade leaves alone *)

(** X13.  An activation with a locator writes the media element's [src] and
    the placeholder's inline style and nothing else: every other attribute
    (the locator itself included, which is therefore still there for the next
    click), every class and every text stay.  Version 2.0 writes [opacity]
    only; Version 3.0 also writes [pointerEvents]. *)
Theorem facade_writes_only (w : World) (f i : node) (s : string) :
  attr w i "data-src" = Some s → s ≠ "" →
  let v3 := exec (V3.facadeClick f i) w in
  let v2 := exec (V2.facadeClick f i) w in
  (∀ n a, n ≠ i ∨ a ≠ "src" → attr v3 n a = attr w n a ∧ attr v2 n a = attr w n a)
  ∧ attr v3 i "data-src" = Some s ∧ attr v2 i "data-src" = Some s
  ∧ (∀ n c, hasClass v3 n c = hasClass w n c ∧ hasClass v2 n c = hasClass w n c)
  ∧ (∀ n, text v3 n = text w n ∧ text v2 n = text w n)
  ∧ (∀ n p, n ≠ f ∨ (p ≠ "opacity" ∧ p ≠ "pointerEvents") → styleOf v3 n p = styleOf w n p)
  ∧ (∀ n p, n ≠ f ∨ p ≠ "opacity" → styleOf v2 n p = styleOf w n p)
  ∧ timeouts v2 = timeouts w ++ [(500%Z, f)].
Proof.
  intros Hs Hne. cbn zeta.
  assert (V3.facadeClick f i w
          = (Normal tt,
             with_timeouts (λ l, l ++ [(500%Z, f)])
               (set_styleProp f "pointerEvents" "none"
                  (set_styleProp f "opacity" "0" (setAttribute i "src" s w))))) as H3.
  { unfold V3.facadeClick, setTimeout_hide. run. rewrite Hs. cbn.
    by rewrite bool_decide_eq_false_2. }
  assert (V2.facadeClick f i w
          = (Normal tt,
             with_timeouts (λ l, l ++ [(500%Z, f)])
               (set_styleProp f "opacity" "0" (setAttribute i "src" s w)))) as H2.
  { unfold V2.facadeClick, setTimeout_hide. run. rewrite Hs. cbn.
    by rewrite bool_decide_eq_false_2. }
  unfold exec. rewrite H3, H2. cbn [snd].
  assert (∀ n a, n ≠ i ∨ a ≠ "src" →
            attr (with_timeouts (λ l, l ++ [(500%Z, f)])
                    (set_styleProp f "pointerEvents" "none"
                       (set_styleProp f "opacity" "0" (setAttribute i "src" s w)))) n a
            = attr w n a
            ∧ attr (with_timeouts (λ l, l ++ [(500%Z, f)])
                      (set_styleProp f "opacity" "0" (setAttribute i "src" s w))) n a
              = attr w n a) as Hattr.
  { intros n a Hn. dom.
    rewrite attr_setAttribute_ne by (destruct Hn; [left|right]; congruence). done. }
  split_and!; try done.
  - rewrite (proj1 (Hattr i "data-src" ltac:(by right))). done.
  - rewrite (proj2 (Hattr i "data-src" ltac:(by right))). done.
  - intros n c. by dom.
  - intros n. by dom.
  - intros n p Hn. dom.
    rewrite !styleOf_set_ne by (destruct Hn as [?|[? ?]]; [left|right]; congruence).
    by dom.
  - intros n p Hn. dom.
    rewrite !styleOf_set_ne by (destruct Hn; [left|right]; congruence). by dom.
Qed.

Lemma facade_writes_only_witness :
  attr (exec (V2.facadeClick 12 13) samplePage) 13 "data-src"
  = Some "https://my.matterport.com/show".
Proof.
  destruct (facade_writes_only samplePage 12 13 "https://my.matterport.com/show")
    as (_ & _ & H & _).
  - by vm_compute.
  - done.
  - exact H.
Defined.

(** ** Handlers and missing elements *)

Lemma V3_toggleMenu_returns b m w :
  is_Some (nodes w !! body w) → result (V3.toggleMenu b m) w = Normal tt.
Proof.
  intros Hbody. unfold V3.toggleMenu, classList_toggle. run.
  rewrite !document_body_classList_toggled, document_body_setAttribute,
    (document_body_Some w Hbody).
  unfold deref. run.
  match goal with |- context [querySelector_tag_in ?r ?t ?x] =>
    destruct (querySelector_tag_in r t x) end; done.
Qed.

Lemma V3_toggleMenu_no_body b m w :
  nodes w !! body w = None → result (V3.toggleMenu b m) w = Throw TypeError.
Proof.
  intros Hbody. unfold V3.toggleMenu, classList_toggle. run.
  by rewrite !document_body_classList_toggled, document_body_setAttribute,
    (document_body_None w Hbody).
Qed.

Lemma P1_toggleMenu_returns b m force w :
  is_Some (nodes w !! body w) → result (P1.toggleMenu b m force) w = Normal tt.
Proof.
  intros Hbody. unfold P1.toggleMenu, classList_toggle_force. run.
  destruct (if force then false else _);
    match goal with |- context [querySelector_class_in ?r ?t ?x] =>
      destruct (querySelector_class_in r t x) end; cbn [fst snd];
    rewrite ?document_body_set_text, ?document_body_classList_add,
      ?document_body_classList_remove, document_body_setAttribute,
      (document_body_Some w Hbody);
    unfold deref; by run.
Qed.

Lemma P1_toggleMenu_no_body b m force w :
  nodes w !! body w = None → result (P1.toggleMenu b m force) w = Throw TypeError.
Proof.
  intros Hbody. unfold P1.toggleMenu, classList_toggle_force. run.
  destruct (if force then false else _);
    match goal with |- context [querySelector_class_in ?r ?t ?x] =>
      destruct (querySelector_class_in r t x) end; cbn [fst snd];
    by rewrite ?document_body_set_text, ?document_body_classList_add,
      ?document_body_classList_remove, document_body_setAttribute,
      (document_body_None w Hbody).
Qed.

Lemma result_gets_if (f : World → bool) (m : M unit) w :
  result (let* c := gets f in if c then m else ret tt) w
  = if f w then result m w else Normal tt.
Proof. unfold result, bind, gets, ret. cbn. by destruct (f w). Qed.

Lemma V3_outsideClick_returns b m t w :
  is_Some (nodes w !! body w) → result (V3.outsideClick b m t) w = Normal tt.
Proof.
  intros Hbody. unfold V3.outsideClick. rewrite result_gets_if.
  destruct (_ && _); [by apply V3_toggleMenu_returns|done].
Qed.

Lemma P1_outsideClick_returns b m t w :
  is_Some (nodes w !! body w) → result (P1.outsideClick b m t) w = Normal tt.
Proof.
  intros Hbody. unfold P1.outsideClick. rewrite result_gets_if.
  destruct (_ && _); [by apply P1_toggleMenu_returns|done].
Qed.

Lemma V3_facadeClick_returns f i w : result (V3.facadeClick f i) w = Normal tt.
Proof.
  unfold V3.facadeClick. run. destruct (attr w i "data-src") as [s|]; [|done].
  by destruct (truthy_string (Some s)).
Qed.

Lemma V2_facadeClick_returns f i w : result (V2.facadeClick f i) w = Normal tt.
Proof.
  unfold V2.facadeClick. run. destruct (attr w i "data-src") as [s|]; [|done].
  by destruct (truthy_string (Some s)).
Qed.

Lemma V3_themeClick_returns themeIcon w :
  storageStatus w = StorageOk → is_Some (nodes w !! documentElement) →
  result (V3.themeClick themeIcon) w = Normal tt.
Proof.
  intros H Hroot.
  unfold V3.themeClick, V3.updateIcon, classList_toggle, localStorage_setItem.
  run. rewrite (document_documentElement_Some w Hroot). unfold deref. run.
  destruct themeIcon; cbn [fst snd];
    by rewrite ?storageStatus_set_text, storageStatus_classList_toggled, H.
Qed.

Lemma P1_themeClick_returns icon w :
  storageStatus w = StorageOk → is_Some (nodes w !! documentElement) →
  result (P1.themeClick icon) w = Normal tt.
Proof.
  intros H Hroot. unfold P1.themeClick, classList_toggle, localStorage_setItem.
  run. rewrite (document_documentElement_Some w Hroot). unfold deref. run.
  by rewrite ?storageStatus_set_text, storageStatus_classList_toggled, H.
Qed.

Lemma P0_themeClick_returns icon w :
  storageStatus w = StorageOk → is_Some (nodes w !! documentElement) →
  result (P0.themeClick (Some icon)) w = Normal tt.
Proof.
  intros H Hroot. unfold P0.themeClick, P0.updateIcon, classList_toggle,
    localStorage_setItem.
  run. rewrite (document_documentElement_Some w Hroot). unfold deref. run.
  by rewrite ?storageStatus_set_text, storageStatus_classList_toggled, H.
Qed.

Lemma themeClick_no_root w :
  nodes w !! documentElement = None →
  (∀ themeIcon, V3.themeClick themeIcon w = (Throw TypeError, w))
  ∧ (∀ themeIcon, P0.themeClick themeIcon w = (Throw TypeError, w))
  ∧ (∀ icon, P1.themeClick icon w = (Throw TypeError, w)).
Proof.
  intros Hroot. unfold V3.themeClick, P0.themeClick, P1.themeClick. run.
  by rewrite (document_documentElement_None w Hroot).
Qed.

Lemma tame_ret : tame (ret tt).
Proof. by intros w. Qed.

Lemma tame_bind (m k : M unit) : tame m → tame k → tame (m >> k).
Proof.
  intros Hm Hk w Hw. specialize (Hm w Hw). unfold exec, bind in *.
  destruct (m w) as [[[]|e] w1]; cbn in *; [by apply Hk|done].
Qed.

Lemma tame_gets {A} (f : World → A) (k : A → M unit) :
  (∀ a, tame (k a)) → tame (let* a := gets f in k a).
Proof. intros Hk w. apply (Hk (f w) w). Qed.

Lemma tame_forEach {A} (f : A → M unit) (xs : list A) :
  (∀ x, tame (f x)) → tame (forEach f xs).
Proof.
  intros Hf. induction xs as [|x xs IH]; [apply tame_ret|].
  cbn [forEach]. by apply tame_bind.
Qed.

Lemma tame_addEventListener t ty c : guarded c → tame (addEventListener t ty c).
Proof.
  intros Hc w Hw. unfold exec, addEventListener, modify. cbn.
  apply Forall_app. split; [done|]. by apply Forall_singleton.
Qed.

Lemma tame_quiet_listeners (m : M unit) :
  (∀ w, listeners (exec m w) = listeners w) → tame m.
Proof. intros H w Hw. by rewrite H. Qed.

Lemma tame_V3_initNavigation : tame V3.initNavigation.
Proof.
  unfold V3.initNavigation. repeat (apply tame_gets; intros ?).
  apply tame_bind.
  - apply tame_quiet_listeners. intros w. by destruct a as [h|], a0 as [s|].
  - destruct a1 as [b|], a2 as [m|]; try apply tame_ret.
    apply tame_bind; [by apply tame_addEventListener|].
    apply tame_gets. intros links. apply tame_bind.
    + apply tame_forEach. intros link. by apply tame_addEventListener.
    + by apply tame_addEventListener.
Qed.

Lemma tame_P1_initNavigation : tame P1.initNavigation.
Proof.
  unfold P1.initNavigation. repeat (apply tame_gets; intros ?).
  apply tame_bind.
  - destruct a as [b|], a0 as [m|]; try apply tame_ret.
    apply tame_bind; [by apply tame_addEventListener|].
    apply tame_gets. intros links. apply tame_bind.
    + apply tame_forEach. intros link. by apply tame_addEventListener.
    + by apply tame_addEventListener.
  - apply tame_quiet_listeners. intros w. by destruct a1 as [h|], a2 as [s|].
Qed.

Lemma tame_V3_initScrollAnimations : tame V3.initScrollAnimations.
Proof.
  unfold V3.initScrollAnimations. apply tame_gets. intros els.
  case_bool_decide; [apply tame_ret|].
  apply tame_forEach. intros n. by apply tame_quiet_listeners.
Qed.

Lemma tame_P1_initScrollReveal : tame P1.initScrollReveal.
Proof.
  unfold P1.initScrollReveal. apply tame_gets. intros els.
  case_bool_decide; [apply tame_ret|].
  apply tame_bind; [by apply tame_quiet_listeners|].
  apply tame_bind; [by apply tame_quiet_listeners|].
  apply tame_forEach. intros n. by apply tame_quiet_listeners.
Qed.

Lemma tame_V3_initMatterportFacade : tame V3.initMatterportFacade.
Proof.
  unfold V3.initMatterportFacade. repeat (apply tame_gets; intros ?).
  destruct a as [f|], a0 as [i|]; try apply tame_ret. by apply tame_addEventListener.
Qed.

Lemma tame_V2_initMatterportFacade : tame V2.initMatterportFacade.
Proof.
  unfold V2.initMatterportFacade. repeat (apply tame_gets; intros ?).
  destruct a as [f|], a0 as [i|]; try apply tame_ret. by apply tame_addEventListener.
Qed.

Lemma tame_V3_initBackToTop : tame V3.initBackToTop.
Proof.
  unfold V3.initBackToTop. repeat (apply tame_gets; intros ?).
  destruct a as [b|], a0 as [s|]; try apply tame_ret.
  apply tame_bind; [by apply tame_quiet_listeners | by apply tame_addEventListener].
Qed.

Lemma tame_P1_initBackToTop : tame P1.initBackToTop.
Proof.
  unfold P1.initBackToTop. repeat (apply tame_gets; intros ?).
  destruct a as [b|], a0 as [s|]; try apply tame_ret.
  apply tame_bind; [by apply tame_addEventListener | by apply tame_quiet_listeners].
Qed.

Lemma tame_V3_initThemeToggle : tame V3.initThemeToggle.
Proof.
  intros w Hw. unfold V3.initThemeToggle, localStorage_getItem, V3.updateIcon,
    addEventListener.
  run. destruct (storageStatus w); [|done|];
    destruct (getElementById "theme-icon" w), (getElementById "theme-toggle-btn" w);
    cbn; try done; apply Forall_app; (split; [done|]); by apply Forall_singleton.
Qed.

Lemma tame_V2_initThemeToggle : tame V2.initThemeToggle.
Proof.
  intros w Hw. unfold V2.initThemeToggle, localStorage_getItem, V2.updateIcon,
    V3.updateIcon, addEventListener.
  run. unfold document_documentElement.
  destruct (storageStatus w); [|done|];
    destruct (bool_decide _ || _);
    destruct (nodes w !! documentElement); unfold deref; run; try done;
    destruct (getElementById "theme-icon" w), (getElementById "theme-toggle-btn" w);
    cbn; try done; apply Forall_app; (split; [done|]); by apply Forall_singleton.
Qed.

Lemma tame_P1_initThemeToggle : tame P1.initThemeToggle.
Proof.
  intros w Hw. unfold exec. rewrite P1_initThemeToggle_spec. cbn [snd].
  destruct (getElementById "theme-toggle-btn" w), (getElementById "theme-icon" w);
    try done.
  destruct (hasClass w documentElement "dark-mode"); cbn;
    apply Forall_app; (split; [done|]); by apply Forall_singleton.
Qed.



(** ** A page with none of the expected elements *)

Lemma seq_noop (m k : M unit) w : m w = (Normal tt, w) → (m >> k) w = k w.
Proof. unfold bind. by intros ->. Qed.

Lemma select_nil_mono (test test' : node → bool) w :
  (∀ n, test' n = true → test n = true) → select test w = [] → select test' w = [].
Proof.
  unfold select. induction (seq 0 (length (nodes w))) as [|x xs IH]; [done|].
  intros Hsub. cbn. destruct (test x) eqn:E; [done|]. intros Hnil.
  destruct (test' x) eqn:E'; [|by apply IH].
  apply Hsub in E'. congruence.
Qed.

Lemma noControls_dark w :
  noControls w → noControls (classList_add documentElement "dark-mode" w).
Proof.
  intros [Hids Hrev]. split.
  - eapply Forall_impl; [exact Hids|]. intros id Hid. cbn beta in *. rewrite <- Hid.
    apply getElementById_ext; [apply length_mutate|]. intros n. apply attr_classList_add.
  - unfold querySelectorAll_class in *. rewrite <- Hrev.
    apply select_ext; [apply length_mutate|]. intros n. apply hasClass_add_ne. by right.
Qed.

Ltac lookups :=
  repeat match goal with H : getElementById _ _ = None |- _ => rewrite H; clear H end.

Lemma noControls_V3_initNavigation w : noControls w → V3.initNavigation w = (Normal tt, w).
Proof.
  intros [Hids _]. repeat (apply Forall_cons in Hids as [? Hids]).
  unfold V3.initNavigation, bind, gets. lookups.
  by destruct (querySelector_class "main-header" w).
Qed.

Lemma noControls_P1_initNavigation w : noControls w → P1.initNavigation w = (Normal tt, w).
Proof.
  intros [Hids _]. repeat (apply Forall_cons in Hids as [? Hids]).
  unfold P1.initNavigation, bind, gets. lookups.
  by destruct (querySelector_class "main-header" w).
Qed.

Lemma noControls_V3_initScrollAnimations w :
  noControls w → V3.initScrollAnimations w = (Normal tt, w).
Proof. intros [_ Hrev]. unfold V3.initScrollAnimations, bind, gets. by rewrite Hrev. Qed.

Lemma noControls_P1_initScrollReveal w :
  noControls w → P1.initScrollReveal w = (Normal tt, w).
Proof.
  intros [_ Hrev].
  assert (querySelectorAll_reveal_not_hero w = []) as Hrev'.
  { revert Hrev. apply select_nil_mono. intros n Hn. by apply andb_true_iff in Hn as [? _]. }
  unfold P1.initScrollReveal, bind, gets. by rewrite Hrev'.
Qed.

Lemma noControls_V3_initMatterportFacade w :
  noControls w → V3.initMatterportFacade w = (Normal tt, w).
Proof.
  intros [Hids _]. repeat (apply Forall_cons in Hids as [? Hids]).
  unfold V3.initMatterportFacade, bind, gets. lookups.
  by destruct (querySelector_class "matterport-facade" w).
Qed.

Lemma noControls_V2_initMatterportFacade w :
  noControls w → V2.initMatterportFacade w = (Normal tt, w).
Proof.
  intros [Hids _]. repeat (apply Forall_cons in Hids as [? Hids]).
  unfold V2.initMatterportFacade, bind, gets. lookups.
  by destruct (querySelector_class "matterport-facade" w).
Qed.

Lemma noControls_V3_initBackToTop w : noControls w → V3.initBackToTop w = (Normal tt, w).
Proof.
  intros [Hids _]. repeat (apply Forall_cons in Hids as [? Hids]).
  unfold V3.initBackToTop, bind, gets. by lookups.
Qed.

Lemma noControls_P1_initBackToTop w : noControls w → P1.initBackToTop w = (Normal tt, w).
Proof.
  intros [Hids _]. repeat (apply Forall_cons in Hids as [? Hids]).
  unfold P1.initBackToTop, bind, gets. by lookups.
Qed.

Lemma noControls_P1_initThemeToggle w : noControls w → P1.initThemeToggle w = (Normal tt, w).
Proof.
  intros [Hids _]. repeat (apply Forall_cons in Hids as [? Hids]).
  unfold P1.initThemeToggle, bind, gets. by lookups.
Qed.

Lemma noControls_P0_initThemeToggle w :
  noControls w → is_Some (nodes w !! documentElement) →
  hasClass w documentElement "dark-mode" = false →
  P0.initThemeToggle w = (Normal tt, w).
Proof.
  intros [Hids _] Hroot Hd. repeat (apply Forall_cons in Hids as [? Hids]).
  unfold P0.initThemeToggle, bind, gets.
  rewrite (document_documentElement_Some w Hroot). unfold deref, ret.
  rewrite Hd. by lookups.
Qed.

Lemma P0_initThemeToggle_no_root w :
  nodes w !! documentElement = None → P0.initThemeToggle w = (Throw TypeError, w).
Proof.
  intros Hroot. unfold P0.initThemeToggle, bind, gets.
  by rewrite (document_documentElement_None w Hroot).
Qed.

Lemma noControls_V3_initThemeToggle w :
  noControls w → storageStatus w ≠ StorageDenied → V3.initThemeToggle w = (Normal tt, w).
Proof.
  intros [Hids _] Hst. repeat (apply Forall_cons in Hids as [? Hids]).
  unfold V3.initThemeToggle, bind, gets, localStorage_getItem, V3.updateIcon. lookups.
  by destruct (storageStatus w).
Qed.

Lemma noControls_V2_initThemeToggle w :
  noControls w → storageStatus w ≠ StorageDenied →
  is_Some (nodes w !! documentElement) →
  V2.initThemeToggle w
  = (Normal tt,
     if V3.isDarkInitial (storage w !! "theme") (prefersDark w)
     then classList_add documentElement "dark-mode" w else w).
Proof.
  intros [Hids _] Hst Hroot. repeat (apply Forall_cons in Hids as [? Hids]).
  unfold V2.initThemeToggle, bind, gets, localStorage_getItem, V2.updateIcon,
    V3.updateIcon, V3.isDarkInitial, modify. lookups.
  rewrite (document_documentElement_Some w Hroot). unfold deref, ret.
  destruct (storageStatus w); [|done|]; by destruct (bool_decide _ || _).
Qed.

Lemma noControls_V2_initThemeToggle_light w :
  noControls w → storageStatus w ≠ StorageDenied →
  V3.isDarkInitial (storage w !! "theme") (prefersDark w) = false →
  V2.initThemeToggle w = (Normal tt, w).
Proof.
  intros [Hids _] Hst Hd. repeat (apply Forall_cons in Hids as [? Hids]).
  unfold V2.initThemeToggle, bind, gets, localStorage_getItem, V2.updateIcon,
    V3.updateIcon, V3.isDarkInitial, modify, ret in *. lookups.
  destruct (storageStatus w); [|done|]; by rewrite Hd.
Qed.

(** X15.  On a page that has none of the looked-up elements, running
    part_000's second document changes nothing at all; neither does
    script.js Version 3.0 when the store can be read.  Version 2.0 then only
    puts the dark-mode class on the root element when the stored or system
    preference is dark, and part_000's first document changes nothing when
    the root element is not in dark mode.  On a document without a root
    element these two read [htmlElement.classList] of [null]: part_000's
    first document always, Version 2.0 when dark is selected; they throw
    [TypeError] and leave everything as it was. *)
Theorem missing_elements_noop (w : World) :
  noControls w →
  let dark := V3.isDarkInitial (storage w !! "theme") (prefersDark w) in
  P1.main w = (Normal tt, w)
  ∧ (is_Some (nodes w !! documentElement) →
     hasClass w documentElement "dark-mode" = false → P0.main w = (Normal tt, w))
  ∧ (nodes w !! documentElement = None → P0.main w = (Throw TypeError, w))
  ∧ (storageStatus w ≠ StorageDenied →
     V3.main w = (Normal tt, w)
     ∧ (is_Some (nodes w !! documentElement) →
        V2.main w
        = (Normal tt, if dark then classList_add documentElement "dark-mode" w else w))
     ∧ (nodes w !! documentElement = None →
        V2.main w = if dark then (Throw TypeError, w) else (Normal tt, w))).
Proof.
  intros Hw. cbn zeta. split_and!.
  - unfold P1.main.
    by rewrite (seq_noop _ _ w (noControls_P1_initNavigation w Hw)),
      (seq_noop _ _ w (noControls_P1_initScrollReveal w Hw)),
      (seq_noop _ _ w (noControls_P1_initThemeToggle w Hw)),
      (noControls_P1_initBackToTop w Hw).
  - intros Hroot Hd. unfold P0.main.
    by rewrite (seq_noop _ _ w (noControls_P0_initThemeToggle w Hw Hroot Hd)),
      (seq_noop _ _ w (noControls_V3_initNavigation w Hw)),
      (seq_noop _ _ w (noControls_V3_initScrollAnimations w Hw)),
      (noControls_V3_initBackToTop w Hw).
  - intros Hroot. unfold P0.main. apply seq_throw. by apply P0_initThemeToggle_no_root.
  - intros Hst. split_and!.
    + unfold V3.main.
      by rewrite (seq_noop _ _ w (noControls_V3_initThemeToggle w Hw Hst)),
        (seq_noop _ _ w (noControls_V3_initNavigation w Hw)),
        (seq_noop _ _ w (noControls_V3_initScrollAnimations w Hw)),
        (seq_noop _ _ w (noControls_V3_initMatterportFacade w Hw)),
        (noControls_V3_initBackToTop w Hw).
    + intros Hroot. unfold V2.main, bind at 1.
      rewrite (noControls_V2_initThemeToggle w Hw Hst Hroot).
      set (w' := if V3.isDarkInitial _ _ then _ else w).
      assert (noControls w') as Hw'.
      { subst w'. destruct (V3.isDarkInitial _ _); [by apply noControls_dark|done]. }
      by rewrite (seq_noop _ _ w' (noControls_V3_initNavigation w' Hw')),
        (seq_noop _ _ w' (noControls_V2_initMatterportFacade w' Hw')),
        (seq_noop _ _ w' (noControls_V3_initScrollAnimations w' Hw')),
        (noControls_V3_initBackToTop w' Hw').
    + intros Hroot.
      destruct (V3.isDarkInitial (storage w !! "theme") (prefersDark w)) eqn:Hd.
      * unfold V2.main. apply seq_throw. by apply V2_initThemeToggle_rootless.
      * unfold V2.main.
        by rewrite (seq_noop _ _ w (noControls_V2_initThemeToggle_light w Hw Hst Hd)),
          (seq_noop _ _ w (noControls_V3_initNavigation w Hw)),
          (seq_noop _ _ w (noControls_V2_initMatterportFacade w Hw)),
          (seq_noop _ _ w (noControls_V3_initScrollAnimations w Hw)),
          (noControls_V3_initBackToTop w Hw).
Qed.

Lemma missing_elements_noop_witness :
  noControls barePage
  ∧ P1.main barePage = (Normal tt, barePage)
  ∧ P0.main barePage = (Normal tt, barePage)
  ∧ P0.main emptyDarkPage = (Throw TypeError, emptyDarkPage).
Proof.
  assert (noControls barePage) as Hw.
  { split; [|by vm_compute]. repeat constructor; by vm_compute. }
  assert (noControls emptyDarkPage) as Hw0.
  { split; [|by vm_compute]. repeat constructor; by vm_compute. }
  destruct (missing_elements_noop _ Hw) as (H1 & H0 & _).
  destruct (missing_elements_noop _ Hw0) as (_ & _ & He & _).
  split_and!; [exact Hw | exact H1 | apply H0; [by eexists | by vm_compute] | by apply He].
Defined.
